(** * Fire help-desk IVR bot: the callback handler of [main.py]

    A shallow embedding of the Flask view [callback_events_handler] and of the
    helpers it calls, followed by the properties of the dialog that the
    specification states about it.

    The Python module keeps the whole dialog in module-level globals
    ([current_employee], [new_phone_number], [current_ticket],
    [retry_object], [TARGET_PHONE_NUMBER]); the embedding threads them as one
    record through a small monad that also records, in order, what the
    handler asks of its collaborators (telephony gateway, e-mail service,
    employee directory) and whether a Python exception left the view. *)

From Stdlib Require Import String Ascii ZArith List Lia Bool DecimalString.
From stdpp Require Import gmap strings.
Import ListNotations.

Local Open Scope string_scope.
Local Open Scope Z_scope.

(** ** Python [str] methods used by the handler

    Strings are byte strings; [lower] and [upper] act on the ASCII letters
    and leave every other byte as it is, which is what Python does on ASCII
    text. *)

Definition is_ascii_upper (c : ascii) : bool :=
  ((65 <=? nat_of_ascii c) && (nat_of_ascii c <=? 90))%nat.

Definition is_ascii_lower (c : ascii) : bool :=
  ((97 <=? nat_of_ascii c) && (nat_of_ascii c <=? 122))%nat.

Definition lower_char (c : ascii) : ascii :=
  if is_ascii_upper c then ascii_of_nat (nat_of_ascii c + 32) else c.

Definition upper_char (c : ascii) : ascii :=
  if is_ascii_lower c then ascii_of_nat (nat_of_ascii c - 32) else c.

Fixpoint lower (s : string) : string :=
  match s with
  | EmptyString => EmptyString
  | String c r => String (lower_char c) (lower r)
  end.

Fixpoint upper (s : string) : string :=
  match s with
  | EmptyString => EmptyString
  | String c r => String (upper_char c) (upper r)
  end.

(** ASCII text: every byte is below 128.  On such text [lower] and [upper]
    are Python's [str.lower] and [str.upper]; on other text Python maps
    code points the byte-wise functions leave alone, so the theorems whose
    statement shows a case-mapped string assume ASCII text. *)
Definition is_ascii (c : ascii) : bool := (nat_of_ascii c <? 128)%nat.

Definition ascii_text (s : string) : bool :=
  forallb is_ascii (list_ascii_of_string s).

(** [s.replace(old, new)] for a one-character [old], the only form the
    handler uses (with [new] empty). *)
Fixpoint replace (old : ascii) (new s : string) : string :=
  match s with
  | EmptyString => EmptyString
  | String c r =>
      if Ascii.eqb c old then new ++ replace old new r
      else String c (replace old new r)
  end.

Definition space : ascii := " "%char.
Definition period : ascii := "."%char.
Definition newline : string := String (ascii_of_nat 10) EmptyString.

(** ** Data model *)

Record Employee := mkEmployee {
  employee_id : string;
  first_name : string;
  last_name : string;
  display_name : string;
  telephone_number : string;
  email_address : string
}.

(** [Ticket]: every field is a [str], except that [phone_number] can be
    assigned the global [new_phone_number] while that is still [None]. *)
Record Ticket := mkTicket {
  name : string;
  id_num : string;
  contact_method : string;
  phone_number : option string;
  email : string;
  work_mode : string;
  work_address : string;
  urgency : string;
  issue_description : string
}.

(** [Ticket()] with all its default arguments. *)
Definition Ticket_new : Ticket :=
  mkTicket EmptyString EmptyString EmptyString (Some EmptyString) EmptyString
           EmptyString EmptyString EmptyString EmptyString.

(** [f"{v}"] for a value that is a [str] or [None]. *)
Definition format_value (v : option string) : string :=
  match v with
  | Some s => s
  | None => "None"
  end.

(** The nine lines of [Ticket.__str__], in source order. *)
Definition Ticket_lines (t : Ticket) : list string :=
  [ "Employee #: " ++ upper (id_num t);
    "Name: " ++ name t;
    "Best method of contact: " ++ lower (contact_method t);
    "Phone Number: " ++ format_value (phone_number t);
    "Email: " ++ lower (email t);
    "Work location: " ++ lower (work_mode t);
    "Work Address: " ++ lower (work_address t);
    "Urgency tier: " ++ lower (urgency t);
    "Description of Issue: " ++ issue_description t ].

(** [Ticket.__str__]: one f-string, each piece but the last ending in a
    newline. *)
Definition Ticket_str (t : Ticket) : string :=
  ("Employee #: " ++ upper (id_num t) ++ newline) ++
  ("Name: " ++ name t ++ newline) ++
  ("Best method of contact: " ++ lower (contact_method t) ++ newline) ++
  ("Phone Number: " ++ format_value (phone_number t) ++ newline) ++
  ("Email: " ++ lower (email t) ++ newline) ++
  ("Work location: " ++ lower (work_mode t) ++ newline) ++
  ("Work Address: " ++ lower (work_address t) ++ newline) ++
  ("Urgency tier: " ++ lower (urgency t) ++ newline) ++
  ("Description of Issue: " ++ issue_description t).

(** The SDK's [DtmfTone] enumeration, which the module imports; a
    [dtmfResult] carries the tones by their string values. *)
Inductive DtmfTone :=
| ZERO | ONE | TWO | THREE | FOUR | FIVE | SIX | SEVEN | EIGHT | NINE
| TONE_A | TONE_B | TONE_C | TONE_D | POUND | ASTERISK.

Definition tone_value (t : DtmfTone) : string :=
  match t with
  | ZERO => "zero" | ONE => "one" | TWO => "two" | THREE => "three"
  | FOUR => "four" | FIVE => "five" | SIX => "six" | SEVEN => "seven"
  | EIGHT => "eight" | NINE => "nine"
  | TONE_A => "a" | TONE_B => "b" | TONE_C => "c" | TONE_D => "d"
  | POUND => "pound" | ASTERISK => "asterisk"
  end.

Record RecognitionChoice := mkChoice {
  label : string;
  phrases : list string;
  tone : DtmfTone
}.

(** [RetryObject]: the class spells its initialiser [__int__], so
    [RetryObject()] sets no attribute at all.  An attribute is [None] here
    until the first assignment to it; reading it before that raises
    [AttributeError]. *)
Record RetryObject := mkRetry {
  context : option string;
  choices : option (list RecognitionChoice);
  mode : option string;
  counter : option Z
}.

Definition RetryObject_new : RetryObject := mkRetry None None None None.

(** [RetryObject.reset]. *)
Definition reset (r : RetryObject) : RetryObject :=
  mkRetry (Some EmptyString) (Some []) (Some EmptyString) (Some 0).

(** The module-level globals the handler reads and writes.
    [TARGET_PHONE_NUMBER] is assigned by [inbound_call_handler] when the call
    is answered, before any callback event of that call exists. *)
Record Globals := mkGlobals {
  current_employee : option Employee;
  new_phone_number : option string;
  current_ticket : Ticket;
  retry_object : RetryObject;
  TARGET_PHONE_NUMBER : string
}.

(** The globals as the module leaves them at import time, once a call from
    [target] has been answered. *)
Definition Globals_init (target : string) : Globals :=
  mkGlobals None None Ticket_new RetryObject_new target.

(** ** Inbound events

    One element of the JSON array posted to [/api/callbacks], as
    [CloudEvent.from_dict] presents it: the event type and the fields of
    [event.data] that the handler reads. *)

Inductive RecognizeResult :=
| choices_result (choice_label : string) (recognizedPhrase : option string)
| speech_result (speech : string)
| dtmf_result (tones : list DtmfTone)
| other_result.  (* any other [recognitionType] *)

Record ResultInformation := mkResultInformation {
  code : Z;
  subCode : Z;
  message : string
}.

Inductive EventType :=
| CallConnected
| RecognizeCompleted (operationContext : string) (result : RecognizeResult)
| RecognizeFailed (operationContext : string) (resultInformation : ResultInformation)
| PlayCompleted
| PlayFailed
| OtherEvent.

Record CloudEvent := mkEvent {
  callConnectionId : string;
  event_type : EventType
}.

(** ** What the handler asks of its collaborators *)

Inductive RecognizeInputType := CHOICES | SPEECH | SPEECH_OR_DTMF.

(** The arguments of [start_recognizing_media] that vary from call to call
    (the voice and the two silence timeouts are constants). *)
Record RecognizeRequest := mkRequest {
  input_type : RecognizeInputType;
  target_participant : string;
  request_choices : option (list RecognitionChoice);
  play_prompt : string;
  dtmf_max_tones_to_collect : option Z;
  operation_context : string
}.

Inductive Directive :=
| start_recognizing_media (r : RecognizeRequest)
| play_media (text : string) (operation_context : option string)
| hang_up.

Record EmailMessage := mkMessage {
  senderAddress : string;
  recipients_to : list string;
  subject : string;
  plainText : string
}.

Inductive EmailFailure :=
| BeginSendRaised
| PollingTimedOut
| StatusNotSucceeded.

Inductive LogEntry :=
| EmailPollerStatus
| EmailSucceeded
| EmailException (ex : EmailFailure).

(** The trace of one handler run.  [Gateway c d] is directive [d] issued
    through the call connection client of connection [c]; [DirectoryGet k]
    notes that [employee_dict.get(k, ...)] was evaluated; [Log] holds the
    log lines of [send_email] (the other informational log lines are not
    traced). *)
Inductive Effect :=
| Gateway (call_connection_id : string) (d : Directive)
| BeginSend (m : EmailMessage)
| DirectoryGet (key : string)
| Log (entry : LogEntry).

(** The behaviour of the e-mail service during one [send_email]: whether
    [begin_send] raises, how many [poller.wait] calls it takes until
    [poller.done()], and whether the final status is ["Succeeded"]. *)
Record EmailService := mkEmailService {
  begin_send_raises : bool;
  waits_until_done : nat;
  status_succeeded : bool
}.

(** ** The handler monad: globals, trace, and Python exceptions *)

Inductive Exn := AttributeError | TypeError | ValueError.

Inductive Res (A : Type) :=
| Val (a : A)
| Exc (e : Exn).
Arguments Val {A} a.
Arguments Exc {A} e.

(** A computation maps the globals to a result, the new globals and the
    effects it performed.  An exception keeps the globals and the effects
    reached so far, as in Python. *)
Definition M (A : Type) : Type := Globals -> Res A * Globals * list Effect.

Definition ret {A} (a : A) : M A := fun g => (Val a, g, []).

Definition bind {A B} (m : M A) (k : A -> M B) : M B :=
  fun g =>
    match m g with
    | (Val a, g1, t1) =>
        match k a g1 with
        | (r, g2, t2) => (r, g2, (t1 ++ t2)%list)
        end
    | (Exc e, g1, t1) => (Exc e, g1, t1)
    end.

Definition raise {A} (e : Exn) : M A := fun g => (Exc e, g, []).
Definition get_globals : M Globals := fun g => (Val g, g, []).
Definition put_globals (g' : Globals) : M unit := fun _ => (Val tt, g', []).
Definition emit (e : Effect) : M unit := fun g => (Val tt, g, [e]).

Declare Scope py_scope.
Delimit Scope py_scope with py.
Notation "x <- c1 ;; c2" := (bind c1 (fun x => c2))
  (at level 100, c1 at next level, right associativity) : py_scope.
Notation "c1 ;; c2" := (bind c1 (fun _ => c2))
  (at level 100, right associativity) : py_scope.
Local Open Scope py_scope.

(** A bare [if cond:] with no [else]. *)
Definition when (b : bool) (m : M unit) : M unit := if b then m else ret tt.

(** Reading an attribute that may not have been assigned yet. *)
Definition getattr {A} (v : option A) : M A :=
  match v with
  | Some a => ret a
  | None => raise AttributeError
  end.

Definition result_of {A} (x : Res A * Globals * list Effect) : Res A := fst (fst x).
Definition globals_of {A} (x : Res A * Globals * list Effect) : Globals := snd (fst x).
Definition trace_of {A} (x : Res A * Globals * list Effect) : list Effect := snd x.

(** Updates of single globals and attributes. *)
Definition set_retry (f : RetryObject -> RetryObject) : M unit :=
  fun g => (Val tt,
            mkGlobals (current_employee g) (new_phone_number g) (current_ticket g)
                      (f (retry_object g)) (TARGET_PHONE_NUMBER g), []).

Definition set_ticket (f : Ticket -> Ticket) : M unit :=
  fun g => (Val tt,
            mkGlobals (current_employee g) (new_phone_number g) (f (current_ticket g))
                      (retry_object g) (TARGET_PHONE_NUMBER g), []).

Definition set_context (c : string) (r : RetryObject) : RetryObject :=
  mkRetry (Some c) (choices r) (mode r) (counter r).
Definition set_mode (m : string) (r : RetryObject) : RetryObject :=
  mkRetry (context r) (choices r) (Some m) (counter r).
Definition set_choices (cs : list RecognitionChoice) (r : RetryObject) : RetryObject :=
  mkRetry (context r) (Some cs) (mode r) (counter r).
Definition set_counter (n : Z) (r : RetryObject) : RetryObject :=
  mkRetry (context r) (choices r) (mode r) (Some n).

Definition set_id_num (v : string) (t : Ticket) : Ticket :=
  mkTicket (name t) v (contact_method t) (phone_number t) (email t)
           (work_mode t) (work_address t) (urgency t) (issue_description t).
Definition set_name (v : string) (t : Ticket) : Ticket :=
  mkTicket v (id_num t) (contact_method t) (phone_number t) (email t)
           (work_mode t) (work_address t) (urgency t) (issue_description t).
Definition set_contact_method (v : string) (t : Ticket) : Ticket :=
  mkTicket (name t) (id_num t) v (phone_number t) (email t)
           (work_mode t) (work_address t) (urgency t) (issue_description t).
Definition set_phone_number (v : option string) (t : Ticket) : Ticket :=
  mkTicket (name t) (id_num t) (contact_method t) v (email t)
           (work_mode t) (work_address t) (urgency t) (issue_description t).
Definition set_email (v : string) (t : Ticket) : Ticket :=
  mkTicket (name t) (id_num t) (contact_method t) (phone_number t) v
           (work_mode t) (work_address t) (urgency t) (issue_description t).
Definition set_work_mode (v : string) (t : Ticket) : Ticket :=
  mkTicket (name t) (id_num t) (contact_method t) (phone_number t) (email t)
           v (work_address t) (urgency t) (issue_description t).
Definition set_work_address (v : string) (t : Ticket) : Ticket :=
  mkTicket (name t) (id_num t) (contact_method t) (phone_number t) (email t)
           (work_mode t) v (urgency t) (issue_description t).
Definition set_urgency (v : string) (t : Ticket) : Ticket :=
  mkTicket (name t) (id_num t) (contact_method t) (phone_number t) (email t)
           (work_mode t) (work_address t) v (issue_description t).
Definition set_issue_description (v : string) (t : Ticket) : Ticket :=
  mkTicket (name t) (id_num t) (contact_method t) (phone_number t) (email t)
           (work_mode t) (work_address t) (urgency t) v.

Infix "==" := String.eqb (at level 70, no associativity) : py_scope.

(** ** Module constants *)

Definition SENDER_ADDRESS : string := "ENTER AZURE EMAIL RESOURCE MAIL-FROM ADDRESS HERE".
Definition RECIPIENT_ADDRESS : string := "www.tech.footprints@fire.lacounty.gov".
Definition MAIN_MENU : string :=
  "Hello! Welcome to the Los Angeles Fire Department Help Desk Phone Line. ...".
Definition CUSTOMER_QUERY_TIMEOUT : string :=
  "I’m sorry I didn’t receive a response, please try again.".
Definition INVALID_AUDIO : string :=
  "I’m sorry, I didn’t understand your response, please try again.".
Definition CONFIRM_CHOICE_LABEL : string := "Confirm".
Definition CANCEL_CHOICE_LABEL : string := "No".
Definition TICKET_CHOICE_LABEL : string := "Ticket".
Definition MCU_CHOICE_LABEL : string := "MCU".
Definition GOODBYE : string := "Goodbye for now!".
Definition FATAL_ERROR_MESSAGE : string :=
  "I apologize, but there was a systematic error in the call. Please call again.".

(** The escalation message played when the retry counter passes 2. *)
Definition RETRY_COUNT_REACHED_MESSAGE : string :=
  "I apologize. It looks like we are having an issue understanding each other. Let me connect you to a live agent. Goodbye for now!".

(** The prompts the handler builds inline, named after the place that plays
    them. *)
Definition START_AGAIN_MENU : string :=
  "Hmm. Okay. Let's start again. How can I help you today?. Please say 'file ticket', if you would like to file a service ticket, or say 'radio' to be connected to a live agent. Alternatively, you can press 'one' to file a ticket, or press 'zero' to speak to an agent ".
Definition IN_PRODUCTION_MENU : string :=
  "This feature is currently in production still. Let's start again. How can I help you today?. Please say 'file ticket', if you would like to file a service ticket, or say 'radio' to be connected to a live agent. Alternatively, you can press 'one' to file a ticket, or press 'zero' to speak to an agent ".
Definition ASK_WORK_LOCATION : string :=
  "Okay. Now, where are you working from? Say 'office' if you are working from an on site location, or say 'telework' if you are working from a remote location, or press 'one' for in-office, or 'two' for telework. ".
Definition ASK_CONTACT_METHOD : string :=
  "Okay. Now, What is the best way to contact you? Say 'email' if you would like to be contacted via email,  or say 'phone' if you would like to be contacted via phone call. Or, press 'one' for email, or press 'two' for phone. ".
Definition ASK_URGENCY : string :=
  "Okay. Lastly, what is the urgency of this issue? Please say 'low', 'medium', or 'high', or press 'one' for low, press 'two' for medium, or press 'three' for high. Please note, when filing a high urgency ticket, the issue will be escalated in the ticket queue. Please choose accordingly. ".
Definition ISSUE_LOGGED : string :=
  "I understand. Sorry to hear that your dealing with that today. Ive logged this issue successfully. Someone should be reaching out to you shortly, via your provided best contact method. We look forward to getting this issue resolved for you. Now, is there anything else I can assist you with? Say 'yes', or feel free to hang up ".
Definition EMPLOYEE_NOT_FOUND : string :=
  "I couldn't find an employee under that I.D. number. Let's try one more time. Can you please say your employee ID number? ".
Definition SIX_DIGITS_EXPECTED : string :=
  "Employee ID numbers should have 6 digits. Let's try again. Can you please say or enter your employee ID number? ".
Definition INVALID_CHARACTER : string :=
  "You entered an invalid character. Employee ID numbers should consist of six numerical digits. Let's try again. Can you please say or enter your employee ID number? ".
Definition IS_YOUR_NAME (first : string) : string :=
  "Great. Give me a moment while I look up your information... Is your name " ++ first ++ "?".
Definition YOU_SAID (number : string) : string :=
  "You said " ++ number ++ ". Is this correct?".

Definition MCU_PHRASES : list string :=
  ["Speak to radio"; "Speak to a person"; "Speak to radio controlled unit"; "Transfer to person"].

Definition get_menu_choices : list RecognitionChoice :=
  [ mkChoice TICKET_CHOICE_LABEL ["File ticket"] ONE;
    mkChoice MCU_CHOICE_LABEL MCU_PHRASES ZERO ].

Definition get_confirm_choices : list RecognitionChoice :=
  [ mkChoice CONFIRM_CHOICE_LABEL ["Yes"; "First"; "One"] ONE;
    mkChoice CANCEL_CHOICE_LABEL ["No"; "Second"; "Two"] TWO;
    mkChoice MCU_CHOICE_LABEL MCU_PHRASES ZERO ].

Definition get_urgency_choices : list RecognitionChoice :=
  [ mkChoice "Low" ["Low"; "First"; "One"] ONE;
    mkChoice "Medium" ["Medium"; "Second"; "Two"] TWO;
    mkChoice "High" ["High"; "Third"; "Three"] THREE ].

Definition get_workmode_choices : list RecognitionChoice :=
  [ mkChoice "Office" ["Office"; "In office"; "On site"; "On location"; "First"; "One"] ONE;
    mkChoice "Telework" ["Telework"; "Work from home"; "Remote"; "Second"; "Two"] TWO ].

Definition get_contact_method_choices : list RecognitionChoice :=
  [ mkChoice "Phone" ["Phone"; "Telephone"; "Call"; "By phone"; "By telephone"; "First"; "One"] ONE;
    mkChoice "Email" ["Email"; "By email"; "Two"] TWO ].

Definition get_additional_request_choices : list RecognitionChoice :=
  [ mkChoice "Yes" ["Yes"; "Additional request"; "Another ticket"; "Additional ticket"; "First"; "One"] ONE;
    mkChoice "No" ["No"; "End call"; "Finish"; "Hang up"; "Second"; "Two"] TWO ].

(** ** The helpers of the handler

    [call_connection_client] is the client of one connection, identified by
    its connection id. *)

Definition get_media_recognize_choice_options
    (call_connection_client text_to_play target_participant : string)
    (choices : list RecognitionChoice) (context : string) : M unit :=
  set_retry (set_context context) ;;
  set_retry (set_mode "choices") ;;
  set_retry (set_choices choices) ;;
  emit (Gateway call_connection_client
          (start_recognizing_media
             (mkRequest CHOICES target_participant (Some choices) text_to_play None context))).

Definition handle_play (call_connection_client text_to_play : string)
    (operation_context : option string) : M unit :=
  emit (Gateway call_connection_client (play_media text_to_play operation_context)).

Definition get_media_recognize_speech_input
    (call_connection_client text_to_play target_participant context : string) : M unit :=
  set_retry (set_context context) ;;
  set_retry (set_mode "speech") ;;
  emit (Gateway call_connection_client
          (start_recognizing_media
             (mkRequest SPEECH target_participant None text_to_play None context))).

Definition get_media_recognize_speech_or_dtmf_input
    (call_connection_client text_to_play target_participant context : string) : M unit :=
  set_retry (set_context context) ;;
  set_retry (set_mode "speech_or_dtmf") ;;
  let MAX_TONES := if context == "provide_eid" then 6 else 10 in
  emit (Gateway call_connection_client
          (start_recognizing_media
             (mkRequest SPEECH_OR_DTMF target_participant None text_to_play
                        (Some MAX_TONES) context))).

Definition modify_current_employee (employee : Employee) : M unit :=
  fun g => (Val tt,
            mkGlobals (Some employee) (new_phone_number g) (current_ticket g)
                      (retry_object g) (TARGET_PHONE_NUMBER g), []).

Definition modify_new_phone_number (num : string) : M unit :=
  fun g => (Val tt,
            mkGlobals (current_employee g) (Some num) (current_ticket g)
                      (retry_object g) (TARGET_PHONE_NUMBER g), []).

Definition reset_ticket : M unit := set_ticket (fun _ => Ticket_new).

(** Reading the globals [current_employee] and [new_phone_number] where the
    handler takes an attribute of the first or concatenates the second:
    [None] raises there. *)
Definition the_current_employee : M Employee :=
  g <- get_globals ;;
  match current_employee g with
  | Some e => ret e
  | None => raise AttributeError
  end.

Definition the_new_phone_number : M string :=
  g <- get_globals ;;
  match new_phone_number g with
  | Some n => ret n
  | None => raise TypeError
  end.

(** [w2n.word_to_num] of the word2number package on a tone value: the ten
    digit words are number words; the other tone values contain none, for
    which the package raises [ValueError]. *)
Definition word_to_num (number_sentence : string) : M Z :=
  if number_sentence == "zero" then ret 0
  else if number_sentence == "one" then ret 1
  else if number_sentence == "two" then ret 2
  else if number_sentence == "three" then ret 3
  else if number_sentence == "four" then ret 4
  else if number_sentence == "five" then ret 5
  else if number_sentence == "six" then ret 6
  else if number_sentence == "seven" then ret 7
  else if number_sentence == "eight" then ret 8
  else if number_sentence == "nine" then ret 9
  else raise ValueError.

(** [str(n)] for an [int]. *)
Definition str_of_int (n : Z) : string :=
  DecimalString.NilZero.string_of_int (Z.to_int n).

(** The polling loop of [send_email]: [POLLER_WAIT_TIME] is 5, and the loop
    gives up once more than [18 * 5] seconds have been waited.  [waits] is
    the number of [poller.wait] calls still needed for [poller.done()]. *)
Definition POLLER_WAIT_TIME : Z := 5.

Fixpoint poll_loop (waits : nat) (time_elapsed : Z) : M bool :=
  match waits with
  | O => ret true
  | S waits' =>
      emit (Log EmailPollerStatus) ;;
      let time_elapsed := time_elapsed + POLLER_WAIT_TIME in
      if time_elapsed >? 18 * POLLER_WAIT_TIME then ret false
      else poll_loop waits' time_elapsed
  end.

Inductive Response := Response_status (status : Z).

Section Handler.

(** The directory loaded from the CSV file at import time (read-only), and
    the behaviour of the e-mail service during this request. *)
Variable employee_dict : gmap string Employee.
Variable email_service : EmailService.

(** [employee_dict.get(employee_id, "Employee not found.")]; [None] stands
    for the string, which is all the callers test for. *)
Definition get_employee_by_id (employee_id : string) : M (option Employee) :=
  emit (DirectoryGet employee_id) ;;
  ret (employee_dict !! employee_id).

Definition send_email (ticket : option Ticket) : M unit :=
  g <- get_globals ;;
  let ticket := match ticket with
                | None => current_ticket g
                | Some t => t
                end in
  set_retry reset ;;
  let message := mkMessage SENDER_ADDRESS [RECIPIENT_ADDRESS] "Help desk ticket"
                           (Ticket_str ticket) in
  (* try: *)
  emit (BeginSend message) ;;
  if begin_send_raises email_service then emit (Log (EmailException BeginSendRaised))
  else
    done <- poll_loop (waits_until_done email_service) 0 ;;
    if negb done then emit (Log (EmailException PollingTimedOut))
    else if status_succeeded email_service then emit (Log EmailSucceeded)
    else emit (Log (EmailException StatusNotSucceeded)).

(** *** [recognitionType == "choices"] *)
Definition recognized_choices (call_connection_client target_participant : string)
    (operationContext label_detected : string) : M unit :=
  when (operationContext == "main_menu")
    (if label_detected == TICKET_CHOICE_LABEL then
       get_media_recognize_choice_options call_connection_client
         "Got it. You'd like to file a ticket. Is that correct?"
         target_participant get_confirm_choices "ticket"
     else if label_detected == MCU_CHOICE_LABEL then
       get_media_recognize_choice_options call_connection_client
         "Got it. You'd like to be transferred to a radio controlled unit. Is that correct? "
         target_participant get_confirm_choices "transfer_to_mcu"
     else ret tt) ;;
  when (operationContext == "transfer_to_mcu")
    (if label_detected == CONFIRM_CHOICE_LABEL then
       get_media_recognize_choice_options call_connection_client IN_PRODUCTION_MENU
         target_participant get_menu_choices "main_menu"
     else
       get_media_recognize_choice_options call_connection_client START_AGAIN_MENU
         target_participant get_menu_choices "main_menu") ;;
  when (operationContext == "ticket")
    (if label_detected == CONFIRM_CHOICE_LABEL then
       get_media_recognize_speech_or_dtmf_input call_connection_client
         "Great. Can you provide your employee ID number?"
         target_participant "provide_eid"
     else
       get_media_recognize_choice_options call_connection_client START_AGAIN_MENU
         target_participant get_menu_choices "main_menu") ;;
  when (operationContext == "mcu")
    (if label_detected == CONFIRM_CHOICE_LABEL then
       ret tt (* only assigns text_to_play *)
     else
       get_media_recognize_choice_options call_connection_client
         "Hmm. Okay. Let's start again. How can I help you today?"
         target_participant get_menu_choices "main_menu") ;;
  when (operationContext == "confirm_name")
    (if label_detected == CONFIRM_CHOICE_LABEL then
       e <- the_current_employee ;;
       let id_number := employee_id e in
       set_ticket (set_id_num id_number) ;;
       e <- the_current_employee ;;
       let phone_number := telephone_number e in
       e <- the_current_employee ;;
       set_ticket (set_name (display_name e)) ;;
       if negb (phone_number == EmptyString) then
         get_media_recognize_choice_options call_connection_client
           "Okay. I have a phone number here for you pulled from the employee directory. Is this still the best way to contact you? "
           target_participant get_confirm_choices "confirm_phone_number"
       else
         get_media_recognize_speech_or_dtmf_input call_connection_client
           "Okay. The employee directory does not have a phone number listed for you. Can you say your phone number, or enter it on the dial pad? "
           target_participant "provide_new_phone_number"
     else
       get_media_recognize_speech_input call_connection_client
         "Ah. It looks like you may have provided another employee's ID number. Let's try again. Can you please say your employee ID number?"
         target_participant "provide_eid") ;;
  when (operationContext == "confirm_phone_number")
    (if label_detected == CONFIRM_CHOICE_LABEL then
       e <- the_current_employee ;;
       let phone_number := telephone_number e in
       set_ticket (set_phone_number (Some phone_number)) ;;
       get_media_recognize_choice_options call_connection_client
         "Okay. I also have your email address on file from the directory. Is this still the best email to reach you at? "
         target_participant get_confirm_choices "confirm_email_on_file"
     else
       get_media_recognize_speech_or_dtmf_input call_connection_client
         "Okay. What is the best phone number for you?"
         target_participant "provide_new_phone_number") ;;
  when (operationContext == "confirm_new_phone_number")
    (if label_detected == CONFIRM_CHOICE_LABEL then
       g <- get_globals ;;
       set_ticket (set_phone_number (new_phone_number g)) ;;
       (* the log line concatenates current_ticket.phone_number *)
       _ <- the_new_phone_number ;;
       e <- the_current_employee ;;
       if negb (email_address e == EmptyString) then
         get_media_recognize_choice_options call_connection_client
           "Okay. I also have your email address on file from the directory. Is this still the best email to reach you at?"
           target_participant get_confirm_choices "confirm_email_on_file"
       else
         get_media_recognize_speech_input call_connection_client
           "Okay. THe employee directory does not have an email address listed for you. Can you please provide your email address now? "
           target_participant "provide_new_email_address"
     else
       get_media_recognize_speech_or_dtmf_input call_connection_client
         "Hmm. Okay. Let's try that again. What is the best phone number for you?"
         target_participant "provide_new_phone_number") ;;
  when (operationContext == "confirm_email_on_file")
    (if label_detected == CONFIRM_CHOICE_LABEL then
       e <- the_current_employee ;;
       set_ticket (set_email (email_address e)) ;;
       get_media_recognize_choice_options call_connection_client ASK_WORK_LOCATION
         target_participant get_workmode_choices "confirm_work_location"
     else
       get_media_recognize_speech_input call_connection_client
         "Okay. What is the best email address for you?"
         target_participant "provide_new_email_address") ;;
  when (operationContext == "confirm_work_location")
    (let work_mode := label_detected in
     set_ticket (set_work_mode work_mode) ;;
     get_media_recognize_choice_options call_connection_client ASK_CONTACT_METHOD
       target_participant get_contact_method_choices "confirm_contact_method") ;;
  when (operationContext == "confirm_contact_method")
    (let contact_method := label_detected in
     set_ticket (set_contact_method contact_method) ;;
     get_media_recognize_speech_input call_connection_client
       "Okay. Almost done. Now, what is the physical address where the issue is occurring?"
       target_participant "provide_work_address") ;;
  when (operationContext == "confirm_urgency")
    (let urgency := label_detected in
     set_ticket (set_urgency urgency) ;;
     get_media_recognize_speech_input call_connection_client
       "Great. Now, can you clearly and succinctly desribe the issue that you are dealing with today? "
       target_participant "capture_issue") ;;
  when (operationContext == "confirm_additional_request")
    (if label_detected == "Yes" then
       g <- get_globals ;;
       send_email (Some (current_ticket g)) ;;
       (* get_media_recognize_choice_options(call_connection_client=...,
          text_to_play=MAIN_MENU, target_participant=..., context="main_menu")
          omits the required argument [choices] *)
       raise TypeError
     else
       handle_play call_connection_client GOODBYE (Some "end_call_log_ticket")).

(** *** [recognitionType == "speech"] *)

(** The key under which a spoken employee id is looked up. *)
Definition speech_final_id_num (text : string) : string :=
  let text := lower text in
  let no_spaces_text := replace space EmptyString text in
  replace period EmptyString no_spaces_text.

Definition recognized_speech (call_connection_client target_participant : string)
    (operationContext text : string) : M unit :=
  text <- (if operationContext == "provide_eid" then
             let text := lower text in
             let no_spaces_text := replace space EmptyString text in
             let final_id_num := replace period EmptyString no_spaces_text in
             temp_employee <- get_employee_by_id final_id_num ;;
             match temp_employee with
             | Some employee =>
                 modify_current_employee employee ;;
                 e <- the_current_employee ;;
                 get_media_recognize_choice_options call_connection_client
                   (IS_YOUR_NAME (first_name e))
                   target_participant get_confirm_choices "confirm_name"
             | None =>
                 get_media_recognize_speech_or_dtmf_input call_connection_client
                   EMPLOYEE_NOT_FOUND target_participant "provide_eid"
             end ;;
             ret text
           else ret text) ;;
  when (operationContext == "provide_new_phone_number")
    (let num := replace space EmptyString text in
     modify_new_phone_number num ;;
     n <- the_new_phone_number ;;
     get_media_recognize_choice_options call_connection_client (YOU_SAID n)
       target_participant get_confirm_choices "confirm_phone_number") ;;
  when (operationContext == "provide_new_email_address")
    (let new_email_address := text in
     set_ticket (set_email new_email_address) ;;
     get_media_recognize_choice_options call_connection_client ASK_WORK_LOCATION
       target_participant get_workmode_choices "confirm_work_location") ;;
  when (operationContext == "provide_work_address")
    (set_ticket (set_work_address text) ;;
     get_media_recognize_choice_options call_connection_client ASK_URGENCY
       target_participant get_urgency_choices "confirm_urgency") ;;
  when (operationContext == "capture_issue")
    (let issue_description := text in
     set_ticket (set_issue_description issue_description) ;;
     get_media_recognize_choice_options call_connection_client ISSUE_LOGGED
       target_participant get_additional_request_choices "confirm_additional_request" ;;
     g <- get_globals ;;
     send_email (Some (current_ticket g))).

(** *** [recognitionType == "dtmf"] *)

(** [for tone in tones: if tone == "pound" or tone == "asterick": ...; break] *)
Fixpoint invalid_tone_loop (call_connection_client target_participant : string)
    (tones : list DtmfTone) : M unit :=
  match tones with
  | [] => ret tt
  | tone :: rest =>
      if (tone_value tone == "pound") || (tone_value tone == "asterick") then
        get_media_recognize_speech_or_dtmf_input call_connection_client
          INVALID_CHARACTER target_participant "provide_eid"
        (* break *)
      else invalid_tone_loop call_connection_client target_participant rest
  end.

(** [for tone in tones: num_string += str(w2n.word_to_num(tone))] *)
Fixpoint num_string_loop (tones : list DtmfTone) (num_string : string) : M string :=
  match tones with
  | [] => ret num_string
  | tone :: rest =>
      n <- word_to_num (tone_value tone) ;;
      num_string_loop rest (num_string ++ str_of_int n)
  end.

(** The key under which a keyed-in employee id is looked up, from the
    concatenated digits. *)
Definition dtmf_final_id_num (num_string : string) : string :=
  let id_raw := replace space EmptyString num_string in
  let id_no_periods := replace period EmptyString id_raw in
  "e" ++ id_no_periods.

Definition recognized_dtmf (call_connection_client target_participant : string)
    (operationContext : string) (tones : list DtmfTone) : M unit :=
  let num_string := EmptyString in
  when ((operationContext == "provide_eid") && negb (Nat.eqb (List.length tones) 6))
    (get_media_recognize_speech_or_dtmf_input call_connection_client
       SIX_DIGITS_EXPECTED target_participant "provide_eid") ;;
  invalid_tone_loop call_connection_client target_participant tones ;;
  num_string <- num_string_loop tones num_string ;;
  if operationContext == "provide_eid" then
    let id_raw := replace space EmptyString num_string in
    let id_no_periods := replace period EmptyString id_raw in
    let final_id_num := "e" ++ id_no_periods in
    temp_employee <- get_employee_by_id final_id_num ;;
    match temp_employee with
    | Some employee =>
        modify_current_employee employee ;;
        e <- the_current_employee ;;
        get_media_recognize_choice_options call_connection_client
          (IS_YOUR_NAME (first_name e))
          target_participant get_confirm_choices "confirm_name"
    | None =>
        get_media_recognize_speech_or_dtmf_input call_connection_client
          EMPLOYEE_NOT_FOUND target_participant "provide_eid"
    end
  else if operationContext == "provide_new_phone_number" then
    modify_new_phone_number num_string ;;
    n <- the_new_phone_number ;;
    get_media_recognize_choice_options call_connection_client (YOU_SAID n)
      target_participant get_confirm_choices "confirm_new_phone_number"
  else ret tt.

(** *** [RecognizeCompleted], after [retry_object.counter = 0] *)
Definition recognize_completed (call_connection_client target_participant : string)
    (operationContext : string) (result : RecognizeResult) : M unit :=
  match result with
  | choices_result label_detected _ =>
      recognized_choices call_connection_client target_participant
        operationContext label_detected
  | speech_result text =>
      recognized_speech call_connection_client target_participant operationContext text
  | dtmf_result tones =>
      recognized_dtmf call_connection_client target_participant operationContext tones
  | other_result =>
      (* FALL THROUGH *)
      handle_play call_connection_client FATAL_ERROR_MESSAGE None
  end.

(** *** [RecognizeFailed] *)
Definition recognize_failed (call_connection_client target_participant : string)
    (operationContext : string) (resultInformation : ResultInformation) : M unit :=
  g <- get_globals ;;
  n <- getattr (counter (retry_object g)) ;;
  set_retry (set_counter (n + 1)) ;;
  g <- get_globals ;;
  n <- getattr (counter (retry_object g)) ;;
  when (n >? 2)
    (handle_play call_connection_client RETRY_COUNT_REACHED_MESSAGE
       (Some "retry_count_reached")) ;;
  let failedContext := operationContext in
  when (negb (failedContext == EmptyString))
    (let textToPlay :=
       if existsb (Z.eqb (subCode resultInformation)) [8510; 8510]
       then CUSTOMER_QUERY_TIMEOUT else INVALID_AUDIO in
     g <- get_globals ;;
     m <- getattr (mode (retry_object g)) ;;
     if m == "choices" then
       cs <- getattr (choices (retry_object g)) ;;
       c <- getattr (context (retry_object g)) ;;
       get_media_recognize_choice_options call_connection_client textToPlay
         target_participant cs c
     else if m == "speech" then
       c <- getattr (context (retry_object g)) ;;
       get_media_recognize_speech_input call_connection_client textToPlay
         target_participant c
     else
       handle_play call_connection_client FATAL_ERROR_MESSAGE (Some "fatal_error")).

(** *** The body of the loop over the posted events, up to its [return] *)
Definition callback_event (event : CloudEvent) : M unit :=
  let call_connection_id := callConnectionId event in
  let call_connection_client := call_connection_id in
  g <- get_globals ;;
  let target_participant := TARGET_PHONE_NUMBER g in
  match event_type event with
  | CallConnected =>
      reset_ticket ;;
      get_media_recognize_choice_options call_connection_client MAIN_MENU
        target_participant get_menu_choices "main_menu"
  | RecognizeCompleted operationContext result =>
      set_retry (set_counter 0) ;;
      recognize_completed call_connection_client target_participant
        operationContext result
  | RecognizeFailed operationContext resultInformation =>
      recognize_failed call_connection_client target_participant
        operationContext resultInformation
  | PlayCompleted =>
      emit (Gateway call_connection_client hang_up)
  | PlayFailed =>
      handle_play call_connection_client FATAL_ERROR_MESSAGE (Some "fatal_error") ;;
      emit (Gateway call_connection_client hang_up)
  | OtherEvent => ret tt
  end.

(** [callback_events_handler]: [for event_dict in request.json: ...;
    return Response(status=200)], the [return] being the last statement of
    the loop body.  With no event the loop body never runs and the view
    returns [None], which Flask rejects with a [TypeError]. *)
Definition callback_events_handler (request_json : list CloudEvent) : M Response :=
  match request_json with
  | [] => raise TypeError
  | event_dict :: _ =>
      callback_event event_dict ;;
      ret (Response_status 200)
  end.

End Handler.

(** Successive requests to the endpoint, each with the array it posts and
    the behaviour of the e-mail service while it is served.  A request that
    raises is answered by Flask (status 500) and the process goes on with
    the globals as the exception left them. *)
Fixpoint serve (employee_dict : gmap string Employee)
    (requests : list (EmailService * list CloudEvent)) (g : Globals)
    : list (Res Response) * Globals * list Effect :=
  match requests with
  | [] => ([], g, [])
  | (email_service, request_json) :: rest =>
      match callback_events_handler employee_dict email_service request_json g with
      | (r, g1, t1) =>
          match serve employee_dict rest g1 with
          | (rs, g2, t2) => (r :: rs, g2, (t1 ++ t2)%list)
          end
      end
  end.

(** ** Reading a trace *)

Definition directive_of (e : Effect) : option Directive :=
  match e with
  | Gateway _ d => Some d
  | _ => None
  end.

Definition message_of (e : Effect) : option EmailMessage :=
  match e with
  | BeginSend m => Some m
  | _ => None
  end.

Definition key_of (e : Effect) : option string :=
  match e with
  | DirectoryGet k => Some k
  | _ => None
  end.

(** The gateway directives, the messages handed to the e-mail service and
    the directory keys queried, each in trace order. *)
Definition directives (t : list Effect) : list Directive := omap directive_of t.
Definition begin_sends (t : list Effect) : list EmailMessage := omap message_of t.
Definition directory_gets (t : list Effect) : list string := omap key_of t.

Definition is_recognition (d : Directive) : bool :=
  match d with
  | start_recognizing_media _ => true
  | _ => false
  end.

(** The message [send_email] builds for a ticket. *)
Definition ticket_message (t : Ticket) : EmailMessage :=
  mkMessage SENDER_ADDRESS [RECIPIENT_ADDRESS] "Help desk ticket" (Ticket_str t).

(** The session of a call, as far as the module has one: the handler keeps
    no table of sessions, and whatever the call id, its session is the
    module globals. *)
Record Session := mkSession {
  session_employee : option Employee;
  session_ticket : Ticket;
  session_pending_phone : option string;
  session_retry : RetryObject
}.

Definition session_of (g : Globals) (call_connection_id : string) : Session :=
  mkSession (current_employee g) (current_ticket g) (new_phone_number g) (retry_object g).

(** The digit a tone keys in, if it is a digit tone, and the digits of a
    whole capture if all its tones are. *)
Definition tone_digit (t : DtmfTone) : option string :=
  match t with
  | ZERO => Some "0" | ONE => Some "1" | TWO => Some "2" | THREE => Some "3"
  | FOUR => Some "4" | FIVE => Some "5" | SIX => Some "6" | SEVEN => Some "7"
  | EIGHT => Some "8" | NINE => Some "9"
  | _ => None
  end.

Fixpoint keyed_digits (tones : list DtmfTone) : option string :=
  match tones with
  | [] => Some EmptyString
  | t :: rest =>
      match tone_digit t, keyed_digits rest with
      | Some d, Some ds => Some (d ++ ds)
      | _, _ => None
      end
  end.

(** [keeps P Q m]: running [m] from globals that satisfy [P] leaves globals
    that satisfy [P], and every effect it performs satisfies [Q], whether it
    returns or raises. *)
Definition keeps (P : Globals -> Prop) (Q : Effect -> Prop) {A} (m : M A) : Prop :=
  forall g, P g -> P (globals_of (m g)) /\ Forall Q (trace_of (m g)).

(** ** Sample data for concrete runs *)

Definition ada : Employee :=
  mkEmployee "e672834" "Ada" "Byron" "Ada Byron" "5550100" "ada.byron@fire.example".

Definition example_dict : gmap string Employee := {[ "e672834" := ada ]}.

(** A directory that happens to hold a three-digit id. *)
Definition bo : Employee :=
  mkEmployee "e123" "Bo" "Lee" "Bo Lee" "5550123" "bo.lee@fire.example".

Definition short_id_dict : gmap string Employee := {[ "e123" := bo ]}.

Definition example_service : EmailService := mkEmailService false 1 true.

Definition example_globals : Globals := Globals_init "+15550100".

Definition event_of (c : string) (t : EventType) : CloudEvent := mkEvent c t.

(** The view's response for the outcome of the loop body. *)
Definition response_of (r : Res unit) : Res Response :=
  match r with
  | Val _ => Val (Response_status 200)
  | Exc e => Exc e
  end.

(** The invariant of a completed recognition. *)
Definition counter_is_zero (g : Globals) : Prop :=
  counter (retry_object g) = Some 0.

(** A posted array of two events, the first being the answer "Yes" at
    [confirm_additional_request]. *)
Definition yes_then_play_completed : list CloudEvent :=
  [ event_of "call-1" (RecognizeCompleted "confirm_additional_request"
                         (choices_result "Yes" None));
    event_of "call-1" PlayCompleted ].

(** A recognition timeout as the gateway reports it. *)
Definition timeout_information : ResultInformation :=
  mkResultInformation 400 8510 "Action failed, initial silence timeout reached.".

(** The globals after a call connected, the caller chose "Ticket" at the main
    menu, and the confirmation that follows failed twice. *)
Definition after_two_failures : Globals :=
  (fun served : list (Res Response) * Globals * list Effect => snd (fst served))
    (serve example_dict
       [ (example_service, [event_of "call-1" CallConnected]);
         (example_service,
          [event_of "call-1" (RecognizeCompleted "main_menu" (choices_result "Ticket" None))]);
         (example_service, [event_of "call-1" (RecognizeFailed "ticket" timeout_information)]);
         (example_service, [event_of "call-1" (RecognizeFailed "ticket" timeout_information)]) ]
       example_globals).

(** Whether the loop over the tones finds one it compares equal to
    ["pound"] or ["asterick"]. *)
Definition has_invalid_tone (tones : list DtmfTone) : bool :=
  existsb (fun tone => (tone_value tone == "pound") || (tone_value tone == "asterick")) tones.

(** The recognition requests the handler issues around an employee id. *)
Definition speech_or_dtmf_request (tgt txt ctx : string) : Directive :=
  start_recognizing_media
    (mkRequest SPEECH_OR_DTMF tgt None txt
               (Some (if ctx == "provide_eid" then 6 else 10)) ctx).

Definition confirm_name_request (tgt : string) (e : Employee) : Directive :=
  start_recognizing_media
    (mkRequest CHOICES tgt (Some get_confirm_choices) (IS_YOUR_NAME (first_name e))
               None "confirm_name").

(** A run that follows the effects [t]. *)
Definition prepend {A} (t : list Effect) (x : Res A * Globals * list Effect)
    : Res A * Globals * list Effect :=
  (result_of x, globals_of x, (t ++ trace_of x)%list).

(** The run of the specification's example: the caller says the id as
    words while the directory holds it in digits. *)
Definition spoken_words_run : Res Response * Globals * list Effect :=
  callback_events_handler example_dict example_service
    [event_of "call-1" (RecognizeCompleted "provide_eid"
                          (speech_result "e six seven two eight three four"))]
    example_globals.

(** An effect without the connection it is addressed to. *)
Definition unaddressed (e : Effect) : Effect :=
  match e with
  | Gateway _ d => Gateway EmptyString d
  | _ => e
  end.

(** Two runs that differ at most in the connection their directives are
    sent through. *)
Definition same_but_address {A} (x y : Res A * Globals * list Effect) : Prop :=
  result_of x = result_of y /\
  globals_of x = globals_of y /\
  map unaddressed (trace_of x) = map unaddressed (trace_of y).

Definition sim {A} (m1 m2 : M A) : Prop :=
  forall g, same_but_address (m1 g) (m2 g).

(** The isolation the specification asks of the session registry: an event
    of one call leaves the session of every other call as it was. *)
Definition sessions_isolated : Prop :=
  forall dir svc c1 c2 et rest g,
    c1 <> c2 ->
    session_of (globals_of (callback_events_handler dir svc (mkEvent c1 et :: rest) g)) c2
    = session_of g c2.

(** Call 1 says an employee id that the directory holds. *)
Definition call_1_says_id : Res Response * Globals * list Effect :=
  callback_events_handler example_dict example_service
    [event_of "call-1" (RecognizeCompleted "provide_eid" (speech_result "E672834."))]
    example_globals.

(** Then call 2 confirms a name. *)
Definition call_2_confirms_name : Res Response * Globals * list Effect :=
  callback_events_handler example_dict example_service
    [event_of "call-2" (RecognizeCompleted "confirm_name" (choices_result "Confirm" None))]
    (globals_of call_1_says_id).

(** The invariant that holds of all globals. *)
Definition any_globals : Globals -> Prop := fun _ => True.

(** A directive, if the effect is one, goes through connection [c]. *)
Definition addressed_to (c : string) (e : Effect) : Prop :=
  match e with
  | Gateway c' _ => c' = c
  | _ => True
  end.

(** A whole dialog of one call, from the connection to the hang-up: the
    caller files a ticket, confirms the directory's phone and e-mail, and
    declines a further request. *)
Definition completed (ctx : string) (r : RecognizeResult) : EmailService * list CloudEvent :=
  (example_service, [event_of "call-1" (RecognizeCompleted ctx r)]).

Definition whole_dialog : list (EmailService * list CloudEvent) :=
  [ (example_service, [event_of "call-1" CallConnected]);
    completed "main_menu" (choices_result "Ticket" (Some "File ticket"));
    completed "ticket" (choices_result "Confirm" (Some "Yes"));
    completed "provide_eid" (speech_result "E672834.");
    completed "confirm_name" (choices_result "Confirm" (Some "Yes"));
    completed "confirm_phone_number" (choices_result "Confirm" None);
    completed "confirm_email_on_file" (choices_result "Confirm" None);
    completed "confirm_work_location" (choices_result "Office" None);
    completed "confirm_contact_method" (choices_result "Phone" None);
    completed "provide_work_address" (speech_result "1320 North Eastern Avenue");
    completed "confirm_urgency" (choices_result "High" None);
    completed "capture_issue" (speech_result "My laptop does not start");
    completed "confirm_additional_request" (choices_result "No" None);
    (example_service, [event_of "call-1" PlayCompleted]) ].

(** Where a directive sends the dialog next. *)
Definition next_context (d : Directive) : string :=
  match d with
  | start_recognizing_media r => operation_context r
  | play_media _ (Some c) => c
  | play_media _ None => "play"
  | hang_up => "hang_up"
  end.

(** ** The rest of the module: directory loading and the call handlers *)

(** One row of [csv.DictReader] over the employee file, with the six
    columns the loading loop reads. *)
Record Row := mkRow {
  ID : string;
  FirstName : string;
  LastName : string;
  DisplayName : string;
  TelephoneNumber : string;
  EmailAddress : string
}.

Definition employee_of_row (row : Row) : Employee :=
  mkEmployee (ID row) (FirstName row) (LastName row) (DisplayName row)
             (TelephoneNumber row) (EmailAddress row).

(** [for row in csv_reader: ...; employee_dict[employee.employee_id] = employee],
    starting from the empty dict. *)
Definition load_employees (rows : list Row) : gmap string Employee :=
  fold_left
    (fun employee_dict row =>
       let employee := employee_of_row row in
       <[ employee_id employee := employee ]> employee_dict)
    rows ∅.

Definition ACS_PHONE_NUMBER : string := "ENTER ACS PHONE NUMBER HERE".
Definition CALLBACK_URI_HOST : string := "ENTER CALLBACK URL HERE".
Definition CALLBACK_EVENTS_URI : string := CALLBACK_URI_HOST ++ "/api/callbacks".

(** The events posted to [/inboundCall], with the fields of [event['data']]
    that [inbound_call_handler] reads through [dict.get]: a field that is
    absent is [None]. *)
Record PhoneNumberData := mkPhoneNumberData {
  value : option string
}.

Record FromData := mkFromData {
  phoneNumber : option PhoneNumberData
}.

Inductive GridEvent :=
| SubscriptionValidationEvent (validationCode : option string)
| IncomingCall (incomingCallContext : option string) (from : option FromData)
| OtherGridEvent.

Inductive CallAction :=
| answer_call (incoming_call_context : option string) (callback_url : string)
| create_call (target_participant : string) (callback_url : string)
              (source_caller_id_number : string).

Inductive CallResponse :=
| validation_response (validationResponse : option string)  (* status 200 *)
| redirect (location : string).

(** [event_data.get('from', {}).get('phoneNumber', 'Unknown').get('value', 'Unknown')]:
    the default of the second [get] is a [str], which has no [get]. *)
Definition caller_id_of (from : option FromData) : Res string :=
  match match from with
        | Some f => phoneNumber f
        | None => None  (* {}.get('phoneNumber', 'Unknown') *)
        end with
  | None => Exc AttributeError  (* 'Unknown'.get *)
  | Some p =>
      match value p with
      | Some v => Val v
      | None => Val "Unknown"
      end
  end.

Definition set_target_number (new_num : string) (g : Globals) : Globals :=
  mkGlobals (current_employee g) (new_phone_number g) (current_ticket g)
            (retry_object g) new_num.

(** [inbound_call_handler]: the loop returns only on a validation event;
    after the last event the view redirects to the index page. *)
Fixpoint inbound_call_handler (events : list GridEvent) (g : Globals)
    : Res CallResponse * Globals * list CallAction :=
  match events with
  | [] => (Val (redirect "/"), g, [])
  | event :: rest =>
      match event with
      | SubscriptionValidationEvent validation_code =>
          (Val (validation_response validation_code), g, [])
      | IncomingCall incoming_call_context from =>
          match caller_id_of from with
          | Exc e => (Exc e, g, [])
          | Val caller_id =>
              match inbound_call_handler rest (set_target_number caller_id g) with
              | (r, g', actions) =>
                  (r, g', answer_call incoming_call_context CALLBACK_EVENTS_URI :: actions)
              end
          end
      | OtherGridEvent => inbound_call_handler rest g
      end
  end.

(** [outbound_call_handler], for globals in which [TARGET_PHONE_NUMBER] has
    been assigned (the module assigns it nowhere but in [set_target_number]). *)
Definition outbound_call_handler (g : Globals)
    : Res CallResponse * Globals * list CallAction :=
  (Val (redirect "/"), g,
   [create_call (TARGET_PHONE_NUMBER g) CALLBACK_EVENTS_URI ACS_PHONE_NUMBER]).

(** A small employee file in which one id occurs twice. *)
Definition example_rows : list Row :=
  [ mkRow "e672834" "Ada" "Byron" "Ada Byron" "5550100" "ada.byron@fire.example";
    mkRow "e100200" "Cy" "Young" "Cy Young" "" "";
    mkRow "e672834" "Ada" "King" "Ada King" "5550199" "ada.king@fire.example" ].

(** Prompts of the phone and e-mail questions. *)
Definition PHONE_ON_FILE : string :=
  "Okay. I have a phone number here for you pulled from the employee directory. Is this still the best way to contact you? ".
Definition NO_PHONE_ON_FILE : string :=
  "Okay. The employee directory does not have a phone number listed for you. Can you say your phone number, or enter it on the dial pad? ".
Definition EMAIL_ON_FILE : string :=
  "Okay. I also have your email address on file from the directory. Is this still the best email to reach you at? ".
Definition EMAIL_ON_FILE_AFTER_NEW_PHONE : string :=
  "Okay. I also have your email address on file from the directory. Is this still the best email to reach you at?".
Definition NO_EMAIL_ON_FILE : string :=
  "Okay. THe employee directory does not have an email address listed for you. Can you please provide your email address now? ".

Definition choices_request (tgt txt : string) (cs : list RecognitionChoice) (ctx : string)
    : Directive :=
  start_recognizing_media (mkRequest CHOICES tgt (Some cs) txt None ctx).

Definition speech_request (tgt txt ctx : string) : Directive :=
  start_recognizing_media (mkRequest SPEECH tgt None txt None ctx).

(** The globals with another ticket, retry object or pending phone number. *)
Definition with_ticket (t : Ticket) (g : Globals) : Globals :=
  mkGlobals (current_employee g) (new_phone_number g) t (retry_object g)
            (TARGET_PHONE_NUMBER g).

Definition with_retry (r : RetryObject) (g : Globals) : Globals :=
  mkGlobals (current_employee g) (new_phone_number g) (current_ticket g) r
            (TARGET_PHONE_NUMBER g).

Definition with_new_phone_number (n : string) (g : Globals) : Globals :=
  mkGlobals (current_employee g) (Some n) (current_ticket g) (retry_object g)
            (TARGET_PHONE_NUMBER g).

(** What [send_email] logs last, for a given behaviour of the service. *)
Definition final_log (svc : EmailService) : LogEntry :=
  if begin_send_raises svc then EmailException BeginSendRaised
  else if (waits_until_done svc <=? 18)%nat then
    if status_succeeded svc then EmailSucceeded
    else EmailException StatusNotSucceeded
  else EmailException PollingTimedOut.

(** The ticket [send_email] sends: its argument, or the global ticket. *)
Definition ticket_sent (ticket : option Ticket) (g : Globals) : Ticket :=
  match ticket with
  | Some t => t
  | None => current_ticket g
  end.

(** The message of a re-prompt, from the failure's sub-code. *)
Definition failed_text (ri : ResultInformation) : string :=
  if existsb (Z.eqb (subCode ri)) [8510; 8510]
  then CUSTOMER_QUERY_TIMEOUT else INVALID_AUDIO.

(** What a RecognizeFailed event issues when the retry object has counter
    [n], mode [m], choices [cs] and context [rc]: the escalation message
    once the new counter passes 2, then the re-prompt of the last request or
    the fatal-error message. *)
Definition escalation (c : string) (n : Z) : list Effect :=
  if n + 1 >? 2
  then [Gateway c (play_media RETRY_COUNT_REACHED_MESSAGE (Some "retry_count_reached"))]
  else [].

Definition reprompt (c tgt failedContext : string) (ri : ResultInformation)
    (m : string) (cs : list RecognitionChoice) (rc : string) : list Effect :=
  if failedContext == EmptyString then []
  else if m == "choices" then [Gateway c (choices_request tgt (failed_text ri) cs rc)]
  else if m == "speech" then [Gateway c (speech_request tgt (failed_text ri) rc)]
  else [Gateway c (play_media FATAL_ERROR_MESSAGE (Some "fatal_error"))].

(** The globals once a call has connected and nothing was recognised yet. *)
Definition just_connected : Globals :=
  globals_of (callback_events_handler example_dict example_service
                [event_of "call-1" CallConnected] example_globals).

(** The globals at the employee-id prompt: the caller chose "Ticket" and
    confirmed. *)
Definition at_employee_id_prompt : Globals :=
  (fun served : list (Res Response) * Globals * list Effect => snd (fst served))
    (serve example_dict
       [ (example_service, [event_of "call-1" CallConnected]);
         completed "main_menu" (choices_result "Ticket" None);
         completed "ticket" (choices_result "Confirm" None) ]
       example_globals).

(** The globals a call leaves behind after three failed recognitions. *)
Definition after_escalated_call : Globals :=
  (fun served : list (Res Response) * Globals * list Effect => snd (fst served))
    (serve example_dict
       [ (example_service, [event_of "call-1" (RecognizeFailed "ticket" timeout_information)]);
         (example_service, [event_of "call-1" PlayCompleted]) ]
       after_two_failures).

(** The operation contexts the choices branch and the speech branch of a
    completed recognition have a case for. *)
Definition choice_contexts : list string :=
  [ "main_menu"; "transfer_to_mcu"; "ticket"; "mcu"; "confirm_name";
    "confirm_phone_number"; "confirm_new_phone_number"; "confirm_email_on_file";
    "confirm_work_location"; "confirm_contact_method"; "confirm_urgency";
    "confirm_additional_request" ].

Definition speech_contexts : list string :=
  [ "provide_eid"; "provide_new_phone_number"; "provide_new_email_address";
    "provide_work_address"; "capture_issue" ].

(** The attributes of the retry object. *)
Inductive RetryAttr := attr_context | attr_choices | attr_mode | attr_counter.

Definition attr_set (a : RetryAttr) (g : Globals) : Prop :=
  match a with
  | attr_context => is_Some (context (retry_object g))
  | attr_choices => is_Some (choices (retry_object g))
  | attr_mode => is_Some (mode (retry_object g))
  | attr_counter => is_Some (counter (retry_object g))
  end.

(** The shape of a recognition request: who it listens to, and what it
    carries for its input type. *)
Definition request_shape (tgt : string) (r : RecognizeRequest) : Prop :=
  target_participant r = tgt /\
  match input_type r with
  | CHOICES =>
      is_Some (request_choices r) /\ dtmf_max_tones_to_collect r = None
  | SPEECH =>
      request_choices r = None /\ dtmf_max_tones_to_collect r = None
  | SPEECH_OR_DTMF =>
      request_choices r = None /\
      dtmf_max_tones_to_collect r
        = Some (if operation_context r == "provide_eid" then 6 else 10)
  end.

Definition is_play_event (et : EventType) : bool :=
  match et with
  | PlayCompleted | PlayFailed => true
  | _ => false
  end.

Definition effect_shape (client tgt : string) (may_hang_up : bool) (e : Effect) : Prop :=
  match e with
  | Gateway c d =>
      c = client /\
      match d with
      | start_recognizing_media r => request_shape tgt r
      | play_media _ _ => True
      | hang_up => may_hang_up = true
      end
  | _ => True
  end.

(** What is asked of every recognition request in a trace. *)
Definition requests_well_formed (client tgt : string) (e : Effect) : Prop :=
  match e with
  | Gateway c (start_recognizing_media r) => c = client /\ request_shape tgt r
  | _ => True
  end.

(** Incoming-call events that carry the caller's number, from pairs of an
    incoming-call context and a number; the calls answered for them; and the
    number of the last of them. *)
Definition incoming_call (call : option string * string) : GridEvent :=
  IncomingCall (fst call) (Some (mkFromData (Some (mkPhoneNumberData (Some (snd call)))))).

Definition answer_of (call : option string * string) : CallAction :=
  answer_call (fst call) CALLBACK_EVENTS_URI.

Definition last_caller (calls : list (option string * string)) (g : Globals) : Globals :=
  match last calls with
  | Some call => set_target_number (snd call) g
  | None => g
  end.

(** Two calls come in, one after the other. *)
Definition two_calls : list (option string * string) :=
  [ (Some "context-1", "+15550100"); (Some "context-2", "+15550177") ].

(** The events that answer a speech or speech-or-DTMF request with what the
    caller said or keyed in, and the events that can write the ticket. *)
Definition is_capture (et : EventType) : bool :=
  match et with
  | RecognizeCompleted _ (speech_result _) => true
  | RecognizeCompleted _ (dtmf_result _) => true
  | _ => false
  end.

Definition starts_or_completes (et : EventType) : bool :=
  match et with
  | CallConnected => true
  | RecognizeCompleted _ _ => true
  | _ => false
  end.

(** The answers of a caller whose name has been asked, who accepts the
    phone number and the e-mail address on file: the events from the
    confirmation of the name to the description of the issue. *)
Definition ticket_dialog (c work_mode contact_method work_address urgency issue : string)
    : list CloudEvent :=
  [ mkEvent c (RecognizeCompleted "confirm_name" (choices_result "Confirm" None));
    mkEvent c (RecognizeCompleted "confirm_phone_number" (choices_result "Confirm" None));
    mkEvent c (RecognizeCompleted "confirm_email_on_file" (choices_result "Confirm" None));
    mkEvent c (RecognizeCompleted "confirm_work_location" (choices_result work_mode None));
    mkEvent c (RecognizeCompleted "confirm_contact_method"
                 (choices_result contact_method None));
    mkEvent c (RecognizeCompleted "provide_work_address" (speech_result work_address));
    mkEvent c (RecognizeCompleted "confirm_urgency" (choices_result urgency None));
    mkEvent c (RecognizeCompleted "capture_issue" (speech_result issue)) ].

(** One request per event, all served while the e-mail service behaves as
    [svc]. *)
Definition one_by_one (svc : EmailService) (events : list CloudEvent)
    : list (EmailService * list CloudEvent) :=
  map (fun event => (svc, [event])) events.

(** ** The body of a notification, line by line *)

Definition newline_char : ascii := ascii_of_nat 10.

(** A string without a line break. *)
Definition one_line (s : string) : bool :=
  forallb (fun c => negb (Ascii.eqb c newline_char)) (list_ascii_of_string s).

(** The lines of a text, as [text.split("\n")] gives them. *)
Fixpoint lines (s : string) : list string :=
  match s with
  | EmptyString => [EmptyString]
  | String c r =>
      if Ascii.eqb c newline_char then EmptyString :: lines r
      else match lines r with
           | l :: ls => String c l :: ls
           | [] => [String c EmptyString]
           end
  end.

(** The values of the nine fields of a ticket as [Ticket.__str__] formats
    them before any case mapping, in the order of the notification. *)
Definition ticket_fields (t : Ticket) : list string :=
  [ id_num t; name t; contact_method t; format_value (phone_number t); email t;
    work_mode t; work_address t; urgency t; issue_description t ].

(** An effect that hands nothing to the e-mail service. *)
Definition no_message (e : Effect) : Prop :=
  match e with
  | BeginSend _ => False
  | _ => True
  end.

(** A computation that hands to the e-mail service nothing, or one message:
    the one [send_email] builds for the global ticket as the computation
    leaves it. *)
Definition dispatches_current {A} (m : M A) : Prop :=
  forall g,
    begin_sends (trace_of (m g)) = [] \/
    begin_sends (trace_of (m g)) = [ticket_message (current_ticket (globals_of (m g)))].

(** The globals of the sample dialog when the caller is asked to describe
    the issue, and a description dictated in two lines. *)
Definition before_capture_issue : Globals :=
  (fun served : list (Res Response) * Globals * list Effect => snd (fst served))
    (serve example_dict (firstn 11 whole_dialog) example_globals).

Definition two_line_issue : string :=
  "The screen stays dark" ++ newline ++ "and the fan is loud".

(** A character that the normal form of a spoken id never holds. *)
Definition not_in_spoken_key (ch : ascii) : bool :=
  Ascii.eqb ch space || Ascii.eqb ch period || is_ascii_upper ch.

(** * Reasoning about handler computations *)

(** Decide the comparisons between string literals in the goal. *)
Ltac decide_contexts :=
  repeat match goal with
         | |- context [String.eqb ?a ?b] =>
             let v := eval vm_compute in (String.eqb a b) in
             change (String.eqb a b) with v
         end.

Lemma bind_run {A B} (m : M A) (k : A -> M B) (g : Globals) :
  bind m k g =
  match m g with
  | (Val a, g1, t1) => (result_of (k a g1), globals_of (k a g1), (t1 ++ trace_of (k a g1))%list)
  | (Exc e, g1, t1) => (Exc e, g1, t1)
  end.
Proof.
  unfold bind, result_of, globals_of, trace_of.
  destruct (m g) as [[[a | e] g1] t1]; [| reflexivity].
  destruct (k a g1) as [[r g2] t2]; reflexivity.
Qed.

Lemma bind_val {A B} (m : M A) (k : A -> M B) g a g1 t1 :
  m g = (Val a, g1, t1) ->
  bind m k g = (result_of (k a g1), globals_of (k a g1), (t1 ++ trace_of (k a g1))%list).
Proof. intros H. rewrite bind_run, H. reflexivity. Qed.

Lemma bind_exc {A B} (m : M A) (k : A -> M B) g e g1 t1 :
  m g = (Exc e, g1, t1) -> bind m k g = (Exc e, g1, t1).
Proof. intros H. rewrite bind_run, H. reflexivity. Qed.

Lemma run_eta {A} (x : Res A * Globals * list Effect) :
  x = (result_of x, globals_of x, trace_of x).
Proof. destruct x as [[r g] t]; reflexivity. Qed.

(** ** A unary logic: an invariant of the globals and a property of every
    effect performed *)

Section Logic.

Variable P : Globals -> Prop.
Variable Q : Effect -> Prop.

Local Abbreviation keeps := (keeps P Q).

Lemma keeps_ret {A} (a : A) : keeps (ret a).
Proof. intros g Hg; split; [exact Hg | constructor]. Qed.

Lemma keeps_raise {A} (e : Exn) : keeps (@raise A e).
Proof. intros g Hg; split; [exact Hg | constructor]. Qed.

Lemma keeps_get_globals : keeps get_globals.
Proof. intros g Hg; split; [exact Hg | constructor]. Qed.

Lemma keeps_emit (e : Effect) : Q e -> keeps (emit e).
Proof. intros He g Hg; split; [exact Hg | repeat constructor; exact He]. Qed.

Lemma keeps_getattr {A} (v : option A) : keeps (getattr v).
Proof. destruct v; [apply keeps_ret | apply keeps_raise]. Qed.

Lemma keeps_bind {A B} (m : M A) (k : A -> M B) :
  keeps m -> (forall a, keeps (k a)) -> keeps (bind m k).
Proof.
  intros Hm Hk g Hg. rewrite bind_run.
  destruct (Hm g Hg) as [Hg1 Ht1].
  destruct (m g) as [[[a | e] g1] t1]; cbn in *; [| split; assumption].
  destruct (Hk a g1 Hg1) as [Hg2 Ht2].
  split; [exact Hg2 | apply Forall_app; split; assumption].
Qed.

Lemma keeps_when (b : bool) (m : M unit) : keeps m -> keeps (when b m).
Proof. intros Hm. destruct b; [exact Hm | apply keeps_ret]. Qed.

Lemma keeps_the_current_employee : keeps the_current_employee.
Proof.
  apply keeps_bind; [apply keeps_get_globals |].
  intros g. destruct (current_employee g); [apply keeps_ret | apply keeps_raise].
Qed.

Lemma keeps_the_new_phone_number : keeps the_new_phone_number.
Proof.
  apply keeps_bind; [apply keeps_get_globals |].
  intros g. destruct (new_phone_number g); [apply keeps_ret | apply keeps_raise].
Qed.

Lemma keeps_word_to_num (w : string) : keeps (word_to_num w).
Proof.
  unfold word_to_num.
  repeat match goal with
         | |- keeps (if ?b then _ else _) => destruct b
         end; first [apply keeps_ret | apply keeps_raise].
Qed.

Lemma keeps_num_string_loop (tones : list DtmfTone) :
  forall num_string, keeps (num_string_loop tones num_string).
Proof.
  induction tones as [| tone rest IH]; intros num_string; cbn.
  - apply keeps_ret.
  - apply keeps_bind; [apply keeps_word_to_num | intros n; apply IH].
Qed.

(** The assumptions on [P] and [Q]: [P] survives the updates a completed
    recognition can make, and [Q] holds of what the helpers emit when the
    directives go through the connection [client]. *)
Variable client : string.
Hypothesis P_set_context : forall c g, P g -> P (globals_of (set_retry (set_context c) g)).
Hypothesis P_set_mode : forall m g, P g -> P (globals_of (set_retry (set_mode m) g)).
Hypothesis P_set_choices : forall cs g, P g -> P (globals_of (set_retry (set_choices cs) g)).
Hypothesis P_reset : forall g, P g -> P (globals_of (set_retry reset g)).
Hypothesis P_set_ticket : forall f g, P g -> P (globals_of (set_ticket f g)).
Hypothesis P_employee : forall e g, P g -> P (globals_of (modify_current_employee e g)).
Hypothesis P_phone : forall n g, P g -> P (globals_of (modify_new_phone_number n g)).
Hypothesis Q_gateway : forall d, Q (Gateway client d).
Hypothesis Q_get : forall k, Q (DirectoryGet k).
Hypothesis Q_log : forall l, Q (Log l).
Hypothesis Q_send : forall t, Q (BeginSend (ticket_message t)).

Lemma keeps_update (m : M unit) :
  (forall g, P g -> P (globals_of (m g))) ->
  (forall g, trace_of (m g) = []) ->
  keeps m.
Proof. intros H1 H2 g Hg. split; [auto | rewrite H2; constructor]. Qed.

Lemma keeps_set_context c : keeps (set_retry (set_context c)).
Proof. apply keeps_update; [apply P_set_context | reflexivity]. Qed.
Lemma keeps_set_mode m : keeps (set_retry (set_mode m)).
Proof. apply keeps_update; [apply P_set_mode | reflexivity]. Qed.
Lemma keeps_set_choices cs : keeps (set_retry (set_choices cs)).
Proof. apply keeps_update; [apply P_set_choices | reflexivity]. Qed.
Lemma keeps_reset : keeps (set_retry reset).
Proof. apply keeps_update; [apply P_reset | reflexivity]. Qed.
Lemma keeps_set_ticket f : keeps (set_ticket f).
Proof. apply keeps_update; [apply P_set_ticket | reflexivity]. Qed.
Lemma keeps_modify_current_employee e : keeps (modify_current_employee e).
Proof. apply keeps_update; [apply P_employee | reflexivity]. Qed.
Lemma keeps_modify_new_phone_number n : keeps (modify_new_phone_number n).
Proof. apply keeps_update; [apply P_phone | reflexivity]. Qed.

Lemma keeps_choice_options txt tgt cs ctx :
  keeps (get_media_recognize_choice_options client txt tgt cs ctx).
Proof.
  unfold get_media_recognize_choice_options.
  repeat (apply keeps_bind; [| intros _]);
    auto using keeps_set_context, keeps_set_mode, keeps_set_choices, keeps_emit.
Qed.

Lemma keeps_speech_input txt tgt ctx :
  keeps (get_media_recognize_speech_input client txt tgt ctx).
Proof.
  unfold get_media_recognize_speech_input.
  repeat (apply keeps_bind; [| intros _]);
    auto using keeps_set_context, keeps_set_mode, keeps_emit.
Qed.

Lemma keeps_speech_or_dtmf_input txt tgt ctx :
  keeps (get_media_recognize_speech_or_dtmf_input client txt tgt ctx).
Proof.
  unfold get_media_recognize_speech_or_dtmf_input.
  repeat (apply keeps_bind; [| intros _]);
    auto using keeps_set_context, keeps_set_mode, keeps_emit.
Qed.

Lemma keeps_handle_play txt ctx : keeps (handle_play client txt ctx).
Proof. apply keeps_emit, Q_gateway. Qed.

Lemma keeps_poll_loop (waits : nat) : forall elapsed, keeps (poll_loop waits elapsed).
Proof.
  induction waits as [| w IH]; intros elapsed; cbn.
  - apply keeps_ret.
  - apply keeps_bind; [apply keeps_emit, Q_log | intros _].
    destruct (_ >? _); [apply keeps_ret | apply IH].
Qed.

Lemma keeps_get_employee_by_id dir k : keeps (get_employee_by_id dir k).
Proof.
  apply keeps_bind; [apply keeps_emit, Q_get | intros _; apply keeps_ret].
Qed.

Lemma keeps_send_email svc t : keeps (send_email svc t).
Proof.
  unfold send_email.
  apply keeps_bind; [apply keeps_get_globals | intros g].
  apply keeps_bind; [apply keeps_reset | intros _].
  apply keeps_bind; [apply keeps_emit, Q_send | intros _].
  destruct (begin_send_raises svc); [apply keeps_emit, Q_log |].
  apply keeps_bind; [apply keeps_poll_loop | intros done].
  destruct (negb done); [apply keeps_emit, Q_log |].
  destruct (status_succeeded svc); apply keeps_emit, Q_log.
Qed.

Lemma keeps_invalid_tone_loop tgt (tones : list DtmfTone) :
  keeps (invalid_tone_loop client tgt tones).
Proof.
  induction tones as [| tone rest IH]; cbn.
  - apply keeps_ret.
  - destruct (_ || _); [apply keeps_speech_or_dtmf_input | exact IH].
Qed.

End Logic.

(** One step of a proof in the logic: split a sequence, enter a branch, or
    close a leaf with the rule of the helper it calls. *)
Ltac keeps_side := first [ assumption | intros; exact I ].

Ltac keeps_leaf :=
  first
    [ apply keeps_ret | apply keeps_raise | apply keeps_get_globals
    | apply keeps_getattr
    | apply keeps_the_current_employee | apply keeps_the_new_phone_number
    | apply keeps_set_ticket; keeps_side
    | apply keeps_modify_current_employee; keeps_side
    | apply keeps_modify_new_phone_number; keeps_side
    | apply keeps_choice_options; keeps_side
    | apply keeps_speech_input; keeps_side
    | apply keeps_speech_or_dtmf_input; keeps_side
    | apply keeps_handle_play; keeps_side
    | apply keeps_get_employee_by_id; keeps_side
    | apply keeps_send_email; keeps_side
    | apply keeps_invalid_tone_loop; keeps_side
    | apply keeps_num_string_loop ].

Ltac keeps_step :=
  lazymatch goal with
  | |- keeps _ _ (bind _ _) => apply keeps_bind; [| intros ?]
  | |- keeps _ _ (when _ _) => apply keeps_when
  | |- keeps _ _ (if ?b then _ else _) => destruct b
  | |- keeps _ _ (match ?x with _ => _ end) => destruct x
  | |- _ => keeps_leaf
  end.

(** ** The logic applied to a completed recognition *)

Section CompletedLogic.

Variable P : Globals -> Prop.
Variable Q : Effect -> Prop.

Hypothesis P_set_context : forall c g, P g -> P (globals_of (set_retry (set_context c) g)).
Hypothesis P_set_mode : forall m g, P g -> P (globals_of (set_retry (set_mode m) g)).
Hypothesis P_set_choices : forall cs g, P g -> P (globals_of (set_retry (set_choices cs) g)).
Hypothesis P_reset : forall g, P g -> P (globals_of (set_retry reset g)).
Hypothesis P_set_ticket : forall f g, P g -> P (globals_of (set_ticket f g)).
Hypothesis P_employee : forall e g, P g -> P (globals_of (modify_current_employee e g)).
Hypothesis P_phone : forall n g, P g -> P (globals_of (modify_new_phone_number n g)).
Variable client : string.
Hypothesis Q_gateway : forall d, Q (Gateway client d).
Hypothesis Q_get : forall k, Q (DirectoryGet k).
Hypothesis Q_log : forall l, Q (Log l).
Hypothesis Q_send : forall t, Q (BeginSend (ticket_message t)).

Variable employee_dict : gmap string Employee.
Variable email_service : EmailService.

Lemma keeps_recognized_choices tgt ctx lbl :
  keeps P Q (recognized_choices email_service client tgt ctx lbl).
Proof. unfold recognized_choices. cbv zeta. repeat keeps_step. Qed.

Lemma keeps_recognized_speech tgt ctx text :
  keeps P Q (recognized_speech employee_dict email_service client tgt ctx text).
Proof. unfold recognized_speech. cbv zeta. repeat keeps_step. Qed.

Lemma keeps_recognized_dtmf tgt ctx tones :
  keeps P Q (recognized_dtmf employee_dict client tgt ctx tones).
Proof. unfold recognized_dtmf. cbv zeta. repeat keeps_step. Qed.

Lemma keeps_recognize_completed tgt ctx result :
  keeps P Q (recognize_completed employee_dict email_service client tgt ctx result).
Proof.
  destruct result; cbn.
  - apply keeps_recognized_choices.
  - apply keeps_recognized_speech.
  - apply keeps_recognized_dtmf.
  - apply keeps_handle_play; assumption.
Qed.

End CompletedLogic.

(** ** The view and the body of its loop *)

Lemma callback_events_handler_cons dir svc event rest g :
  callback_events_handler dir svc (event :: rest) g =
  (response_of (result_of (callback_event dir svc event g)),
   globals_of (callback_event dir svc event g),
   trace_of (callback_event dir svc event g)).
Proof.
  unfold callback_events_handler. rewrite bind_run.
  destruct (callback_event dir svc event g) as [[[[] | e] g1] t1]; cbn;
    [rewrite app_nil_r |]; reflexivity.
Qed.

Lemma callback_event_RecognizeCompleted dir svc c ctx result g :
  callback_event dir svc (mkEvent c (RecognizeCompleted ctx result)) g =
  recognize_completed dir svc c (TARGET_PHONE_NUMBER g) ctx result
    (globals_of (set_retry (set_counter 0) g)).
Proof.
  unfold callback_event. cbn [event_type callConnectionId].
  rewrite (bind_val _ _ g g g []) by reflexivity.
  rewrite (bind_val _ _ g tt (globals_of (set_retry (set_counter 0) g)) []) by reflexivity.
  cbn [result_of globals_of trace_of fst snd app].
  symmetry. apply run_eta.
Qed.

(** ** Retry counter *)

(** C7. Every RecognizeCompleted event, whatever its recognition type and
    operation context, first sets the retry counter to 0 and only then
    processes the transition (the transition runs from the globals with the
    counter at 0), and the counter is still 0 when the handler is done,
    whether it returns or raises. *)
Theorem recognize_completed_resets_counter dir svc c ctx result rest g :
  let event := mkEvent c (RecognizeCompleted ctx result) in
  let g0 := globals_of (set_retry (set_counter 0) g) in
  counter (retry_object g0) = Some 0 /\
  callback_event dir svc event g =
    recognize_completed dir svc c (TARGET_PHONE_NUMBER g) ctx result g0 /\
  counter (retry_object (globals_of (callback_events_handler dir svc (event :: rest) g)))
    = Some 0.
Proof.
  intros event g0. split; [reflexivity |]. split.
  - apply callback_event_RecognizeCompleted.
  - rewrite callback_events_handler_cons. cbn [globals_of fst snd].
    unfold event. rewrite callback_event_RecognizeCompleted.
    refine (proj1 (keeps_recognize_completed counter_is_zero (fun _ => True)
                     _ _ _ _ _ _ _ c _ _ _ _ dir svc _ ctx result g0 _));
      try (intros; exact I); try (intros; assumption); reflexivity.
Qed.

(** ** Properties of every effect of the handler *)

Section TraceLogic.

Variable Q : Effect -> Prop.
Variable client : string.
Hypothesis Q_gateway : forall d, Q (Gateway client d).
Hypothesis Q_get : forall k, Q (DirectoryGet k).
Hypothesis Q_log : forall l, Q (Log l).
Hypothesis Q_send : forall t, Q (BeginSend (ticket_message t)).

Lemma keeps_any_update (m : M unit) :
  (forall g, trace_of (m g) = []) -> keeps any_globals Q m.
Proof. intros H. apply keeps_update; [intros; exact I | exact H]. Qed.

Lemma keeps_recognize_failed tgt ctx ri :
  keeps any_globals Q (recognize_failed client tgt ctx ri).
Proof.
  unfold recognize_failed. cbv zeta.
  repeat first [ apply keeps_any_update; reflexivity | keeps_step ].
Qed.

Lemma keeps_callback_event dir svc et :
  keeps any_globals Q (callback_event dir svc (mkEvent client et)).
Proof.
  unfold callback_event. cbn [event_type callConnectionId]. cbv zeta.
  apply keeps_bind; [apply keeps_get_globals | intros g].
  destruct et.
  - apply keeps_bind; [apply keeps_any_update; reflexivity | intros _].
    apply keeps_choice_options; keeps_side.
  - apply keeps_bind; [apply keeps_any_update; reflexivity | intros _].
    apply keeps_recognize_completed; keeps_side.
  - apply keeps_recognize_failed.
  - apply keeps_emit, Q_gateway.
  - apply keeps_bind; [apply keeps_handle_play; keeps_side | intros _].
    apply keeps_emit, Q_gateway.
  - apply keeps_ret.
Qed.

Lemma callback_events_handler_trace dir svc et rest g :
  Forall Q (trace_of (callback_events_handler dir svc (mkEvent client et :: rest) g)).
Proof.
  rewrite callback_events_handler_cons.
  apply (keeps_callback_event dir svc et g I).
Qed.

End TraceLogic.

(** ** The rendering of a ticket *)

Lemma append_assoc (s1 s2 s3 : string) : (s1 ++ s2) ++ s3 = s1 ++ s2 ++ s3.
Proof.
  induction s1 as [| c s1 IH]; [reflexivity |].
  change (String c ((s1 ++ s2) ++ s3) = String c (s1 ++ s2 ++ s3)).
  rewrite IH. reflexivity.
Qed.

Lemma Ticket_str_lines (t : Ticket) :
  Ticket_str t = String.concat newline (Ticket_lines t).
Proof.
  unfold Ticket_str, Ticket_lines. cbn [String.concat].
  rewrite !append_assoc. reflexivity.
Qed.

(** ** What [send_email] does, whatever the e-mail service *)

Lemma poll_loop_run (waits : nat) :
  forall elapsed g, exists done logs,
    poll_loop waits elapsed g = (Val done, g, map Log logs).
Proof.
  induction waits as [| w IH]; intros elapsed g.
  - exists true, []. reflexivity.
  - cbn [poll_loop].
    destruct (elapsed + POLLER_WAIT_TIME >? 18 * POLLER_WAIT_TIME) eqn:E.
    + exists false, [EmailPollerStatus].
      rewrite (bind_val _ _ g tt g [Log EmailPollerStatus]) by reflexivity.
      reflexivity.
    + destruct (IH (elapsed + POLLER_WAIT_TIME) g) as (done & logs & H).
      exists done, (EmailPollerStatus :: logs).
      rewrite (bind_val _ _ g tt g [Log EmailPollerStatus]) by reflexivity.
      cbv beta zeta. rewrite H. reflexivity.
Qed.

Lemma send_email_run svc (t : Ticket) g :
  exists logs,
    logs <> [] /\
    send_email svc (Some t) g =
    (Val tt, globals_of (set_retry reset g),
     BeginSend (ticket_message t) :: map Log logs).
Proof.
  unfold send_email.
  rewrite (bind_val _ _ g g g []) by reflexivity.
  rewrite (bind_val _ _ g tt (globals_of (set_retry reset g)) []) by reflexivity.
  set (g1 := globals_of (set_retry reset g)).
  rewrite (bind_val _ _ g1 tt g1 [BeginSend (ticket_message t)]) by reflexivity.
  cbn [result_of globals_of trace_of fst snd app].
  destruct (begin_send_raises svc).
  { exists [EmailException BeginSendRaised]. split; [discriminate | reflexivity]. }
  destruct (poll_loop_run (waits_until_done svc) 0 g1) as (done & logs & H).
  rewrite (bind_val _ _ g1 done g1 (map Log logs)) by exact H.
  destruct done; cbn [negb].
  - destruct (status_succeeded svc).
    + exists (logs ++ [EmailSucceeded])%list.
      split; [destruct logs; discriminate | rewrite map_app; reflexivity].
    + exists (logs ++ [EmailException StatusNotSucceeded])%list.
      split; [destruct logs; discriminate | rewrite map_app; reflexivity].
  - exists (logs ++ [EmailException PollingTimedOut])%list.
    split; [destruct logs; discriminate | rewrite map_app; reflexivity].
Qed.

Lemma begin_sends_logs (logs : list LogEntry) : begin_sends (map Log logs) = [].
Proof. induction logs as [| l logs IH]; [reflexivity | exact IH]. Qed.

Lemma directives_logs (logs : list LogEntry) : directives (map Log logs) = [].
Proof. induction logs as [| l logs IH]; [reflexivity | exact IH]. Qed.

Lemma directory_gets_logs (logs : list LogEntry) : directory_gets (map Log logs) = [].
Proof. induction logs as [| l logs IH]; [reflexivity | exact IH]. Qed.

(** ** The answer at [confirm_additional_request] *)

Lemma recognized_choices_additional_yes svc c tgt g :
  exists logs,
    logs <> [] /\
    recognized_choices svc c tgt "confirm_additional_request" "Yes" g =
    (Exc TypeError, globals_of (set_retry reset g),
     BeginSend (ticket_message (current_ticket g)) :: map Log logs).
Proof.
  destruct (send_email_run svc (current_ticket g) g) as (logs & Hne & H).
  exists logs. split; [exact Hne |].
  unfold recognized_choices.
  lazy - [send_email set_retry reset ticket_message map current_ticket globals_of app].
  rewrite H. rewrite app_nil_r. reflexivity.
Qed.

Lemma recognized_choices_additional_other svc c tgt lbl g :
  (lbl == "Yes") = false ->
  recognized_choices svc c tgt "confirm_additional_request" lbl g =
  (Val tt, g, [Gateway c (play_media GOODBYE (Some "end_call_log_ticket"))]).
Proof.
  intros H. unfold recognized_choices.
  lazy - [String.eqb GOODBYE] in *. cbn [String.eqb Ascii.eqb Bool.eqb] in *.
  rewrite H. reflexivity.
Qed.

Lemma recognized_speech_capture_issue dir svc c tgt text g :
  exists logs,
    logs <> [] /\
    recognized_speech dir svc c tgt "capture_issue" text g =
    (Val tt,
     mkGlobals (current_employee g) (new_phone_number g)
               (set_issue_description text (current_ticket g))
               (reset (retry_object g)) (TARGET_PHONE_NUMBER g),
     Gateway c
       (start_recognizing_media
          (mkRequest CHOICES tgt (Some get_additional_request_choices)
                     ISSUE_LOGGED None "confirm_additional_request"))
     :: BeginSend (ticket_message (set_issue_description text (current_ticket g)))
     :: map Log logs).
Proof.
  unfold recognized_speech.
  lazy - [send_email reset ticket_message map app set_issue_description
          get_additional_request_choices ISSUE_LOGGED].
  match goal with
  | |- context [send_email ?s (Some ?t) ?x] =>
      destruct (send_email_run s t x) as (logs & Hne & H); rewrite H
  end.
  exists logs. split; [exact Hne |].
  reflexivity.
Qed.

(** C6. At [confirm_additional_request] the answer "Yes" hands the current
    ticket to the e-mail service once more and then raises: the ticket is
    left as it was (not reset), no main-menu recognition is requested, and
    the request is not answered with a 200.  Any other answer plays the
    goodbye message, after which the call is hung up on PlayCompleted. *)
Theorem additional_request_yes_not_reset dir svc c phrase rest g :
  let yes := event_of c (RecognizeCompleted "confirm_additional_request"
                           (choices_result "Yes" phrase)) in
  let no := event_of c (RecognizeCompleted "confirm_additional_request"
                          (choices_result "No" phrase)) in
  let r := callback_events_handler dir svc (yes :: rest) g in
  result_of r = Exc TypeError /\
  current_ticket (globals_of r) = current_ticket g /\
  directives (trace_of r) = [] /\
  begin_sends (trace_of r) = [ticket_message (current_ticket g)] /\
  context (retry_object (globals_of r)) = Some EmptyString /\
  callback_events_handler dir svc (no :: rest) g =
    (Val (Response_status 200), globals_of (set_retry (set_counter 0) g),
     [Gateway c (play_media GOODBYE (Some "end_call_log_ticket"))]) /\
  callback_events_handler dir svc [event_of c PlayCompleted] g =
    (Val (Response_status 200), g, [Gateway c hang_up]).
Proof.
  intros yes no r. subst r yes no. unfold event_of.
  rewrite !callback_events_handler_cons, !callback_event_RecognizeCompleted.
  cbn [recognize_completed].
  set (g0 := globals_of (set_retry (set_counter 0) g)).
  destruct (recognized_choices_additional_yes svc c (TARGET_PHONE_NUMBER g) g0)
    as (logs & _ & ->).
  rewrite recognized_choices_additional_other by reflexivity.
  cbn [result_of globals_of trace_of fst snd response_of].
  repeat split.
  - cbn. apply directives_logs.
  - cbn. rewrite begin_sends_logs. reflexivity.
Qed.

(** C4. A CaptureIssue speech event answers 200, requests the
    ConfirmAdditionalRequest recognition whatever the e-mail service does,
    and hands the ticket to the e-mail service once; answering "Yes" to that
    recognition hands the very same ticket to the e-mail service a second
    time. *)
Theorem ticket_sent_again_on_yes dir svc1 svc2 c text phrase rest1 rest2 g :
  let capture := event_of c (RecognizeCompleted "capture_issue" (speech_result text)) in
  let yes := event_of c (RecognizeCompleted "confirm_additional_request"
                           (choices_result "Yes" phrase)) in
  let r1 := callback_events_handler dir svc1 (capture :: rest1) g in
  let r2 := callback_events_handler dir svc2 (yes :: rest2) (globals_of r1) in
  let sent := ticket_message (set_issue_description text (current_ticket g)) in
  result_of r1 = Val (Response_status 200) /\
  directives (trace_of r1) =
    [start_recognizing_media
       (mkRequest CHOICES (TARGET_PHONE_NUMBER g) (Some get_additional_request_choices)
                  ISSUE_LOGGED None "confirm_additional_request")] /\
  begin_sends (trace_of r1) = [sent] /\
  begin_sends (trace_of r2) = [sent].
Proof.
  intros capture yes r1 r2 sent. subst r2 r1 capture yes sent. unfold event_of.
  rewrite !callback_events_handler_cons, !callback_event_RecognizeCompleted.
  cbn [recognize_completed].
  set (g0 := globals_of (set_retry (set_counter 0) g)).
  destruct (recognized_speech_capture_issue dir svc1 c (TARGET_PHONE_NUMBER g) text g0)
    as (logs1 & _ & ->).
  cbn [result_of globals_of trace_of fst snd response_of].
  match goal with
  | |- context [recognized_choices ?s ?c ?t _ _ ?x] =>
      destruct (recognized_choices_additional_yes s c t x) as (logs2 & _ & ->)
  end.
  cbn [result_of globals_of trace_of fst snd response_of].
  repeat split.
  - cbn. rewrite directives_logs. reflexivity.
  - cbn. rewrite begin_sends_logs. reflexivity.
  - cbn. rewrite begin_sends_logs. reflexivity.
Qed.

(** ** The loop over the posted events *)

(** A posted array of two events whose first event is the answer "Yes" at
    [confirm_additional_request]: the view raises while it processes that
    event, so it does not return a 200 response. *)
Lemma two_events_first_raises_no_200 :
  (2 <= List.length yes_then_play_completed)%nat /\
  result_of (callback_events_handler example_dict example_service
               yes_then_play_completed example_globals) = Exc TypeError /\
  result_of (callback_events_handler example_dict example_service
               yes_then_play_completed example_globals) <> Val (Response_status 200).
Proof.
  assert (H : result_of (callback_events_handler example_dict example_service
                           yes_then_play_completed example_globals) = Exc TypeError)
    by (vm_compute; reflexivity).
  split; [cbn; lia |].
  split; [exact H | rewrite H; discriminate].
Qed.

(** C9 (amended). For a posted array of two or more events the view
    processes the first event only: its outcome, the globals it leaves and
    its effects are those of the loop body on the first event, whatever
    the remaining events are, and the response is 200 as soon as that
    processing completes (if it raises, the exception leaves the view). *)
Theorem only_first_event_processed dir svc e1 e2 rest g :
  callback_events_handler dir svc (e1 :: e2 :: rest) g =
    callback_events_handler dir svc [e1] g /\
  callback_events_handler dir svc (e1 :: e2 :: rest) g =
    (response_of (result_of (callback_event dir svc e1 g)),
     globals_of (callback_event dir svc e1 g),
     trace_of (callback_event dir svc e1 g)).
Proof.
  split.
  - rewrite !callback_events_handler_cons. reflexivity.
  - apply callback_events_handler_cons.
Qed.

(** ** Failed recognitions *)

Lemma callback_event_RecognizeFailed dir svc c ctx ri g :
  callback_event dir svc (mkEvent c (RecognizeFailed ctx ri)) g =
  recognize_failed c (TARGET_PHONE_NUMBER g) ctx ri g.
Proof.
  unfold callback_event. cbn [event_type callConnectionId].
  rewrite (bind_val _ _ g g g []) by reflexivity.
  cbn [app]. symmetry. apply run_eta.
Qed.

(** C1. When the retry counter stands at 2 and the last request was a
    choice recognition, one more RecognizeFailed event with an operation
    context plays the escalation message and then still issues the
    recognition request again, for the context and choices of the last
    request: the escalation is followed by a further re-prompt. *)
Theorem third_failure_escalates_then_reprompts dir svc c ctx ri rest g cs rc :
  counter (retry_object g) = Some 2 ->
  mode (retry_object g) = Some "choices" ->
  choices (retry_object g) = Some cs ->
  context (retry_object g) = Some rc ->
  ctx <> EmptyString ->
  let r := callback_events_handler dir svc (event_of c (RecognizeFailed ctx ri) :: rest) g in
  result_of r = Val (Response_status 200) /\
  counter (retry_object (globals_of r)) = Some 3 /\
  trace_of r =
    [ Gateway c (play_media RETRY_COUNT_REACHED_MESSAGE (Some "retry_count_reached"));
      Gateway c
        (start_recognizing_media
           (mkRequest CHOICES (TARGET_PHONE_NUMBER g) (Some cs)
                      (if existsb (Z.eqb (subCode ri)) [8510; 8510]
                       then CUSTOMER_QUERY_TIMEOUT else INVALID_AUDIO)
                      None rc)) ] /\
  existsb is_recognition (directives (trace_of r)) = true.
Proof.
  intros Hcounter Hmode Hchoices Hcontext Hctx r. subst r. unfold event_of.
  rewrite callback_events_handler_cons, callback_event_RecognizeFailed.
  destruct g as [ce np tk [rctx rch rmode rcnt] tgt].
  cbn in Hcounter, Hmode, Hchoices, Hcontext. subst rctx rch rmode rcnt.
  destruct ctx as [| a ctx']; [congruence |].
  unfold recognize_failed.
  lazy - [Z.eqb existsb subCode RETRY_COUNT_REACHED_MESSAGE CUSTOMER_QUERY_TIMEOUT
          INVALID_AUDIO].
  repeat split.
Qed.

Lemma third_failure_witness :
  counter (retry_object after_two_failures) = Some 2 /\
  mode (retry_object after_two_failures) = Some "choices" /\
  choices (retry_object after_two_failures) = Some get_confirm_choices /\
  context (retry_object after_two_failures) = Some "ticket" /\
  trace_of (callback_events_handler example_dict example_service
              [event_of "call-1" (RecognizeFailed "ticket" timeout_information)]
              after_two_failures) =
    [ Gateway "call-1" (play_media RETRY_COUNT_REACHED_MESSAGE (Some "retry_count_reached"));
      Gateway "call-1"
        (start_recognizing_media
           (mkRequest CHOICES "+15550100" (Some get_confirm_choices)
                      CUSTOMER_QUERY_TIMEOUT None "ticket")) ].
Proof.
  assert (H1 : counter (retry_object after_two_failures) = Some 2)
    by (vm_compute; reflexivity).
  assert (H2 : mode (retry_object after_two_failures) = Some "choices")
    by (vm_compute; reflexivity).
  assert (H3 : choices (retry_object after_two_failures) = Some get_confirm_choices)
    by (vm_compute; reflexivity).
  assert (H4 : context (retry_object after_two_failures) = Some "ticket")
    by (vm_compute; reflexivity).
  assert (H5 : "ticket" <> EmptyString) by discriminate.
  split; [exact H1 |]. split; [exact H2 |]. split; [exact H3 |]. split; [exact H4 |].
  exact (proj1 (proj2 (proj2
    (third_failure_escalates_then_reprompts example_dict example_service
       "call-1" "ticket" timeout_information [] after_two_failures
       get_confirm_choices "ticket" H1 H2 H3 H4 H5)))).
Defined.

(** ** Runs of the recognition helpers *)

Lemma bind_ret_l {A B} (a : A) (k : A -> M B) g : bind (ret a) k g = k a g.
Proof.
  rewrite (bind_val _ _ g a g []) by reflexivity.
  cbn [app]. symmetry. apply run_eta.
Qed.

Lemma speech_or_dtmf_run c txt tgt ctx g :
  get_media_recognize_speech_or_dtmf_input c txt tgt ctx g =
  (Val tt,
   globals_of (set_retry (fun r => set_mode "speech_or_dtmf" (set_context ctx r)) g),
   [Gateway c (speech_or_dtmf_request tgt txt ctx)]).
Proof. reflexivity. Qed.

Lemma choice_options_run c txt tgt cs ctx g :
  get_media_recognize_choice_options c txt tgt cs ctx g =
  (Val tt,
   globals_of (set_retry (fun r => set_choices cs (set_mode "choices" (set_context ctx r))) g),
   [Gateway c (start_recognizing_media (mkRequest CHOICES tgt (Some cs) txt None ctx))]).
Proof. reflexivity. Qed.

Lemma invalid_tone_loop_run c tgt tones g :
  invalid_tone_loop c tgt tones g =
  if has_invalid_tone tones
  then get_media_recognize_speech_or_dtmf_input c INVALID_CHARACTER tgt "provide_eid" g
  else (Val tt, g, []).
Proof.
  induction tones as [| tone rest IH]; [reflexivity |].
  cbn [invalid_tone_loop has_invalid_tone existsb].
  destruct ((tone_value tone == "pound") || (tone_value tone == "asterick")); [reflexivity |].
  exact IH.
Qed.

Lemma append_nil_r (s : string) : s ++ EmptyString = s.
Proof.
  induction s as [| c s IH]; [reflexivity |].
  change (String c (s ++ EmptyString) = String c s). rewrite IH. reflexivity.
Qed.

Lemma word_to_num_not_digit (tone : DtmfTone) g :
  tone_digit tone = None ->
  word_to_num (tone_value tone) g = (Exc ValueError, g, []).
Proof. destruct tone; cbn [tone_digit]; intros H; try discriminate; reflexivity. Qed.

Lemma word_to_num_digit (tone : DtmfTone) (d : string) g :
  tone_digit tone = Some d ->
  exists n, word_to_num (tone_value tone) g = (Val n, g, []) /\ str_of_int n = d.
Proof.
  destruct tone; cbn [tone_digit]; intros H; inversion H; subst;
    eexists; (split; [reflexivity | reflexivity]).
Qed.

Lemma num_string_loop_run (tones : list DtmfTone) :
  forall num_string g,
    num_string_loop tones num_string g =
    match keyed_digits tones with
    | Some d => (Val (num_string ++ d), g, [])
    | None => (Exc ValueError, g, [])
    end.
Proof.
  induction tones as [| tone rest IH]; intros num_string g.
  - cbn. rewrite append_nil_r. reflexivity.
  - cbn [num_string_loop keyed_digits].
    destruct (tone_digit tone) as [d |] eqn:Hd.
    + destruct (word_to_num_digit tone d g Hd) as (n & Hn & Hs).
      rewrite (bind_val _ _ g n g []) by exact Hn.
      rewrite IH, Hs.
      destruct (keyed_digits rest) as [ds |]; [| reflexivity].
      cbn. rewrite append_assoc. reflexivity.
    + rewrite (bind_exc _ _ g ValueError g []); [reflexivity |].
      apply word_to_num_not_digit, Hd.
Qed.

(** No tone value equals ["asterick"], and only POUND equals ["pound"]; a
    capture of digit tones has no invalid tone. *)
Lemma keyed_digits_no_invalid (tones : list DtmfTone) (d : string) :
  keyed_digits tones = Some d -> has_invalid_tone tones = false.
Proof.
  revert d. induction tones as [| tone rest IH]; intros d H; [reflexivity |].
  cbn [keyed_digits] in H. cbn [has_invalid_tone existsb].
  destruct (tone_digit tone) as [d1 |] eqn:Hd; [| discriminate].
  destruct (keyed_digits rest) as [ds |] eqn:Hr; [| discriminate].
  fold (has_invalid_tone rest). rewrite (IH ds eq_refl).
  destruct tone; try discriminate; reflexivity.
Qed.

(** Digits contain neither spaces nor periods nor upper-case letters. *)
Lemma keyed_digits_plain (tones : list DtmfTone) (d : string) :
  keyed_digits tones = Some d ->
  replace space EmptyString d = d /\ replace period EmptyString d = d /\ lower d = d.
Proof.
  revert d. induction tones as [| tone rest IH]; intros d H.
  - inversion H. repeat split.
  - cbn [keyed_digits] in H.
    destruct (tone_digit tone) as [d1 |] eqn:Hd; [| discriminate].
    destruct (keyed_digits rest) as [ds |] eqn:Hr; [| discriminate].
    inversion H; subst d. destruct (IH ds eq_refl) as (H1 & H2 & H3).
    unfold space, period in *.
    destruct tone; try discriminate; inversion Hd; subst d1;
      lazy [String.append]; cbn; rewrite H1, H2, H3; repeat split.
Qed.

Lemma bind_step {A B} (m : M A) (k : A -> M B) g a g1 t1 :
  m g = (Val a, g1, t1) -> bind m k g = prepend t1 (k a g1).
Proof. apply bind_val. Qed.

Lemma prepend_nil {A} (x : Res A * Globals * list Effect) : prepend [] x = x.
Proof. destruct x as [[r g] t]; reflexivity. Qed.

Lemma get_employee_by_id_run dir key g :
  get_employee_by_id dir key g = (Val (dir !! key), g, [DirectoryGet key]).
Proof. reflexivity. Qed.

(** ** A keyed-in employee id *)

Lemma recognized_dtmf_provide_eid_digits dir c tgt tones d g :
  keyed_digits tones = Some d ->
  recognized_dtmf dir c tgt "provide_eid" tones g =
  let wrong_length := negb (Nat.eqb (List.length tones) 6) in
  let g1 := if wrong_length
            then globals_of (get_media_recognize_speech_or_dtmf_input c SIX_DIGITS_EXPECTED
                               tgt "provide_eid" g)
            else g in
  let t1 := if wrong_length
            then [Gateway c (speech_or_dtmf_request tgt SIX_DIGITS_EXPECTED "provide_eid")]
            else [] in
  match dir !! ("e" ++ d) with
  | Some e =>
      (Val tt,
       globals_of (get_media_recognize_choice_options c (IS_YOUR_NAME (first_name e)) tgt
                     get_confirm_choices "confirm_name"
                     (globals_of (modify_current_employee e g1))),
       (t1 ++ [DirectoryGet ("e" ++ d); Gateway c (confirm_name_request tgt e)])%list)
  | None =>
      (Val tt,
       globals_of (get_media_recognize_speech_or_dtmf_input c EMPLOYEE_NOT_FOUND
                     tgt "provide_eid" g1),
       (t1 ++ [DirectoryGet ("e" ++ d);
               Gateway c (speech_or_dtmf_request tgt EMPLOYEE_NOT_FOUND "provide_eid")])%list)
  end.
Proof.
  intros Hd. cbv zeta. unfold recognized_dtmf.
  change ("provide_eid" == "provide_eid") with true. cbn [andb].
  destruct (keyed_digits_plain tones d Hd) as (Hs & Hp & _).
  set (wrong := negb (Nat.eqb (List.length tones) 6)).
  set (g1 := if wrong then _ else g).
  set (t1 := if wrong then _ else []).
  assert (Hpre : when wrong (get_media_recognize_speech_or_dtmf_input c SIX_DIGITS_EXPECTED
                               tgt "provide_eid") g = (Val tt, g1, t1))
    by (subst g1 t1; destruct wrong; reflexivity).
  rewrite (bind_step _ _ g tt g1 t1) by exact Hpre.
  rewrite (bind_step _ _ g1 tt g1 [])
    by (rewrite invalid_tone_loop_run, (keyed_digits_no_invalid tones d Hd); reflexivity).
  rewrite (bind_step _ _ g1 d g1 [])
    by (rewrite num_string_loop_run, Hd; reflexivity).
  cbv zeta. rewrite Hs, Hp, !prepend_nil.
  rewrite (bind_step _ _ g1 _ g1 _ (get_employee_by_id_run dir ("e" ++ d) g1)).
  destruct (dir !! ("e" ++ d)) as [e |]; reflexivity.
Qed.

(** C3. A capture of digit tones whose length is not 6 is answered with the
    six-digits re-prompt, and then the handler goes on as for a valid
    capture: it looks the digits up in the directory and, when the directory
    holds that id, binds the employee and asks to confirm the name. *)
Theorem wrong_length_capture_is_looked_up dir svc c tones d emp rest g :
  List.length tones <> 6%nat ->
  keyed_digits tones = Some d ->
  dir !! ("e" ++ d) = Some emp ->
  let r := callback_events_handler dir svc
             (event_of c (RecognizeCompleted "provide_eid" (dtmf_result tones)) :: rest) g in
  result_of r = Val (Response_status 200) /\
  current_employee (globals_of r) = Some emp /\
  context (retry_object (globals_of r)) = Some "confirm_name" /\
  trace_of r =
    [ Gateway c (speech_or_dtmf_request (TARGET_PHONE_NUMBER g) SIX_DIGITS_EXPECTED
                   "provide_eid");
      DirectoryGet ("e" ++ d);
      Gateway c (confirm_name_request (TARGET_PHONE_NUMBER g) emp) ].
Proof.
  intros Hlen Hd Hemp r. subst r. unfold event_of.
  rewrite callback_events_handler_cons, callback_event_RecognizeCompleted.
  cbn [recognize_completed].
  rewrite (recognized_dtmf_provide_eid_digits _ _ _ _ d) by exact Hd.
  cbv zeta. rewrite Hemp.
  apply Nat.eqb_neq in Hlen. rewrite Hlen.
  repeat split.
Qed.

Lemma wrong_length_capture_witness :
  List.length [ONE; TWO; THREE] <> 6%nat /\
  keyed_digits [ONE; TWO; THREE] = Some "123" /\
  short_id_dict !! "e123" = Some bo /\
  current_employee
    (globals_of (callback_events_handler short_id_dict example_service
       [event_of "call-1" (RecognizeCompleted "provide_eid" (dtmf_result [ONE; TWO; THREE]))]
       example_globals)) = Some bo /\
  trace_of (callback_events_handler short_id_dict example_service
       [event_of "call-1" (RecognizeCompleted "provide_eid" (dtmf_result [ONE; TWO; THREE]))]
       example_globals) =
    [ Gateway "call-1" (speech_or_dtmf_request "+15550100" SIX_DIGITS_EXPECTED "provide_eid");
      DirectoryGet "e123";
      Gateway "call-1" (confirm_name_request "+15550100" bo) ].
Proof.
  assert (H1 : List.length [ONE; TWO; THREE] <> 6%nat) by (cbn; lia).
  assert (H2 : keyed_digits [ONE; TWO; THREE] = Some "123") by reflexivity.
  assert (H3 : short_id_dict !! "e123" = Some bo) by (vm_compute; reflexivity).
  split; [exact H1 |]. split; [exact H2 |]. split; [exact H3 |].
  destruct (wrong_length_capture_is_looked_up short_id_dict example_service "call-1"
              [ONE; TWO; THREE] "123" bo [] example_globals H1 H2 H3)
    as (_ & Hemp & _ & Htrace).
  split; [exact Hemp | exact Htrace].
Defined.

(** ** A spoken employee id *)

Lemma recognized_speech_provide_eid dir svc c tgt text g :
  recognized_speech dir svc c tgt "provide_eid" text g =
  let key := speech_final_id_num text in
  match dir !! key with
  | Some e =>
      (Val tt,
       globals_of (get_media_recognize_choice_options c (IS_YOUR_NAME (first_name e)) tgt
                     get_confirm_choices "confirm_name"
                     (globals_of (modify_current_employee e g))),
       [DirectoryGet key; Gateway c (confirm_name_request tgt e)])
  | None =>
      (Val tt,
       globals_of (get_media_recognize_speech_or_dtmf_input c EMPLOYEE_NOT_FOUND
                     tgt "provide_eid" g),
       [DirectoryGet key;
        Gateway c (speech_or_dtmf_request tgt EMPLOYEE_NOT_FOUND "provide_eid")])
  end.
Proof.
  cbv zeta. unfold recognized_speech, speech_final_id_num.
  decide_contexts. cbv zeta. cbn [when].
  set (key := replace period EmptyString (replace space EmptyString (lower text))).
  clearbody key. unfold get_employee_by_id.
  generalize (dir !! key). intros [e |]; reflexivity.
Qed.

(** The specification's example input: the words are kept as words, the
    key queried is not the id, the lookup misses although the directory
    holds [e672834], and the dialog stays at [provide_eid] with no employee
    bound. *)
Lemma spoken_number_words_are_not_digits :
  speech_final_id_num "e six seven two eight three four" = "esixseventwoeightthreefour" /\
  speech_final_id_num "e six seven two eight three four" <> "e672834" /\
  example_dict !! "e672834" = Some ada /\
  directory_gets (trace_of spoken_words_run) = ["esixseventwoeightthreefour"] /\
  current_employee (globals_of spoken_words_run) = None /\
  context (retry_object (globals_of spoken_words_run)) = Some "provide_eid".
Proof.
  split; [reflexivity |].
  split; [vm_compute; discriminate |].
  repeat split; vm_compute; reflexivity.
Qed.

(** C5 (amended). A spoken employee id is lower-cased and stripped of spaces
    and periods, nothing else (number words stay words); when the directory
    holds the resulting key, the employee is bound and the next request is
    the confirm-name choice whose prompt contains the employee's first
    name. *)
Theorem spoken_id_found_asks_name dir svc c text emp rest g :
  dir !! speech_final_id_num text = Some emp ->
  let r := callback_events_handler dir svc
             (event_of c (RecognizeCompleted "provide_eid" (speech_result text)) :: rest) g in
  speech_final_id_num text
    = replace period EmptyString (replace space EmptyString (lower text)) /\
  result_of r = Val (Response_status 200) /\
  current_employee (globals_of r) = Some emp /\
  context (retry_object (globals_of r)) = Some "confirm_name" /\
  trace_of r =
    [ DirectoryGet (speech_final_id_num text);
      Gateway c
        (start_recognizing_media
           (mkRequest CHOICES (TARGET_PHONE_NUMBER g) (Some get_confirm_choices)
              ("Great. Give me a moment while I look up your information... Is your name "
               ++ first_name emp ++ "?")
              None "confirm_name")) ].
Proof.
  intros Hemp r. subst r. unfold event_of.
  rewrite callback_events_handler_cons, callback_event_RecognizeCompleted.
  cbn [recognize_completed].
  rewrite recognized_speech_provide_eid. cbv zeta. rewrite Hemp.
  repeat split.
Qed.

Lemma spoken_id_found_witness :
  example_dict !! speech_final_id_num "E 6 7 2 8 3 4." = Some ada /\
  speech_final_id_num "E 6 7 2 8 3 4." = "e672834" /\
  trace_of (callback_events_handler example_dict example_service
              [event_of "call-1" (RecognizeCompleted "provide_eid"
                                    (speech_result "E 6 7 2 8 3 4."))]
              example_globals) =
    [ DirectoryGet "e672834";
      Gateway "call-1"
        (start_recognizing_media
           (mkRequest CHOICES "+15550100" (Some get_confirm_choices)
              "Great. Give me a moment while I look up your information... Is your name Ada?"
              None "confirm_name")) ].
Proof.
  assert (H : example_dict !! speech_final_id_num "E 6 7 2 8 3 4." = Some ada)
    by (vm_compute; reflexivity).
  split; [exact H |].
  split; [vm_compute; reflexivity |].
  exact (proj2 (proj2 (proj2 (proj2
    (spoken_id_found_asks_name example_dict example_service "call-1"
       "E 6 7 2 8 3 4." ada [] example_globals H))))).
Defined.

(** ** The keys of the two modalities *)

Lemma recognized_dtmf_provide_eid_not_digits dir c tgt tones g :
  keyed_digits tones = None ->
  result_of (recognized_dtmf dir c tgt "provide_eid" tones g) = Exc ValueError /\
  directory_gets (trace_of (recognized_dtmf dir c tgt "provide_eid" tones g)) = [] /\
  current_employee (globals_of (recognized_dtmf dir c tgt "provide_eid" tones g))
    = current_employee g.
Proof.
  intros Hd. unfold recognized_dtmf.
  change ("provide_eid" == "provide_eid") with true. cbn [andb].
  set (wrong := negb (Nat.eqb (List.length tones) 6)).
  assert (Hpre : exists g1 t1,
             when wrong (get_media_recognize_speech_or_dtmf_input c SIX_DIGITS_EXPECTED
                           tgt "provide_eid") g = (Val tt, g1, t1) /\
             directory_gets t1 = [] /\ current_employee g1 = current_employee g).
  { destruct wrong; do 2 eexists; (split; [reflexivity | split; reflexivity]). }
  destruct Hpre as (g1 & t1 & Hrun1 & Ht1 & Hg1).
  rewrite (bind_step _ _ g tt g1 t1) by exact Hrun1.
  assert (Hloop : exists g2 t2,
             invalid_tone_loop c tgt tones g1 = (Val tt, g2, t2) /\
             directory_gets t2 = [] /\ current_employee g2 = current_employee g1).
  { rewrite invalid_tone_loop_run.
    destruct (has_invalid_tone tones); do 2 eexists;
      (split; [reflexivity | split; reflexivity]). }
  destruct Hloop as (g2 & t2 & Hrun2 & Ht2 & Hg2).
  rewrite (bind_step _ _ g1 tt g2 t2) by exact Hrun2.
  rewrite (bind_exc _ _ g2 ValueError g2 [])
    by (rewrite num_string_loop_run, Hd; reflexivity).
  unfold prepend, directory_gets in *. cbn [result_of globals_of trace_of fst snd].
  rewrite app_nil_r, omap_app, Ht1, Ht2, Hg2, Hg1. repeat split.
Qed.

(** C10. In the provide-employee-id context a keyed-in capture queries the
    directory once, under the letter e followed by the concatenated digits
    (and not at all if a tone is not a digit, the conversion raising first);
    a spoken id queries it once under the lower-cased text without spaces and
    periods, nothing added; so digits that are keyed in and the same digits
    spoken query two different keys. *)
Theorem lookup_keys_differ_by_modality dir svc c tones text rest g :
  let keyed := callback_events_handler dir svc
                 (event_of c (RecognizeCompleted "provide_eid" (dtmf_result tones)) :: rest) g in
  let spoken := callback_events_handler dir svc
                  (event_of c (RecognizeCompleted "provide_eid" (speech_result text)) :: rest) g in
  directory_gets (trace_of keyed) =
    match keyed_digits tones with
    | Some d => ["e" ++ d]
    | None => []
    end /\
  directory_gets (trace_of spoken) =
    [replace period EmptyString (replace space EmptyString (lower text))] /\
  match keyed_digits tones with
  | Some d =>
      speech_final_id_num d = d /\
      dtmf_final_id_num d = "e" ++ d /\
      speech_final_id_num d <> dtmf_final_id_num d
  | None => True
  end.
Proof.
  intros keyed spoken. subst keyed spoken. unfold event_of.
  rewrite !callback_events_handler_cons, !callback_event_RecognizeCompleted.
  cbn [recognize_completed trace_of snd].
  split; [| split].
  - destruct (keyed_digits tones) as [d |] eqn:Hd.
    + rewrite (recognized_dtmf_provide_eid_digits _ _ _ _ d) by exact Hd.
      cbv zeta. unfold directory_gets.
      destruct (dir !! ("e" ++ d)); cbn [trace_of snd];
        destruct (negb _); reflexivity.
    + apply recognized_dtmf_provide_eid_not_digits, Hd.
  - rewrite recognized_speech_provide_eid. cbv zeta.
    destruct (dir !! speech_final_id_num text); reflexivity.
  - destruct (keyed_digits tones) as [d |] eqn:Hd; [| exact I].
    destruct (keyed_digits_plain tones d Hd) as (Hs & Hp & Hl).
    assert (H1 : speech_final_id_num d = d)
      by (unfold speech_final_id_num; rewrite Hl, Hs, Hp; reflexivity).
    assert (H2 : dtmf_final_id_num d = "e" ++ d)
      by (unfold dtmf_final_id_num; rewrite Hs, Hp; reflexivity).
    split; [exact H1 |]. split; [exact H2 |].
    rewrite H1, H2. intros Heq.
    apply (f_equal String.length) in Heq.
    change ("e" ++ d) with (String "e" d) in Heq.
    cbn [String.length] in Heq. lia.
Qed.

Example six_digits_keyed_and_spoken :
  directory_gets (trace_of (callback_events_handler example_dict example_service
     [event_of "call-1" (RecognizeCompleted "provide_eid"
                           (dtmf_result [SIX; SEVEN; TWO; EIGHT; THREE; FOUR]))]
     example_globals)) = ["e672834"] /\
  directory_gets (trace_of (callback_events_handler example_dict example_service
     [event_of "call-1" (RecognizeCompleted "provide_eid" (speech_result "6 7 2 8 3 4."))]
     example_globals)) = ["672834"].
Proof. split; vm_compute; reflexivity. Qed.

(** ** The call id of an event *)

Lemma sim_refl {A} (m : M A) : sim m m.
Proof. intros g. repeat split. Qed.

Lemma sim_bind {A B} (m1 m2 : M A) (k1 k2 : A -> M B) :
  sim m1 m2 -> (forall a, sim (k1 a) (k2 a)) -> sim (bind m1 k1) (bind m2 k2).
Proof.
  intros Hm Hk g. rewrite !bind_run.
  destruct (Hm g) as (Hr & Hg & Ht).
  destruct (m1 g) as [[r1 g1] t1], (m2 g) as [[r2 g2] t2].
  cbn in Hr, Hg, Ht. subst r2 g2.
  destruct r1 as [a | e].
  - destruct (Hk a g1) as (Hr' & Hg' & Ht').
    repeat split; cbn; [exact Hr' | exact Hg' |].
    rewrite !map_app, Ht, Ht'. reflexivity.
  - repeat split. exact Ht.
Qed.

Lemma sim_when (b : bool) (m1 m2 : M unit) : sim m1 m2 -> sim (when b m1) (when b m2).
Proof. intros H. destruct b; [exact H | apply sim_refl]. Qed.

Lemma sim_choice_options c1 c2 txt tgt cs ctx :
  sim (get_media_recognize_choice_options c1 txt tgt cs ctx)
      (get_media_recognize_choice_options c2 txt tgt cs ctx).
Proof. intros g. repeat split. Qed.

Lemma sim_speech_input c1 c2 txt tgt ctx :
  sim (get_media_recognize_speech_input c1 txt tgt ctx)
      (get_media_recognize_speech_input c2 txt tgt ctx).
Proof. intros g. repeat split. Qed.

Lemma sim_speech_or_dtmf_input c1 c2 txt tgt ctx :
  sim (get_media_recognize_speech_or_dtmf_input c1 txt tgt ctx)
      (get_media_recognize_speech_or_dtmf_input c2 txt tgt ctx).
Proof. intros g. repeat split. Qed.

Lemma sim_handle_play c1 c2 txt ctx :
  sim (handle_play c1 txt ctx) (handle_play c2 txt ctx).
Proof. intros g. repeat split. Qed.

Lemma sim_hang_up c1 c2 : sim (emit (Gateway c1 hang_up)) (emit (Gateway c2 hang_up)).
Proof. intros g. repeat split. Qed.

Lemma sim_invalid_tone_loop c1 c2 tgt tones :
  sim (invalid_tone_loop c1 tgt tones) (invalid_tone_loop c2 tgt tones).
Proof.
  induction tones as [| tone rest IH]; cbn [invalid_tone_loop].
  - apply sim_refl.
  - destruct (_ || _); [apply sim_speech_or_dtmf_input | exact IH].
Qed.

Ltac sim_step :=
  lazymatch goal with
  | |- sim (bind _ _) (bind _ _) => apply sim_bind; [| intros ?]
  | |- sim (when _ _) (when _ _) => apply sim_when
  | |- sim (if ?b then _ else _) (if ?b then _ else _) => destruct b
  | |- sim (match ?x with _ => _ end) (match ?x with _ => _ end) => destruct x
  | |- _ =>
      first [ apply sim_refl | apply sim_choice_options | apply sim_speech_input
            | apply sim_speech_or_dtmf_input | apply sim_handle_play
            | apply sim_hang_up | apply sim_invalid_tone_loop ]
  end.

Lemma sim_callback_event dir svc c1 c2 et :
  sim (callback_event dir svc (mkEvent c1 et)) (callback_event dir svc (mkEvent c2 et)).
Proof.
  unfold callback_event. cbn [event_type callConnectionId]. cbv zeta.
  apply sim_bind; [apply sim_refl | intros g].
  destruct et as [| ctx result | ctx ri | | |].
  - repeat sim_step.
  - apply sim_bind; [apply sim_refl | intros _].
    destruct result; cbn [recognize_completed].
    + unfold recognized_choices. cbv zeta. repeat sim_step.
    + unfold recognized_speech. cbv zeta. repeat sim_step.
    + unfold recognized_dtmf. cbv zeta. repeat sim_step.
    + apply sim_handle_play.
  - unfold recognize_failed. cbv zeta. repeat sim_step.
  - apply sim_hang_up.
  - repeat sim_step.
  - apply sim_refl.
Qed.

(** Two calls are in progress.  An event of call 1 changes the session of
    call 2, and what call 2 then writes into the ticket is the employee call
    1 identified. *)
Lemma other_call_session_changes :
  "call-1" <> "call-2" /\
  session_of (globals_of call_1_says_id) "call-2" <> session_of example_globals "call-2" /\
  session_employee (session_of example_globals "call-2") = None /\
  session_employee (session_of (globals_of call_1_says_id) "call-2") = Some ada /\
  id_num (session_ticket (session_of (globals_of call_2_confirms_name) "call-2")) = "e672834" /\
  ~ sessions_isolated.
Proof.
  assert (Hne : "call-1" <> "call-2") by discriminate.
  assert (Hnone : session_employee (session_of example_globals "call-2") = None)
    by reflexivity.
  assert (Hada : session_employee (session_of (globals_of call_1_says_id) "call-2") = Some ada)
    by (vm_compute; reflexivity).
  assert (Hdiff : session_of (globals_of call_1_says_id) "call-2"
                  <> session_of example_globals "call-2").
  { intros H. apply (f_equal session_employee) in H. rewrite Hada, Hnone in H. discriminate. }
  split; [exact Hne |]. split; [exact Hdiff |]. split; [exact Hnone |].
  split; [exact Hada |]. split; [vm_compute; reflexivity |].
  intros Hiso. apply Hdiff.
  apply (Hiso example_dict example_service "call-1" "call-2"). exact Hne.
Qed.

(** C2 (amended). The handler has one session, the module globals, for all
    call ids: the outcome of an event, the globals it leaves and its
    effects are the same whatever its call id, up to the connection the
    directives are sent through, which is that of the event's call id; and
    every call id sees the globals the event left as its session. *)
Theorem one_session_for_all_calls dir svc c1 c2 et rest g :
  let r1 := callback_events_handler dir svc (mkEvent c1 et :: rest) g in
  let r2 := callback_events_handler dir svc (mkEvent c2 et :: rest) g in
  result_of r1 = result_of r2 /\
  globals_of r1 = globals_of r2 /\
  map unaddressed (trace_of r1) = map unaddressed (trace_of r2) /\
  Forall (addressed_to c1) (trace_of r1) /\
  session_of (globals_of r1) c2 = session_of (globals_of r1) c1 /\
  session_of (globals_of r1) c2 =
    mkSession (current_employee (globals_of r1)) (current_ticket (globals_of r1))
              (new_phone_number (globals_of r1)) (retry_object (globals_of r1)).
Proof.
  intros r1 r2. subst r1 r2.
  assert (Haddr : Forall (addressed_to c1)
            (trace_of (callback_events_handler dir svc (mkEvent c1 et :: rest) g)))
    by (apply callback_events_handler_trace; intros; exact I || reflexivity).
  revert Haddr. rewrite !callback_events_handler_cons.
  destruct (sim_callback_event dir svc c1 c2 et g) as (Hr & Hg & Ht).
  cbn [result_of globals_of trace_of fst snd]. intros Haddr.
  split; [rewrite Hr; reflexivity |].
  split; [exact Hg |]. split; [exact Ht |]. split; [exact Haddr |].
  split; reflexivity.
Qed.

(** ** The model on a whole dialog *)

Example whole_dialog_run :
  fst (fst (serve example_dict whole_dialog example_globals))
    = repeat (Val (Response_status 200)) 14 /\
  map next_context (directives (snd (serve example_dict whole_dialog example_globals)))
    = [ "main_menu"; "ticket"; "provide_eid"; "confirm_name"; "confirm_phone_number";
        "confirm_email_on_file"; "confirm_work_location"; "confirm_contact_method";
        "provide_work_address"; "confirm_urgency"; "capture_issue";
        "confirm_additional_request"; "end_call_log_ticket"; "hang_up" ] /\
  begin_sends (snd (serve example_dict whole_dialog example_globals))
    = [ mkMessage SENDER_ADDRESS [RECIPIENT_ADDRESS] "Help desk ticket"
          (String.concat newline
             [ "Employee #: E672834";
               "Name: Ada Byron";
               "Best method of contact: phone";
               "Phone Number: 5550100";
               "Email: ada.byron@fire.example";
               "Work location: office";
               "Work Address: 1320 north eastern avenue";
               "Urgency tier: high";
               "Description of Issue: My laptop does not start" ]) ].
Proof. repeat split; vm_compute; reflexivity. Qed.

(** The polling loop of [send_email] waits at most eighteen times: a
    service that needs a nineteenth wait is given up on, and that is
    logged while the dialog goes on. *)
Example polling_gives_up :
  result_of (poll_loop 18 0 example_globals) = Val true /\
  result_of (poll_loop 19 0 example_globals) = Val false /\
  let r := callback_events_handler example_dict (mkEmailService false 19 true)
             [event_of "call-1" (RecognizeCompleted "capture_issue" (speech_result "x"))]
             example_globals in
  result_of r = Val (Response_status 200) /\
  last (trace_of r) = Some (Log (EmailException PollingTimedOut)) /\
  map next_context (directives (trace_of r)) = ["confirm_additional_request"].
Proof. repeat split; vm_compute; reflexivity. Qed.

(** A pound tone: the invalid-character re-prompt is issued, then the
    conversion of the tones raises, and no directory lookup takes place. *)
Example pound_tone_raises :
  let r := callback_events_handler example_dict example_service
             [event_of "call-1" (RecognizeCompleted "provide_eid"
                (dtmf_result [SIX; SEVEN; TWO; POUND; THREE; FOUR]))]
             example_globals in
  result_of r = Exc ValueError /\
  trace_of r = [Gateway "call-1" (speech_or_dtmf_request "+15550100" INVALID_CHARACTER
                                    "provide_eid")] /\
  current_employee (globals_of r) = None.
Proof. repeat split; vm_compute; reflexivity. Qed.

(** A failed recognition right after the call connected: the retry object
    has no counter yet. *)
Example first_failure_before_any_answer :
  fst (fst (serve example_dict
     [ (example_service, [event_of "call-1" CallConnected]);
       (example_service, [event_of "call-1" (RecognizeFailed "main_menu" timeout_information)]) ]
     example_globals)) =
  [Val (Response_status 200); Exc AttributeError].
Proof. vm_compute; reflexivity. Qed.

(** ** Ticket notifications *)

Lemma quiet_trace (t : list Effect) : Forall no_message t -> begin_sends t = [].
Proof.
  induction 1 as [| e t He _ IH]; [reflexivity |].
  destruct e; cbn in He |- *; first [contradiction | exact IH].
Qed.

Lemma dispatches_quiet {A} (m : M A) :
  keeps any_globals no_message m -> dispatches_current m.
Proof. intros H g. left. apply quiet_trace, (H g I). Qed.

Lemma begin_sends_app (t1 t2 : list Effect) :
  begin_sends (t1 ++ t2) = (begin_sends t1 ++ begin_sends t2)%list.
Proof. apply omap_app. Qed.

Lemma dispatches_bind {A B} (m : M A) (k : A -> M B) :
  keeps any_globals no_message m ->
  (forall a, dispatches_current (k a)) ->
  dispatches_current (bind m k).
Proof.
  intros Hm Hk g. rewrite bind_run.
  pose proof (quiet_trace _ (proj2 (Hm g I))) as Hq.
  destruct (m g) as [[[a | e] g1] t1]; cbn [result_of globals_of trace_of fst snd] in *.
  - specialize (Hk a g1).
    destruct (k a g1) as [[r g2] t2]; cbn [globals_of trace_of fst snd] in *.
    rewrite begin_sends_app, Hq. exact Hk.
  - left. exact Hq.
Qed.

Lemma dispatches_then_ret {A B} (m : M A) (b : B) :
  dispatches_current m -> dispatches_current (m ;; ret b).
Proof.
  intros Hm g. rewrite bind_run. specialize (Hm g).
  destruct (m g) as [[[a | e] g1] t1]; cbn [result_of globals_of trace_of fst snd ret] in *;
    rewrite ?app_nil_r; exact Hm.
Qed.

(** [send_email(current_ticket)], followed or not by a statement that raises. *)
Lemma dispatches_send_email svc :
  dispatches_current (g <- get_globals ;; send_email svc (Some (current_ticket g))).
Proof.
  intros g. right.
  rewrite (bind_step _ _ g g g []) by reflexivity. rewrite prepend_nil.
  destruct (send_email_run svc (current_ticket g) g) as (logs & _ & H). rewrite H.
  cbn [trace_of globals_of fst snd]. unfold begin_sends at 1. cbn [omap list_omap message_of].
  fold (begin_sends (map Log logs)). rewrite begin_sends_logs. reflexivity.
Qed.

Lemma dispatches_send_email_raise svc (e : Exn) :
  dispatches_current
    (g <- get_globals ;; send_email svc (Some (current_ticket g)) ;; @raise unit e).
Proof.
  intros g. right.
  rewrite (bind_step _ _ g g g []) by reflexivity. rewrite prepend_nil.
  destruct (send_email_run svc (current_ticket g) g) as (logs & _ & H).
  rewrite (bind_step _ _ g tt _ _ H).
  cbn [prepend raise trace_of globals_of fst snd]. rewrite app_nil_r.
  unfold begin_sends at 1. cbn [omap list_omap message_of].
  fold (begin_sends (map Log logs)). rewrite begin_sends_logs. reflexivity.
Qed.

Ltac quiet := solve [repeat first [ apply keeps_any_update; reflexivity | keeps_step ]].

Lemma dispatches_recognized_choices svc c tgt ctx lbl :
  dispatches_current (recognized_choices svc c tgt ctx lbl).
Proof.
  unfold recognized_choices. cbv zeta.
  do 11 (apply dispatches_bind; [quiet | intros _]).
  destruct (ctx == "confirm_additional_request"); cbn [when];
    [| apply dispatches_quiet; quiet].
  destruct (lbl == "Yes");
    [apply dispatches_send_email_raise | apply dispatches_quiet; quiet].
Qed.

Lemma dispatches_recognized_speech dir svc c tgt ctx text :
  dispatches_current (recognized_speech dir svc c tgt ctx text).
Proof.
  unfold recognized_speech. cbv zeta.
  apply dispatches_bind; [quiet | intros text'].
  do 3 (apply dispatches_bind; [quiet | intros _]).
  destruct (ctx == "capture_issue"); cbn [when]; [| apply dispatches_quiet; quiet].
  do 2 (apply dispatches_bind; [quiet | intros _]).
  apply dispatches_send_email.
Qed.

Lemma dispatches_callback_event dir svc event :
  dispatches_current (callback_event dir svc event).
Proof.
  unfold callback_event. cbv zeta.
  apply dispatches_bind; [quiet | intros g0].
  destruct (event_type event) as [| ctx result | ctx ri | | |].
  - apply dispatches_quiet; quiet.
  - apply dispatches_bind; [quiet | intros _].
    destruct result; cbn [recognize_completed].
    + apply dispatches_recognized_choices.
    + apply dispatches_recognized_speech.
    + apply dispatches_quiet. unfold recognized_dtmf. cbv zeta. quiet.
    + apply dispatches_quiet; quiet.
  - apply dispatches_quiet. unfold recognize_failed. cbv zeta. quiet.
  - apply dispatches_quiet, keeps_emit. exact I.
  - apply dispatches_quiet.
    apply keeps_bind; [quiet | intros _]. apply keeps_emit. exact I.
  - apply dispatches_quiet; quiet.
Qed.

Lemma dispatches_callback_events_handler dir svc request :
  dispatches_current (callback_events_handler dir svc request).
Proof.
  destruct request as [| event rest]; cbn [callback_events_handler].
  - apply dispatches_quiet; quiet.
  - apply dispatches_then_ret, dispatches_callback_event.
Qed.

(** *** Splitting a body into its lines *)

Lemma lines_not_nil (s : string) : lines s <> [].
Proof.
  induction s as [| c s IH]; [discriminate |].
  cbn [lines]. destruct (Ascii.eqb c newline_char); [discriminate |].
  destruct (lines s); discriminate.
Qed.

Lemma lines_app (l s : string) :
  one_line l = true ->
  lines (l ++ s) =
  match lines s with
  | h :: tl => (l ++ h) :: tl
  | [] => [l]
  end.
Proof.
  induction l as [| c l IH]; intros Hl.
  - change (EmptyString ++ s) with s.
    destruct (lines s) as [| h tl] eqn:E; [destruct (lines_not_nil s E) | reflexivity].
  - unfold one_line in Hl. cbn [list_ascii_of_string forallb] in Hl.
    apply andb_true_iff in Hl. destruct Hl as [Hc Hl].
    change (String c l ++ s) with (String c (l ++ s)).
    cbn [lines]. apply negb_true_iff in Hc. rewrite Hc.
    rewrite (IH Hl). destruct (lines s) as [| h tl]; reflexivity.
Qed.

Lemma lines_one_line (l : string) : one_line l = true -> lines l = [l].
Proof.
  intros Hl. rewrite <- (append_nil_r l) at 1. rewrite (lines_app _ _ Hl).
  cbn [lines]. rewrite append_nil_r. reflexivity.
Qed.

Lemma lines_concat (l : string) (ls : list string) :
  forallb one_line (l :: ls) = true ->
  lines (String.concat newline (l :: ls)) = l :: ls.
Proof.
  revert l. induction ls as [| l' ls IH]; intros l Hl.
  - cbn [forallb] in Hl. rewrite andb_true_r in Hl. apply lines_one_line, Hl.
  - cbn [forallb] in Hl. apply andb_true_iff in Hl. destruct Hl as [Hl Hls].
    change (String.concat newline (l :: l' :: ls))
      with (l ++ newline ++ String.concat newline (l' :: ls)).
    rewrite (lines_app _ _ Hl).
    change (newline ++ String.concat newline (l' :: ls))
      with (String newline_char (String.concat newline (l' :: ls))).
    cbn [lines]. rewrite Ascii.eqb_refl. rewrite append_nil_r, (IH l' Hls). reflexivity.
Qed.

Lemma one_line_app (a b : string) : one_line (a ++ b) = one_line a && one_line b.
Proof.
  induction a as [| c a IH]; [reflexivity |].
  change (String c a ++ b) with (String c (a ++ b)).
  unfold one_line in *. cbn [list_ascii_of_string forallb]. rewrite IH, andb_assoc.
  reflexivity.
Qed.

Lemma lower_char_newline (c : ascii) :
  Ascii.eqb (lower_char c) newline_char = Ascii.eqb c newline_char.
Proof. destruct c as [[] [] [] [] [] [] [] []]; vm_compute; reflexivity. Qed.

Lemma upper_char_newline (c : ascii) :
  Ascii.eqb (upper_char c) newline_char = Ascii.eqb c newline_char.
Proof. destruct c as [[] [] [] [] [] [] [] []]; vm_compute; reflexivity. Qed.

Lemma one_line_lower (s : string) : one_line (lower s) = one_line s.
Proof.
  induction s as [| c s IH]; [reflexivity |].
  unfold one_line in *. cbn [lower list_ascii_of_string forallb].
  rewrite lower_char_newline, IH. reflexivity.
Qed.

Lemma one_line_upper (s : string) : one_line (upper s) = one_line s.
Proof.
  induction s as [| c s IH]; [reflexivity |].
  unfold one_line in *. cbn [upper list_ascii_of_string forallb].
  rewrite upper_char_newline, IH. reflexivity.
Qed.

Lemma one_line_Ticket_lines (t : Ticket) :
  forallb one_line (ticket_fields t) = true ->
  forallb one_line (Ticket_lines t) = true.
Proof.
  unfold ticket_fields, Ticket_lines. cbn [forallb].
  rewrite !one_line_app, !one_line_lower, !one_line_upper.
  intros H. repeat (apply andb_true_iff in H; destruct H as [?H H]).
  repeat (apply andb_true_iff; split); first [assumption | reflexivity].
Qed.

(** C8. Every message the view hands to the e-mail service, for any posted
    events, any globals and any behaviour of the service, is the only one
    of its request, goes to the single fixed recipient, and has as
    plain-text body the rendering of the global ticket as it stands when
    the message is handed over (nothing changes the ticket afterwards): its
    nine labelled fields id, name, contact method, phone, email, work mode,
    work address, urgency, description, joined by line breaks in this
    order.  If the field values are ASCII text without a line break, the
    body has exactly these nine lines, one field per line. *)
Theorem ticket_notification_format dir svc request g m :
  let r := callback_events_handler dir svc request g in
  let t := current_ticket (globals_of r) in
  In m (begin_sends (trace_of r)) ->
  begin_sends (trace_of r) = [m] /\
  m = ticket_message t /\
  recipients_to m = [RECIPIENT_ADDRESS] /\
  plainText m = String.concat newline (Ticket_lines t) /\
  (forallb ascii_text (ticket_fields t) = true ->
   forallb one_line (ticket_fields t) = true ->
   lines (plainText m) =
     [ "Employee #: " ++ upper (id_num t);
       "Name: " ++ name t;
       "Best method of contact: " ++ lower (contact_method t);
       "Phone Number: " ++ format_value (phone_number t);
       "Email: " ++ lower (email t);
       "Work location: " ++ lower (work_mode t);
       "Work Address: " ++ lower (work_address t);
       "Urgency tier: " ++ lower (urgency t);
       "Description of Issue: " ++ issue_description t ]).
Proof.
  intros r t Hin.
  destruct (dispatches_callback_events_handler dir svc request g) as [H | H];
    fold r in H; rewrite H in Hin.
  - destruct Hin.
  - fold t in H. destruct Hin as [Hm | []]. subst m.
    split; [exact H |]. split; [reflexivity |]. split; [reflexivity |].
    split; [apply Ticket_str_lines |].
    intros _ Hlines. cbn [plainText ticket_message]. rewrite Ticket_str_lines.
    apply (lines_concat _ _ (one_line_Ticket_lines t Hlines)).
Qed.

Lemma ticket_notification_format_witness :
  let r := callback_events_handler example_dict example_service
             [event_of "call-1" (RecognizeCompleted "capture_issue"
                                   (speech_result "My laptop does not start"))]
             before_capture_issue in
  let m := ticket_message (current_ticket (globals_of r)) in
  In m (begin_sends (trace_of r)) /\
  forallb ascii_text (ticket_fields (current_ticket (globals_of r))) = true /\
  forallb one_line (ticket_fields (current_ticket (globals_of r))) = true /\
  lines (plainText m) =
    [ "Employee #: E672834";
      "Name: Ada Byron";
      "Best method of contact: phone";
      "Phone Number: 5550100";
      "Email: ada.byron@fire.example";
      "Work location: office";
      "Work Address: 1320 north eastern avenue";
      "Urgency tier: high";
      "Description of Issue: My laptop does not start" ].
Proof.
  intros r m.
  assert (Hin : In m (begin_sends (trace_of r))) by (left; vm_compute; reflexivity).
  assert (Ha : forallb ascii_text (ticket_fields (current_ticket (globals_of r))) = true)
    by (vm_compute; reflexivity).
  assert (Hl : forallb one_line (ticket_fields (current_ticket (globals_of r))) = true)
    by (vm_compute; reflexivity).
  split; [exact Hin |]. split; [exact Ha |]. split; [exact Hl |].
  pose proof (ticket_notification_format example_dict example_service _ before_capture_issue
                m Hin) as H.
  destruct H as (_ & _ & _ & _ & H).
  rewrite (H Ha Hl). vm_compute. reflexivity.
Defined.

(** A description dictated in two lines: the fields are ASCII text, the
    message goes to the fixed recipient, but its body has ten lines, the
    last of which belongs to no field of its own. *)
Lemma description_with_line_break_spans_two_lines :
  let r := callback_events_handler example_dict example_service
             [event_of "call-1" (RecognizeCompleted "capture_issue"
                                   (speech_result two_line_issue))]
             before_capture_issue in
  exists m,
    begin_sends (trace_of r) = [m] /\
    recipients_to m = [RECIPIENT_ADDRESS] /\
    forallb ascii_text (ticket_fields (current_ticket (globals_of r))) = true /\
    lines (plainText m) =
      [ "Employee #: E672834";
        "Name: Ada Byron";
        "Best method of contact: phone";
        "Phone Number: 5550100";
        "Email: ada.byron@fire.example";
        "Work location: office";
        "Work Address: 1320 north eastern avenue";
        "Urgency tier: high";
        "Description of Issue: The screen stays dark";
        "and the fan is loud" ].
Proof.
  eexists. split; [vm_compute; reflexivity |]. repeat split; vm_compute; reflexivity.
Qed.

(** * Further properties of the module *)

(** ** Loading the directory *)

Lemma load_employees_snoc rows row :
  load_employees (rows ++ [row]) = <[ ID row := employee_of_row row ]> (load_employees rows).
Proof. unfold load_employees. rewrite fold_left_app. reflexivity. Qed.

Lemma load_employees_lookup (rows : list Row) (k : string) :
  load_employees rows !! k
  = employee_of_row <$> last (filter (fun row => ID row = k) rows).
Proof.
  induction rows as [| row rows IH] using rev_ind.
  - reflexivity.
  - rewrite load_employees_snoc, filter_app.
    destruct (decide (ID row = k)) as [Heq | Hne].
    + rewrite filter_cons_True by exact Heq.
      rewrite filter_nil, last_snoc. cbn [fmap option_fmap option_map].
      subst k. apply lookup_insert_eq.
    + rewrite filter_cons_False by exact Hne.
      rewrite filter_nil, app_nil_r, lookup_insert_ne by exact Hne.
      exact IH.
Qed.

Lemma load_employees_key rows k e :
  load_employees rows !! k = Some e -> employee_id e = k.
Proof.
  rewrite load_employees_lookup.
  destruct (last (filter (fun row => ID row = k) rows)) as [row |] eqn:Hlast;
    [| discriminate].
  cbn. intros H. inversion H; subst e. cbn [employee_of_row employee_id].
  apply last_Some_elem_of in Hlast.
  apply list_elem_of_filter in Hlast. exact (proj1 Hlast).
Qed.

Lemma load_employees_missing rows k :
  load_employees rows !! k = None -> Forall (fun row => ID row <> k) rows.
Proof.
  rewrite load_employees_lookup.
  destruct (last (filter (fun row => ID row = k) rows)) as [row |] eqn:Hlast;
    [discriminate |].
  intros _. apply last_None in Hlast.
  apply Forall_forall. intros row Hin Heq.
  assert (Hel : row ∈ filter (fun row => ID row = k) rows)
    by (apply list_elem_of_filter; split; [exact Heq | exact Hin]).
  rewrite Hlast in Hel. inversion Hel.
Qed.

(** X1. After the loading loop the directory maps an id to the employee of
    the last row of the file that carries this id (a later row replaces an
    earlier one); the employee found under an id carries that id, and an id
    is missing only if no row carries it. *)
Theorem load_employees_last_row_wins (rows : list Row) (k : string) :
  load_employees rows !! k
    = employee_of_row <$> last (filter (fun row => ID row = k) rows) /\
  match load_employees rows !! k with
  | Some e => employee_id e = k
  | None => Forall (fun row => ID row <> k) rows
  end.
Proof.
  split; [apply load_employees_lookup |].
  destruct (load_employees rows !! k) as [e |] eqn:H.
  - exact (load_employees_key rows k e H).
  - exact (load_employees_missing rows k H).
Qed.

(** Decide the comparisons of the goal whose two sides are literals. *)
Ltac decide_literals :=
  repeat match goal with
         | |- context [String.eqb ?a ?b] =>
             let v := eval vm_compute in (String.eqb a b) in
             lazymatch v with
             | true => change (String.eqb a b) with true
             | false => change (String.eqb a b) with false
             end
         end.

(** ** From the directory to the ticket *)

Lemma recognized_choices_confirm_name svc c tgt e g :
  current_employee g = Some e ->
  recognized_choices svc c tgt "confirm_name" "Confirm" g =
  let g1 := with_ticket
              (set_name (display_name e) (set_id_num (employee_id e) (current_ticket g))) g in
  if negb (telephone_number e == EmptyString)
  then get_media_recognize_choice_options c PHONE_ON_FILE tgt get_confirm_choices
         "confirm_phone_number" g1
  else get_media_recognize_speech_or_dtmf_input c NO_PHONE_ON_FILE tgt
         "provide_new_phone_number" g1.
Proof.
  intros H. destruct g as [ce np tk ro target]. cbn in H. subst ce.
  unfold recognized_choices. decide_literals. cbn [when].
  destruct (telephone_number e == EmptyString) eqn:E;
    lazy - [String.eqb telephone_number]; rewrite ?E; reflexivity.
Qed.

(** X2. With a directory loaded from the employee file, a caller who says
    an id that some row carries and then confirms the name gets a ticket
    whose id is the key that was looked up and whose name is the display
    name of the last row with that id; the dialog goes on to confirm the
    phone on file, or to ask for a phone number if that row has none. *)
Theorem spoken_id_reaches_ticket rows row svc1 svc2 c text phrase rest1 rest2 g :
  last (filter (fun r => ID r = speech_final_id_num text) rows) = Some row ->
  let dir := load_employees rows in
  let r1 := callback_events_handler dir svc1
              (event_of c (RecognizeCompleted "provide_eid" (speech_result text)) :: rest1) g in
  let r2 := callback_events_handler dir svc2
              (event_of c (RecognizeCompleted "confirm_name" (choices_result "Confirm" phrase))
               :: rest2) (globals_of r1) in
  result_of r2 = Val (Response_status 200) /\
  id_num (current_ticket (globals_of r2)) = speech_final_id_num text /\
  name (current_ticket (globals_of r2)) = DisplayName row /\
  map next_context (directives (trace_of r2))
    = [if TelephoneNumber row == EmptyString
       then "provide_new_phone_number" else "confirm_phone_number"].
Proof.
  intros Hlast dir r1 r2.
  assert (Hfound : dir !! speech_final_id_num text = Some (employee_of_row row))
    by (subst dir; rewrite load_employees_lookup, Hlast; reflexivity).
  assert (Hid : ID row = speech_final_id_num text)
    by (apply (load_employees_key rows _ (employee_of_row row)), Hfound).
  subst r2 r1. unfold event_of.
  rewrite !callback_events_handler_cons, !callback_event_RecognizeCompleted.
  cbn [recognize_completed].
  rewrite recognized_speech_provide_eid. cbv zeta. rewrite Hfound.
  cbn [globals_of fst snd].
  rewrite (recognized_choices_confirm_name _ _ _ (employee_of_row row)) by reflexivity.
  cbv zeta. cbn [employee_of_row telephone_number display_name employee_id].
  rewrite <- Hid.
  destruct (TelephoneNumber row == EmptyString); repeat split.
Qed.

Lemma spoken_id_reaches_ticket_witness :
  last (filter (fun r => ID r = speech_final_id_num "E 672834.") example_rows)
    = Some (mkRow "e672834" "Ada" "King" "Ada King" "5550199" "ada.king@fire.example") /\
  name (current_ticket (globals_of
    (callback_events_handler (load_employees example_rows) example_service
       [event_of "call-1" (RecognizeCompleted "confirm_name" (choices_result "Confirm" None))]
       (globals_of
          (callback_events_handler (load_employees example_rows) example_service
             [event_of "call-1" (RecognizeCompleted "provide_eid" (speech_result "E 672834."))]
             example_globals))))) = "Ada King".
Proof.
  assert (H : last (filter (fun r => ID r = speech_final_id_num "E 672834.") example_rows)
              = Some (mkRow "e672834" "Ada" "King" "Ada King" "5550199"
                            "ada.king@fire.example"))
    by (vm_compute; reflexivity).
  split; [exact H |].
  exact (proj1 (proj2 (proj2
    (spoken_id_reaches_ticket example_rows _ example_service example_service "call-1"
       "E 672834." None [] [] example_globals H)))).
Defined.

(** ** The normal form of a spoken id *)

Lemma replace_empty_cons (old ch : ascii) (s : string) :
  replace old EmptyString (String ch s) =
  if Ascii.eqb ch old then replace old EmptyString s
  else String ch (replace old EmptyString s).
Proof. cbn [replace]. destruct (Ascii.eqb ch old); reflexivity. Qed.

Lemma replace_empty_chars (old : ascii) (s : string) (x : ascii) :
  In x (list_ascii_of_string (replace old EmptyString s)) ->
  In x (list_ascii_of_string s) /\ x <> old.
Proof.
  induction s as [| ch s IH]; [intros [] |].
  rewrite replace_empty_cons.
  destruct (Ascii.eqb ch old) eqn:E.
  - intros H. destruct (IH H) as [H1 H2]. split; [right; exact H1 | exact H2].
  - intros [H | H].
    + subst x. split; [left; reflexivity |].
      intros Heq. subst ch. rewrite Ascii.eqb_refl in E. discriminate.
    + destruct (IH H) as [H1 H2]. split; [right; exact H1 | exact H2].
Qed.

Lemma replace_empty_absent (old : ascii) (s : string) :
  ~ In old (list_ascii_of_string s) -> replace old EmptyString s = s.
Proof.
  induction s as [| ch s IH]; [reflexivity |].
  intros H. rewrite replace_empty_cons.
  destruct (Ascii.eqb ch old) eqn:E.
  - apply Ascii.eqb_eq in E. subst ch. exfalso. apply H. left; reflexivity.
  - rewrite IH; [reflexivity |]. intros Hin. apply H. right; exact Hin.
Qed.

Lemma lower_char_not_upper (ch : ascii) : is_ascii_upper (lower_char ch) = false.
Proof. destruct ch as [[] [] [] [] [] [] [] []]; vm_compute; reflexivity. Qed.

Lemma lower_chars (s : string) :
  Forall (fun ch => is_ascii_upper ch = false) (list_ascii_of_string (lower s)).
Proof.
  induction s as [| ch s IH]; [constructor |].
  cbn [lower list_ascii_of_string]. constructor; [apply lower_char_not_upper | exact IH].
Qed.

Lemma lower_without_upper (s : string) :
  Forall (fun ch => is_ascii_upper ch = false) (list_ascii_of_string s) -> lower s = s.
Proof.
  induction s as [| ch s IH]; [reflexivity |].
  cbn [lower list_ascii_of_string]. intros H. inversion H as [| ? ? Hch Hs]; subst.
  rewrite IH by exact Hs. unfold lower_char. rewrite Hch. reflexivity.
Qed.

Lemma lower_char_ascii (ch : ascii) : is_ascii ch = true -> is_ascii (lower_char ch) = true.
Proof. destruct ch as [[] [] [] [] [] [] [] []]; vm_compute; intros H; exact H || reflexivity. Qed.

Lemma ascii_text_lower (s : string) : ascii_text s = true -> ascii_text (lower s) = true.
Proof.
  induction s as [| ch s IH]; [reflexivity |].
  unfold ascii_text in *. cbn [lower list_ascii_of_string forallb].
  intros H. apply andb_true_iff in H. destruct H as [Hch Hs].
  rewrite (lower_char_ascii ch Hch), (IH Hs). reflexivity.
Qed.

Lemma ascii_text_replace_empty (old : ascii) (s : string) :
  ascii_text s = true -> ascii_text (replace old EmptyString s) = true.
Proof.
  induction s as [| ch s IH]; [reflexivity |].
  rewrite replace_empty_cons. unfold ascii_text in *.
  cbn [list_ascii_of_string forallb].
  intros H. apply andb_true_iff in H. destruct H as [Hch Hs].
  destruct (Ascii.eqb ch old); [exact (IH Hs) |].
  cbn [list_ascii_of_string forallb]. rewrite Hch, (IH Hs). reflexivity.
Qed.

Lemma speech_final_id_num_chars (text : string) (ch : ascii) :
  In ch (list_ascii_of_string (speech_final_id_num text)) -> not_in_spoken_key ch = false.
Proof.
  unfold speech_final_id_num. cbv zeta. intros H.
  apply replace_empty_chars in H. destruct H as [H Hperiod].
  apply replace_empty_chars in H. destruct H as [H Hspace].
  pose proof (lower_chars text) as Hl. rewrite Forall_forall in Hl.
  specialize (Hl ch (proj2 (list_elem_of_In _ _) H)). cbv beta in Hl.
  unfold not_in_spoken_key. rewrite Hl.
  destruct (Ascii.eqb_spec ch space) as [-> |]; [destruct Hspace; reflexivity |].
  destruct (Ascii.eqb_spec ch period) as [-> |]; [destruct Hperiod; reflexivity |].
  reflexivity.
Qed.

Lemma speech_final_id_num_idempotent (text : string) :
  speech_final_id_num (speech_final_id_num text) = speech_final_id_num text.
Proof.
  set (k := speech_final_id_num text).
  assert (Hk : forall ch, In ch (list_ascii_of_string k) -> not_in_spoken_key ch = false)
    by apply speech_final_id_num_chars.
  clearbody k. unfold speech_final_id_num. cbv zeta.
  assert (Hupper : Forall (fun ch => is_ascii_upper ch = false) (list_ascii_of_string k)).
  { apply Forall_forall. intros ch Hin. apply list_elem_of_In in Hin.
    specialize (Hk ch Hin). unfold not_in_spoken_key in Hk.
    apply orb_false_iff in Hk. exact (proj2 Hk). }
  assert (Hspace : ~ In space (list_ascii_of_string k)).
  { intros Hin. specialize (Hk _ Hin). vm_compute in Hk. discriminate. }
  assert (Hperiod : ~ In period (list_ascii_of_string k)).
  { intros Hin. specialize (Hk _ Hin). vm_compute in Hk. discriminate. }
  rewrite (lower_without_upper k Hupper).
  rewrite (replace_empty_absent space k Hspace).
  apply (replace_empty_absent period k Hperiod).
Qed.

(** X3. When the caller says an employee id in ASCII text, the view looks
    the directory up exactly once, under a key that is ASCII text, holds no
    space, no period and no upper-case letter, and is its own normal form;
    so an employee filed under an id with such a character (an upper-case
    E, say) is never looked up, hence never found, by voice. *)
Theorem spoken_id_lookup_is_normalised dir svc c text rest g :
  ascii_text text = true ->
  let r := callback_events_handler dir svc
             (event_of c (RecognizeCompleted "provide_eid" (speech_result text)) :: rest) g in
  exists key,
    directory_gets (trace_of r) = [key] /\
    ascii_text key = true /\
    (forall ch, In ch (list_ascii_of_string key) -> not_in_spoken_key ch = false) /\
    speech_final_id_num key = key /\
    (forall k ch, In ch (list_ascii_of_string k) -> not_in_spoken_key ch = true ->
                  ~ In k (directory_gets (trace_of r))) /\
    current_employee (globals_of r)
      = match dir !! key with
        | Some e => Some e
        | None => current_employee g
        end.
Proof.
  intros Htext r. exists (speech_final_id_num text).
  assert (Hr : directory_gets (trace_of r) = [speech_final_id_num text] /\
               current_employee (globals_of r)
                 = match dir !! speech_final_id_num text with
                   | Some e => Some e
                   | None => current_employee g
                   end).
  { subst r. unfold event_of.
    rewrite callback_events_handler_cons, callback_event_RecognizeCompleted.
    cbn [recognize_completed trace_of globals_of fst snd].
    rewrite recognized_speech_provide_eid. cbv zeta.
    destruct (dir !! speech_final_id_num text); split; reflexivity. }
  destruct Hr as [Hgets Hemp].
  split; [exact Hgets |].
  split.
  { unfold speech_final_id_num. cbv zeta.
    apply ascii_text_replace_empty, ascii_text_replace_empty, ascii_text_lower, Htext. }
  split; [apply speech_final_id_num_chars |].
  split; [apply speech_final_id_num_idempotent |].
  split; [| exact Hemp].
  intros k ch Hch Hbad Hin. rewrite Hgets in Hin. destruct Hin as [Hk | []]. subst k.
  rewrite (speech_final_id_num_chars text ch Hch) in Hbad. discriminate.
Qed.

Lemma spoken_id_lookup_witness :
  ascii_text "E 6 7 2 8 3 4." = true /\
  directory_gets
    (trace_of (callback_events_handler (load_employees example_rows) example_service
                 [event_of "call-1" (RecognizeCompleted "provide_eid"
                                       (speech_result "E 6 7 2 8 3 4."))]
                 example_globals)) = ["e672834"] /\
  ~ In "E672834"
      (directory_gets
         (trace_of (callback_events_handler (load_employees example_rows) example_service
                      [event_of "call-1" (RecognizeCompleted "provide_eid"
                                            (speech_result "E 6 7 2 8 3 4."))]
                      example_globals))).
Proof.
  assert (Ha : ascii_text "E 6 7 2 8 3 4." = true) by reflexivity.
  split; [exact Ha |].
  destruct (spoken_id_lookup_is_normalised (load_employees example_rows) example_service
              "call-1" "E 6 7 2 8 3 4." [] example_globals Ha)
    as (key & Hgets & _ & _ & _ & Hnever & _).
  split.
  - rewrite Hgets. f_equal.
    assert (H : directory_gets
                  (trace_of (callback_events_handler (load_employees example_rows)
                               example_service
                               [event_of "call-1" (RecognizeCompleted "provide_eid"
                                                     (speech_result "E 6 7 2 8 3 4."))]
                               example_globals)) = ["e672834"])
      by (vm_compute; reflexivity).
    rewrite Hgets in H. injection H as H. exact H.
  - apply (Hnever "E672834" "E"%char); [left; reflexivity | reflexivity].
Defined.

(** ** The bounded wait of [send_email] *)

Lemma poll_loop_from (waits : nat) :
  forall (j : nat) g,
    (j <= 18)%nat ->
    poll_loop waits (POLLER_WAIT_TIME * Z.of_nat j) g =
    (Val (waits + j <=? 18)%nat, g,
     repeat (Log EmailPollerStatus) (Nat.min waits (19 - j))).
Proof.
  induction waits as [| w IH]; intros j g Hj.
  - cbn [poll_loop Nat.add Nat.min repeat].
    destruct (Nat.leb_spec j 18) as [_ | H]; [reflexivity | lia].
  - cbn [poll_loop].
    rewrite (bind_val _ _ g tt g [Log EmailPollerStatus]) by reflexivity.
    cbv beta zeta. unfold POLLER_WAIT_TIME in *.
    destruct (5 * Z.of_nat j + 5 >? 18 * 5) eqn:E.
    + assert (j = 18%nat) by lia. subst j.
      destruct (Nat.leb_spec (S w + 18) 18) as [H | _]; [lia |].
      replace (Nat.min (S w) (19 - 18)) with 1%nat by lia. reflexivity.
    + assert (Hj' : (S j <= 18)%nat) by lia.
      replace (5 * Z.of_nat j + 5) with (5 * Z.of_nat (S j)) by lia.
      rewrite (IH (S j) g Hj').
      cbn [result_of globals_of trace_of fst snd app].
      replace (w + S j)%nat with (S w + j)%nat by lia.
      replace (Nat.min (S w) (19 - j)) with (S (Nat.min w (19 - S j))) by lia.
      reflexivity.
Qed.

(** X4. The polling loop of [send_email] is bounded: it ends with the
    poller done exactly when the service needs at most 18 waits, it never
    waits more than 19 times, it logs one status line per wait, and it
    leaves the globals alone. *)
Theorem poll_loop_bounded (waits : nat) (g : Globals) :
  poll_loop waits 0 g =
    (Val (waits <=? 18)%nat, g, repeat (Log EmailPollerStatus) (Nat.min waits 19)) /\
  (List.length (trace_of (poll_loop waits 0 g)) <= 19)%nat.
Proof.
  assert (H : poll_loop waits 0 g =
              (Val (waits <=? 18)%nat, g, repeat (Log EmailPollerStatus) (Nat.min waits 19))).
  { pose proof (poll_loop_from waits 0 g ltac:(lia)) as H.
    replace (waits + 0)%nat with waits in H by lia. exact H. }
  split; [exact H |].
  rewrite H. cbn [trace_of snd]. rewrite repeat_length. lia.
Qed.

Lemma send_email_trace svc ticket g :
  send_email svc ticket g =
  (Val tt, with_retry (reset (retry_object g)) g,
   BeginSend (ticket_message (ticket_sent ticket g))
   :: ((if begin_send_raises svc then []
        else repeat (Log EmailPollerStatus) (Nat.min (waits_until_done svc) 19))
       ++ [Log (final_log svc)])%list).
Proof.
  unfold send_email, final_log.
  rewrite (bind_val _ _ g g g []) by reflexivity.
  rewrite (bind_val _ _ g tt (with_retry (reset (retry_object g)) g) []) by reflexivity.
  set (g1 := with_retry (reset (retry_object g)) g).
  rewrite (bind_val _ _ g1 tt g1 [BeginSend (ticket_message (ticket_sent ticket g))])
    by reflexivity.
  cbn [result_of globals_of trace_of fst snd app].
  destruct (begin_send_raises svc); [reflexivity |].
  pose proof (poll_loop_from (waits_until_done svc) 0 g1 ltac:(lia)) as Hpoll.
  replace (waits_until_done svc + 0)%nat with (waits_until_done svc) in Hpoll by lia.
  rewrite (bind_val _ _ g1 _ g1 _ Hpoll).
  destruct (waits_until_done svc <=? 18)%nat; cbn [negb];
    [destruct (status_succeeded svc) |]; reflexivity.
Qed.

Lemma omap_repeat_log {B} (f : Effect -> option B) (l : LogEntry) (n : nat) :
  f (Log l) = None -> omap f (repeat (Log l) n) = [].
Proof. intros H. induction n as [| n IH]; cbn; [reflexivity | rewrite H; exact IH]. Qed.

(** X5. [send_email] never raises, whatever the e-mail service does: it
    hands exactly one message to the service, built from the ticket given
    (or the global ticket if none is given), issues no telephony directive,
    changes nothing in the globals but the retry object, which it resets,
    and its last log line tells a success exactly when the send went through
    within the bound. *)
Theorem send_email_never_raises svc ticket g :
  let r := send_email svc ticket g in
  result_of r = Val tt /\
  globals_of r = with_retry (mkRetry (Some EmptyString) (Some []) (Some EmptyString) (Some 0)) g /\
  begin_sends (trace_of r) = [ticket_message (ticket_sent ticket g)] /\
  directives (trace_of r) = [] /\
  last (trace_of r) = Some (Log (final_log svc)) /\
  (final_log svc = EmailSucceeded <->
   begin_send_raises svc = false /\ (waits_until_done svc <= 18)%nat /\
   status_succeeded svc = true).
Proof.
  intros r. subst r. rewrite send_email_trace.
  cbn [result_of globals_of trace_of fst snd].
  split; [reflexivity |]. split; [reflexivity |].
  split; [| split; [| split]].
  - unfold begin_sends.
    change (BeginSend ?m :: ?l) with ([BeginSend m] ++ l)%list.
    rewrite !omap_app.
    destruct (begin_send_raises svc); [reflexivity |].
    rewrite omap_repeat_log by reflexivity. reflexivity.
  - unfold directives.
    change (BeginSend ?m :: ?l) with ([BeginSend m] ++ l)%list.
    rewrite !omap_app.
    destruct (begin_send_raises svc); [reflexivity |].
    rewrite omap_repeat_log by reflexivity. reflexivity.
  - rewrite app_comm_cons. apply last_snoc.
  - unfold final_log.
    destruct (begin_send_raises svc); [split; [discriminate | intros [H _]; discriminate] |].
    destruct (Nat.leb_spec (waits_until_done svc) 18) as [Hle | Hgt].
    + destruct (status_succeeded svc).
      * split; [intros _; repeat split; exact Hle | reflexivity].
      * split; [discriminate | intros (_ & _ & H); discriminate].
    + split; [discriminate | intros (_ & H & _); lia].
Qed.

(** ** Failed recognitions, in full *)

Lemma recognize_failed_run c tgt ctx ri g n m cs rc :
  counter (retry_object g) = Some n ->
  mode (retry_object g) = Some m ->
  choices (retry_object g) = Some cs ->
  context (retry_object g) = Some rc ->
  recognize_failed c tgt ctx ri g =
  (Val tt, with_retry (mkRetry (Some rc) (Some cs) (Some m) (Some (n + 1))) g,
   (escalation c n ++ reprompt c tgt ctx ri m cs rc)%list).
Proof.
  intros Hn Hm Hcs Hrc.
  destruct g as [ce np tk [rctx rch rmode rcnt] target].
  cbn in Hn, Hm, Hcs, Hrc. subst rctx rch rmode rcnt.
  unfold recognize_failed, escalation, reprompt, failed_text, with_retry,
    choices_request, speech_request.
  cbv zeta.
  destruct (n + 1 >? 2) eqn:En;
    (destruct ctx as [| a ctx'];
     [ lazy - [Z.add Z.gtb]; rewrite ?En; reflexivity
     | change (String a ctx' == EmptyString) with false; cbn [negb when] ]);
    (destruct (m == "choices") eqn:E1;
     [ apply String.eqb_eq in E1; subst m;
       lazy - [Z.add Z.gtb Z.eqb existsb subCode CUSTOMER_QUERY_TIMEOUT INVALID_AUDIO
               RETRY_COUNT_REACHED_MESSAGE];
       rewrite ?En; reflexivity |]);
    (destruct (m == "speech") eqn:E2;
     [ apply String.eqb_eq in E2; subst m;
       lazy - [Z.add Z.gtb Z.eqb existsb subCode CUSTOMER_QUERY_TIMEOUT INVALID_AUDIO
               RETRY_COUNT_REACHED_MESSAGE];
       rewrite ?En; reflexivity |]);
    lazy - [Z.add Z.gtb Z.eqb existsb subCode String.eqb CUSTOMER_QUERY_TIMEOUT
            INVALID_AUDIO RETRY_COUNT_REACHED_MESSAGE FATAL_ERROR_MESSAGE];
    rewrite ?En, ?E1, ?E2; reflexivity.
Qed.

(** X6. A failed recognition that answers a choice or speech request
    re-issues that very request (same context, same choices) with the
    timeout or the not-understood message, answers 200, and leaves the retry
    object as it was but for the counter, which grows by one; the escalation
    message is played before the re-prompt exactly when the counter already
    stood at 2 or more. *)
Theorem failed_recognition_reprompts dir svc c ctx ri rest g n m cs rc :
  counter (retry_object g) = Some n ->
  mode (retry_object g) = Some m ->
  choices (retry_object g) = Some cs ->
  context (retry_object g) = Some rc ->
  m = "choices" \/ m = "speech" ->
  ctx <> EmptyString ->
  let r := callback_events_handler dir svc (event_of c (RecognizeFailed ctx ri) :: rest) g in
  result_of r = Val (Response_status 200) /\
  globals_of r = with_retry (mkRetry (Some rc) (Some cs) (Some m) (Some (n + 1))) g /\
  trace_of r =
    (escalation c n ++
     [Gateway c (if m == "choices"
                 then choices_request (TARGET_PHONE_NUMBER g) (failed_text ri) cs rc
                 else speech_request (TARGET_PHONE_NUMBER g) (failed_text ri) rc)])%list /\
  (escalation c n = [] <-> n < 2).
Proof.
  intros Hn Hm Hcs Hrc Hmode Hctx r. subst r. unfold event_of.
  rewrite callback_events_handler_cons, callback_event_RecognizeFailed.
  rewrite (recognize_failed_run _ _ _ _ _ n m cs rc) by assumption.
  cbn [result_of globals_of trace_of fst snd response_of].
  split; [reflexivity |]. split; [reflexivity |]. split.
  - f_equal. unfold reprompt.
    destruct ctx as [| a ctx']; [congruence |].
    change (String a ctx' == EmptyString) with false. cbv iota.
    destruct Hmode as [-> | ->]; reflexivity.
  - unfold escalation. destruct (Z.gtb_spec (n + 1) 2) as [H | H].
    + split; [discriminate | lia].
    + split; [lia | reflexivity].
Qed.

Lemma failed_recognition_reprompts_witness :
  counter (retry_object after_two_failures) = Some 2 /\
  mode (retry_object after_two_failures) = Some "choices" /\
  choices (retry_object after_two_failures) = Some get_confirm_choices /\
  context (retry_object after_two_failures) = Some "ticket" /\
  ("choices" = "choices" \/ "choices" = "speech") /\
  "ticket" <> EmptyString /\
  retry_object (globals_of (callback_events_handler example_dict example_service
     [event_of "call-1" (RecognizeFailed "ticket" timeout_information)] after_two_failures))
  = mkRetry (Some "ticket") (Some get_confirm_choices) (Some "choices") (Some 3).
Proof.
  assert (H1 : counter (retry_object after_two_failures) = Some 2)
    by (vm_compute; reflexivity).
  assert (H2 : mode (retry_object after_two_failures) = Some "choices")
    by (vm_compute; reflexivity).
  assert (H3 : choices (retry_object after_two_failures) = Some get_confirm_choices)
    by (vm_compute; reflexivity).
  assert (H4 : context (retry_object after_two_failures) = Some "ticket")
    by (vm_compute; reflexivity).
  assert (H5 : "choices" = "choices" \/ "choices" = "speech") by (left; reflexivity).
  assert (H6 : "ticket" <> EmptyString) by discriminate.
  repeat (split; [assumption |]).
  rewrite (proj1 (proj2
    (failed_recognition_reprompts example_dict example_service "call-1" "ticket"
       timeout_information [] after_two_failures 2 "choices" get_confirm_choices "ticket"
       H1 H2 H3 H4 H5 H6))).
  reflexivity.
Defined.

(** X7. A failed recognition while the last request was neither a choice
    nor a speech recognition (the speech-or-DTMF prompts for the employee id
    and the phone number, or no request at all) plays the fatal-error
    message instead of re-prompting: the event issues no recognition
    request, whatever the counter, and the retry object keeps its context
    and mode. *)
Theorem failed_recognition_other_mode_is_fatal dir svc c ctx ri rest g n m cs rc :
  counter (retry_object g) = Some n ->
  mode (retry_object g) = Some m ->
  choices (retry_object g) = Some cs ->
  context (retry_object g) = Some rc ->
  m <> "choices" -> m <> "speech" ->
  ctx <> EmptyString ->
  let r := callback_events_handler dir svc (event_of c (RecognizeFailed ctx ri) :: rest) g in
  result_of r = Val (Response_status 200) /\
  globals_of r = with_retry (mkRetry (Some rc) (Some cs) (Some m) (Some (n + 1))) g /\
  trace_of r =
    (escalation c n ++
     [Gateway c (play_media FATAL_ERROR_MESSAGE (Some "fatal_error"))])%list /\
  existsb is_recognition (directives (trace_of r)) = false.
Proof.
  intros Hn Hm Hcs Hrc Hm1 Hm2 Hctx r. subst r. unfold event_of.
  rewrite callback_events_handler_cons, callback_event_RecognizeFailed.
  rewrite (recognize_failed_run _ _ _ _ _ n m cs rc) by assumption.
  cbn [result_of globals_of trace_of fst snd response_of].
  assert (Hre : reprompt c (TARGET_PHONE_NUMBER g) ctx ri m cs rc
                = [Gateway c (play_media FATAL_ERROR_MESSAGE (Some "fatal_error"))]).
  { unfold reprompt. destruct ctx as [| a ctx']; [congruence |].
    change (String a ctx' == EmptyString) with false. cbv iota.
    apply String.eqb_neq in Hm1, Hm2. rewrite Hm1, Hm2. reflexivity. }
  rewrite Hre.
  split; [reflexivity |]. split; [reflexivity |]. split; [reflexivity |].
  unfold escalation. destruct (n + 1 >? 2); reflexivity.
Qed.

Lemma failed_recognition_other_mode_witness :
  counter (retry_object at_employee_id_prompt) = Some 0 /\
  mode (retry_object at_employee_id_prompt) = Some "speech_or_dtmf" /\
  choices (retry_object at_employee_id_prompt) = Some get_confirm_choices /\
  context (retry_object at_employee_id_prompt) = Some "provide_eid" /\
  "speech_or_dtmf" <> "choices" /\ "speech_or_dtmf" <> "speech" /\
  "provide_eid" <> EmptyString /\
  trace_of (callback_events_handler example_dict example_service
     [event_of "call-1" (RecognizeFailed "provide_eid" timeout_information)]
     at_employee_id_prompt)
  = [Gateway "call-1" (play_media FATAL_ERROR_MESSAGE (Some "fatal_error"))].
Proof.
  assert (H1 : counter (retry_object at_employee_id_prompt) = Some 0)
    by (vm_compute; reflexivity).
  assert (H2 : mode (retry_object at_employee_id_prompt) = Some "speech_or_dtmf")
    by (vm_compute; reflexivity).
  assert (H3 : choices (retry_object at_employee_id_prompt) = Some get_confirm_choices)
    by (vm_compute; reflexivity).
  assert (H4 : context (retry_object at_employee_id_prompt) = Some "provide_eid")
    by (vm_compute; reflexivity).
  assert (H5 : "speech_or_dtmf" <> "choices") by discriminate.
  assert (H6 : "speech_or_dtmf" <> "speech") by discriminate.
  assert (H7 : "provide_eid" <> EmptyString) by discriminate.
  repeat (split; [assumption |]).
  exact (proj1 (proj2 (proj2
    (failed_recognition_other_mode_is_fatal example_dict example_service "call-1"
       "provide_eid" timeout_information [] at_employee_id_prompt 0 "speech_or_dtmf"
       get_confirm_choices "provide_eid" H1 H2 H3 H4 H5 H6 H7)))).
Defined.

(** X8. [send_email] resets the retry object after the request for a
    further ticket has been issued, so the handler no longer knows that
    request: if the recognition then fails, the caller is not asked again
    but hears the fatal-error message, the counter standing at 1. *)
Theorem failure_after_capture_issue_is_fatal dir svc1 svc2 c text ctx ri rest1 rest2 g :
  ctx <> EmptyString ->
  let r1 := callback_events_handler dir svc1
              (event_of c (RecognizeCompleted "capture_issue" (speech_result text)) :: rest1) g in
  let r2 := callback_events_handler dir svc2
              (event_of c (RecognizeFailed ctx ri) :: rest2) (globals_of r1) in
  map next_context (directives (trace_of r1)) = ["confirm_additional_request"] /\
  retry_object (globals_of r1)
    = mkRetry (Some EmptyString) (Some []) (Some EmptyString) (Some 0) /\
  result_of r2 = Val (Response_status 200) /\
  trace_of r2 = [Gateway c (play_media FATAL_ERROR_MESSAGE (Some "fatal_error"))] /\
  counter (retry_object (globals_of r2)) = Some 1.
Proof.
  intros Hctx r1 r2. subst r2 r1. unfold event_of.
  rewrite !callback_events_handler_cons, callback_event_RecognizeCompleted,
    callback_event_RecognizeFailed.
  cbn [recognize_completed].
  set (g0 := globals_of (set_retry (set_counter 0) g)).
  destruct (recognized_speech_capture_issue dir svc1 c (TARGET_PHONE_NUMBER g) text g0)
    as (logs & _ & ->).
  cbn [result_of globals_of trace_of fst snd response_of].
  rewrite (recognize_failed_run _ _ _ _ _ 0 EmptyString [] EmptyString) by reflexivity.
  cbn [result_of globals_of trace_of fst snd response_of].
  split; [cbn; rewrite directives_logs; reflexivity |].
  split; [reflexivity |]. split; [reflexivity |]. split; [| reflexivity].
  unfold reprompt. destruct ctx as [| a ctx']; [congruence | reflexivity].
Qed.

Lemma failure_after_capture_issue_witness :
  "confirm_additional_request" <> EmptyString /\
  trace_of (callback_events_handler example_dict example_service
     [event_of "call-1" (RecognizeFailed "confirm_additional_request" timeout_information)]
     (globals_of (callback_events_handler example_dict example_service
        [event_of "call-1" (RecognizeCompleted "capture_issue"
                              (speech_result "My laptop does not start"))]
        example_globals)))
  = [Gateway "call-1" (play_media FATAL_ERROR_MESSAGE (Some "fatal_error"))].
Proof.
  assert (H : "confirm_additional_request" <> EmptyString) by discriminate.
  split; [exact H |].
  exact (proj1 (proj2 (proj2 (proj2
    (failure_after_capture_issue_is_fatal example_dict example_service example_service
       "call-1" "My laptop does not start" "confirm_additional_request"
       timeout_information [] [] example_globals H))))).
Defined.

(** X9. While the retry object has no counter yet (nothing has been
    recognised since the process started), a RecognizeFailed event raises
    AttributeError at once: the globals stay as they were, nothing is asked
    of the gateway and no 200 is returned. *)
Theorem failed_recognition_without_counter_raises dir svc c ctx ri rest g :
  counter (retry_object g) = None ->
  callback_events_handler dir svc (event_of c (RecognizeFailed ctx ri) :: rest) g
  = (Exc AttributeError, g, []).
Proof.
  intros Hn. unfold event_of.
  rewrite callback_events_handler_cons, callback_event_RecognizeFailed.
  unfold recognize_failed.
  rewrite (bind_val _ _ g g g []) by reflexivity.
  rewrite (bind_exc _ _ g AttributeError g []) by (rewrite Hn; reflexivity).
  reflexivity.
Qed.

Lemma failed_recognition_without_counter_witness :
  counter (retry_object just_connected) = None /\
  callback_events_handler example_dict example_service
    [event_of "call-1" (RecognizeFailed "main_menu" timeout_information)] just_connected
  = (Exc AttributeError, just_connected, []).
Proof.
  assert (H : counter (retry_object just_connected) = None) by (vm_compute; reflexivity).
  split; [exact H |].
  exact (failed_recognition_without_counter_raises example_dict example_service "call-1"
           "main_menu" timeout_information [] just_connected H).
Defined.

(** ** A call after another *)

Lemma callback_event_CallConnected dir svc c g :
  callback_event dir svc (mkEvent c CallConnected) g =
  (Val tt,
   with_retry (mkRetry (Some "main_menu") (Some get_menu_choices) (Some "choices")
                       (counter (retry_object g)))
              (with_ticket Ticket_new g),
   [Gateway c (choices_request (TARGET_PHONE_NUMBER g) MAIN_MENU get_menu_choices
                 "main_menu")]).
Proof. reflexivity. Qed.

(** X10. CallConnected starts from an empty ticket but keeps the employee,
    the pending phone number and the retry counter of whatever call came
    before; so after a call that ended with the counter at 2 or more, the
    first failed recognition of the next call already plays the escalation
    message. *)
Theorem counter_survives_call_connected dir svc1 svc2 c ctx ri rest1 rest2 g n :
  counter (retry_object g) = Some n ->
  2 <= n ->
  ctx <> EmptyString ->
  let r1 := callback_events_handler dir svc1 (event_of c CallConnected :: rest1) g in
  let r2 := callback_events_handler dir svc2
              (event_of c (RecognizeFailed ctx ri) :: rest2) (globals_of r1) in
  current_ticket (globals_of r1) = Ticket_new /\
  current_employee (globals_of r1) = current_employee g /\
  new_phone_number (globals_of r1) = new_phone_number g /\
  counter (retry_object (globals_of r1)) = Some n /\
  trace_of r2 =
    [ Gateway c (play_media RETRY_COUNT_REACHED_MESSAGE (Some "retry_count_reached"));
      Gateway c (choices_request (TARGET_PHONE_NUMBER g) (failed_text ri)
                   get_menu_choices "main_menu") ].
Proof.
  intros Hn Hle Hctx r1 r2. subst r2 r1. unfold event_of.
  rewrite !callback_events_handler_cons, callback_event_CallConnected,
    callback_event_RecognizeFailed.
  cbn [result_of globals_of trace_of fst snd response_of].
  rewrite (recognize_failed_run _ _ _ _ _ n "choices" get_menu_choices "main_menu")
    by (try reflexivity; exact Hn).
  cbn [trace_of snd].
  split; [reflexivity |]. split; [reflexivity |]. split; [reflexivity |].
  split; [exact Hn |].
  unfold escalation, reprompt.
  destruct (Z.gtb_spec (n + 1) 2) as [_ | H]; [| lia].
  destruct ctx as [| a ctx']; [congruence | reflexivity].
Qed.

Lemma counter_survives_call_connected_witness :
  counter (retry_object after_escalated_call) = Some 3 /\
  2 <= 3 /\
  "main_menu" <> EmptyString /\
  trace_of (callback_events_handler example_dict example_service
     [event_of "call-2" (RecognizeFailed "main_menu" timeout_information)]
     (globals_of (callback_events_handler example_dict example_service
        [event_of "call-2" CallConnected] after_escalated_call)))
  = [ Gateway "call-2" (play_media RETRY_COUNT_REACHED_MESSAGE (Some "retry_count_reached"));
      Gateway "call-2" (choices_request "+15550100" CUSTOMER_QUERY_TIMEOUT
                          get_menu_choices "main_menu") ].
Proof.
  assert (H1 : counter (retry_object after_escalated_call) = Some 3)
    by (vm_compute; reflexivity).
  assert (H2 : 2 <= 3) by lia.
  assert (H3 : "main_menu" <> EmptyString) by discriminate.
  repeat (split; [assumption |]).
  exact (proj2 (proj2 (proj2 (proj2
    (counter_survives_call_connected example_dict example_service example_service
       "call-2" "main_menu" timeout_information [] [] after_escalated_call 3 H1 H2 H3))))).
Defined.

(** ** Contexts without a case *)

Ltac split_contexts H :=
  cbn [existsb app choice_contexts speech_contexts] in H;
  repeat (apply orb_false_iff in H; let H1 := fresh "Hctx" in destruct H as [H1 H]).

(** X11. A completed choice or speech recognition whose operation context
    is none of those the branches test for is dropped without a trace: the
    view answers 200, asks nothing of the gateway, sends nothing, and only
    sets the retry counter to 0. *)
Theorem unknown_context_is_dropped dir svc c ctx lbl phrase text rest g :
  existsb (String.eqb ctx) (choice_contexts ++ speech_contexts) = false ->
  callback_events_handler dir svc
    (event_of c (RecognizeCompleted ctx (choices_result lbl phrase)) :: rest) g
  = (Val (Response_status 200), with_retry (set_counter 0 (retry_object g)) g, []) /\
  callback_events_handler dir svc
    (event_of c (RecognizeCompleted ctx (speech_result text)) :: rest) g
  = (Val (Response_status 200), with_retry (set_counter 0 (retry_object g)) g, []).
Proof.
  intros H. split_contexts H. unfold event_of.
  rewrite !callback_events_handler_cons, !callback_event_RecognizeCompleted.
  cbn [recognize_completed].
  change (globals_of (set_retry (set_counter 0) g))
    with (with_retry (set_counter 0 (retry_object g)) g).
  set (g0 := with_retry (set_counter 0 (retry_object g)) g).
  split.
  - unfold recognized_choices.
    repeat match goal with
           | Hc : (ctx == _) = false |- _ => rewrite Hc; clear Hc
           end.
    cbn [when]. rewrite !bind_ret_l. reflexivity.
  - unfold recognized_speech.
    repeat match goal with
           | Hc : (ctx == _) = false |- _ => rewrite Hc; clear Hc
           end.
    cbn [when]. rewrite !bind_ret_l. reflexivity.
Qed.

Lemma unknown_context_witness :
  existsb (String.eqb "retry") (choice_contexts ++ speech_contexts) = false /\
  callback_events_handler example_dict example_service
    [event_of "call-1" (RecognizeCompleted "retry" (choices_result "Confirm" None))]
    just_connected
  = (Val (Response_status 200), with_retry (set_counter 0 (retry_object just_connected))
                                           just_connected, []).
Proof.
  assert (H : existsb (String.eqb "retry") (choice_contexts ++ speech_contexts) = false)
    by (vm_compute; reflexivity).
  split; [exact H |].
  exact (proj1 (unknown_context_is_dropped example_dict example_service "call-1" "retry"
                  "Confirm" None EmptyString [] just_connected H)).
Defined.

(** ** Tones that are not digits *)

Lemma pound_is_invalid (tones : list DtmfTone) :
  In POUND tones -> has_invalid_tone tones = true /\ keyed_digits tones = None.
Proof.
  induction tones as [| tone rest IH]; [intros [] |].
  intros [H | H].
  - subst tone. split; [reflexivity |]. reflexivity.
  - destruct (IH H) as [H1 H2]. split.
    + cbn [has_invalid_tone existsb]. fold (has_invalid_tone rest).
      rewrite H1. apply orb_true_r.
    + cbn [keyed_digits]. rewrite H2. destruct (tone_digit tone); reflexivity.
Qed.

Lemma no_pound_no_invalid (tones : list DtmfTone) :
  ~ In POUND tones -> has_invalid_tone tones = false.
Proof.
  induction tones as [| tone rest IH]; [reflexivity |].
  intros H. cbn [has_invalid_tone existsb]. fold (has_invalid_tone rest).
  rewrite IH by (intros Hin; apply H; right; exact Hin).
  destruct tone; try reflexivity. exfalso. apply H. left; reflexivity.
Qed.

Lemma not_digit_no_digits (tones : list DtmfTone) (tone : DtmfTone) :
  tone_digit tone = None -> In tone tones -> keyed_digits tones = None.
Proof.
  intros Hd. induction tones as [| t rest IH]; [intros [] |].
  intros [H | H]; cbn [keyed_digits].
  - subst t. rewrite Hd. reflexivity.
  - rewrite (IH H). destruct (tone_digit t); reflexivity.
Qed.

(** X12. A pound tone is answered with the invalid-character re-prompt for
    the employee id whatever the event's context is: in a capture made
    outside the employee-id context (a phone number, say) the caller is
    asked for the employee id, the retry object is set to [provide_eid],
    and the conversion of the tones then raises ValueError, so that nothing
    is stored and no 200 is returned. *)
Theorem pound_tone_asks_for_employee_id dir svc c ctx tones rest g :
  In POUND tones ->
  ctx <> "provide_eid" ->
  let r := callback_events_handler dir svc
             (event_of c (RecognizeCompleted ctx (dtmf_result tones)) :: rest) g in
  result_of r = Exc ValueError /\
  trace_of r = [Gateway c (speech_or_dtmf_request (TARGET_PHONE_NUMBER g) INVALID_CHARACTER
                             "provide_eid")] /\
  context (retry_object (globals_of r)) = Some "provide_eid" /\
  new_phone_number (globals_of r) = new_phone_number g /\
  current_employee (globals_of r) = current_employee g.
Proof.
  intros Hin Hctx r. subst r. unfold event_of.
  destruct (pound_is_invalid tones Hin) as [Hinv Hdig].
  apply String.eqb_neq in Hctx.
  rewrite callback_events_handler_cons, callback_event_RecognizeCompleted.
  cbn [recognize_completed]. unfold recognized_dtmf.
  rewrite Hctx. cbn [andb when].
  rewrite bind_ret_l.
  set (g0 := globals_of (set_retry (set_counter 0) g)).
  rewrite (bind_step _ _ g0 tt _ _
             (eq_trans (invalid_tone_loop_run c (TARGET_PHONE_NUMBER g) tones g0)
                       ltac:(rewrite Hinv; apply speech_or_dtmf_run))).
  rewrite (bind_exc _ _ _ ValueError _ [])
    by (rewrite num_string_loop_run, Hdig; reflexivity).
  repeat split.
Qed.

Lemma pound_tone_witness :
  In POUND [FIVE; FIVE; FIVE; POUND] /\
  "provide_new_phone_number" <> "provide_eid" /\
  context (retry_object (globals_of (callback_events_handler example_dict example_service
     [event_of "call-1" (RecognizeCompleted "provide_new_phone_number"
                           (dtmf_result [FIVE; FIVE; FIVE; POUND]))]
     example_globals))) = Some "provide_eid".
Proof.
  assert (H1 : In POUND [FIVE; FIVE; FIVE; POUND]) by (cbn; tauto).
  assert (H2 : "provide_new_phone_number" <> "provide_eid") by discriminate.
  split; [exact H1 |]. split; [exact H2 |].
  exact (proj1 (proj2 (proj2
    (pound_tone_asks_for_employee_id example_dict example_service "call-1"
       "provide_new_phone_number" [FIVE; FIVE; FIVE; POUND] [] example_globals H1 H2)))).
Defined.

(** X13. The loop that looks for invalid tones compares with ["asterick"],
    which is no tone value: a six-tone employee-id capture that holds an
    asterisk (or one of the letter tones) and no pound gets no re-prompt at
    all; the conversion of the tones raises ValueError with nothing asked of
    the gateway, no lookup made and no 200 returned. *)
Theorem asterisk_is_not_detected dir svc c tones tone rest g :
  In tone tones ->
  tone_digit tone = None ->
  ~ In POUND tones ->
  List.length tones = 6%nat ->
  callback_events_handler dir svc
    (event_of c (RecognizeCompleted "provide_eid" (dtmf_result tones)) :: rest) g
  = (Exc ValueError, with_retry (set_counter 0 (retry_object g)) g, []).
Proof.
  intros Hin Htone Hpound Hlen. unfold event_of.
  rewrite callback_events_handler_cons, callback_event_RecognizeCompleted.
  cbn [recognize_completed]. unfold recognized_dtmf.
  rewrite Hlen. change ("provide_eid" == "provide_eid") with true.
  cbn [andb negb Nat.eqb when].
  rewrite bind_ret_l.
  set (g0 := globals_of (set_retry (set_counter 0) g)).
  rewrite (bind_step _ _ g0 tt g0 [])
    by (rewrite invalid_tone_loop_run, (no_pound_no_invalid tones Hpound); reflexivity).
  rewrite (bind_exc _ _ g0 ValueError g0 [])
    by (rewrite num_string_loop_run, (not_digit_no_digits tones tone Htone Hin); reflexivity).
  reflexivity.
Qed.

Lemma asterisk_witness :
  In ASTERISK [SIX; SEVEN; ASTERISK; EIGHT; THREE; FOUR] /\
  tone_digit ASTERISK = None /\
  ~ In POUND [SIX; SEVEN; ASTERISK; EIGHT; THREE; FOUR] /\
  List.length [SIX; SEVEN; ASTERISK; EIGHT; THREE; FOUR] = 6%nat /\
  callback_events_handler example_dict example_service
    [event_of "call-1" (RecognizeCompleted "provide_eid"
                          (dtmf_result [SIX; SEVEN; ASTERISK; EIGHT; THREE; FOUR]))]
    example_globals
  = (Exc ValueError, with_retry (set_counter 0 (retry_object example_globals))
                                example_globals, []).
Proof.
  assert (H1 : In ASTERISK [SIX; SEVEN; ASTERISK; EIGHT; THREE; FOUR]) by (cbn; tauto).
  assert (H2 : tone_digit ASTERISK = None) by reflexivity.
  assert (H3 : ~ In POUND [SIX; SEVEN; ASTERISK; EIGHT; THREE; FOUR]).
  { cbn. intros [H | [H | [H | [H | [H | [H | []]]]]]]; discriminate. }
  assert (H4 : List.length [SIX; SEVEN; ASTERISK; EIGHT; THREE; FOUR] = 6%nat)
    by reflexivity.
  repeat (split; [assumption |]).
  exact (asterisk_is_not_detected example_dict example_service "call-1"
           [SIX; SEVEN; ASTERISK; EIGHT; THREE; FOUR] ASTERISK [] example_globals
           H1 H2 H3 H4).
Defined.

(** ** A new phone number *)

Lemma recognized_speech_new_phone dir svc c tgt text g :
  recognized_speech dir svc c tgt "provide_new_phone_number" text g =
  get_media_recognize_choice_options c (YOU_SAID (replace space EmptyString text)) tgt
    get_confirm_choices "confirm_phone_number"
    (with_new_phone_number (replace space EmptyString text) g).
Proof.
  unfold recognized_speech. decide_literals. cbv zeta. cbn [when].
  rewrite !bind_ret_l. reflexivity.
Qed.

Lemma recognized_dtmf_new_phone dir c tgt tones d g :
  keyed_digits tones = Some d ->
  recognized_dtmf dir c tgt "provide_new_phone_number" tones g =
  get_media_recognize_choice_options c (YOU_SAID d) tgt
    get_confirm_choices "confirm_new_phone_number" (with_new_phone_number d g).
Proof.
  intros Hd. unfold recognized_dtmf. decide_literals. cbn [andb when].
  rewrite bind_ret_l.
  rewrite (bind_step _ _ g tt g [])
    by (rewrite invalid_tone_loop_run, (keyed_digits_no_invalid tones d Hd); reflexivity).
  rewrite (bind_step _ _ g d g []) by (rewrite num_string_loop_run, Hd; reflexivity).
  rewrite !prepend_nil. reflexivity.
Qed.

Lemma recognized_choices_confirm_phone svc c tgt e g :
  current_employee g = Some e ->
  recognized_choices svc c tgt "confirm_phone_number" "Confirm" g =
  get_media_recognize_choice_options c EMAIL_ON_FILE tgt get_confirm_choices
    "confirm_email_on_file"
    (with_ticket (set_phone_number (Some (telephone_number e)) (current_ticket g)) g).
Proof.
  intros H. destruct g as [ce np tk ro target]. cbn in H. subst ce.
  unfold recognized_choices. decide_literals. cbn [when].
  rewrite !bind_ret_l. reflexivity.
Qed.

Lemma recognized_choices_confirm_new_phone svc c tgt e num g :
  current_employee g = Some e ->
  new_phone_number g = Some num ->
  recognized_choices svc c tgt "confirm_new_phone_number" "Confirm" g =
  let g1 := with_ticket (set_phone_number (Some num) (current_ticket g)) g in
  if negb (email_address e == EmptyString)
  then get_media_recognize_choice_options c EMAIL_ON_FILE_AFTER_NEW_PHONE tgt
         get_confirm_choices "confirm_email_on_file" g1
  else get_media_recognize_speech_input c NO_EMAIL_ON_FILE tgt
         "provide_new_email_address" g1.
Proof.
  intros H1 H2. destruct g as [ce np tk ro target]. cbn in H1, H2. subst ce np.
  unfold recognized_choices. decide_literals. cbn [when].
  rewrite !bind_ret_l.
  destruct (email_address e == EmptyString) eqn:E;
    lazy - [String.eqb email_address]; rewrite ?E; reflexivity.
Qed.

(** X14. A phone number that is spoken is never written into the ticket:
    the confirmation that follows it is requested under the context of the
    directory's number, so confirming it stores the phone number of the
    employee's directory record (even an empty one), while the spoken number
    stays pending. *)
Theorem spoken_phone_number_is_not_stored dir svc1 svc2 c text phrase rest1 rest2 e g :
  current_employee g = Some e ->
  let r1 := callback_events_handler dir svc1
              (event_of c (RecognizeCompleted "provide_new_phone_number" (speech_result text))
               :: rest1) g in
  let r2 := callback_events_handler dir svc2
              (event_of c (RecognizeCompleted "confirm_phone_number"
                             (choices_result "Confirm" phrase)) :: rest2) (globals_of r1) in
  trace_of r1 =
    [Gateway c (choices_request (TARGET_PHONE_NUMBER g)
                  (YOU_SAID (replace space EmptyString text)) get_confirm_choices
                  "confirm_phone_number")] /\
  new_phone_number (globals_of r1) = Some (replace space EmptyString text) /\
  result_of r2 = Val (Response_status 200) /\
  phone_number (current_ticket (globals_of r2)) = Some (telephone_number e) /\
  new_phone_number (globals_of r2) = Some (replace space EmptyString text) /\
  map next_context (directives (trace_of r2)) = ["confirm_email_on_file"].
Proof.
  intros He r1 r2. subst r2 r1. unfold event_of.
  rewrite !callback_events_handler_cons, !callback_event_RecognizeCompleted.
  cbn [recognize_completed].
  rewrite recognized_speech_new_phone, choice_options_run.
  cbn [result_of globals_of trace_of fst snd response_of].
  rewrite (recognized_choices_confirm_phone _ _ _ e)
    by (destruct g; cbn in *; exact He).
  rewrite choice_options_run.
  repeat split.
Qed.

Lemma spoken_phone_number_witness :
  current_employee (globals_of call_1_says_id) = Some ada /\
  phone_number (current_ticket (globals_of
    (callback_events_handler example_dict example_service
       [event_of "call-1" (RecognizeCompleted "confirm_phone_number"
                             (choices_result "Confirm" None))]
       (globals_of
          (callback_events_handler example_dict example_service
             [event_of "call-1" (RecognizeCompleted "provide_new_phone_number"
                                   (speech_result "555 0177"))]
             (globals_of call_1_says_id)))))) = Some "5550100".
Proof.
  assert (H : current_employee (globals_of call_1_says_id) = Some ada)
    by (vm_compute; reflexivity).
  split; [exact H |].
  exact (proj1 (proj2 (proj2 (proj2
    (spoken_phone_number_is_not_stored example_dict example_service example_service
       "call-1" "555 0177" None [] [] ada (globals_of call_1_says_id) H))))).
Defined.

(** X15. A phone number that is keyed in is read back in the confirmation
    prompt and, once confirmed, is the ticket's phone number, digit for
    digit; the dialog goes on to the e-mail on file, or asks for an e-mail
    address if the directory has none. *)
Theorem keyed_phone_number_is_stored dir svc1 svc2 c tones d phrase rest1 rest2 e g :
  keyed_digits tones = Some d ->
  current_employee g = Some e ->
  let r1 := callback_events_handler dir svc1
              (event_of c (RecognizeCompleted "provide_new_phone_number" (dtmf_result tones))
               :: rest1) g in
  let r2 := callback_events_handler dir svc2
              (event_of c (RecognizeCompleted "confirm_new_phone_number"
                             (choices_result "Confirm" phrase)) :: rest2) (globals_of r1) in
  trace_of r1 =
    [Gateway c (choices_request (TARGET_PHONE_NUMBER g) ("You said " ++ d ++ ". Is this correct?")
                  get_confirm_choices "confirm_new_phone_number")] /\
  result_of r2 = Val (Response_status 200) /\
  phone_number (current_ticket (globals_of r2)) = Some d /\
  map next_context (directives (trace_of r2))
    = [if email_address e == EmptyString
       then "provide_new_email_address" else "confirm_email_on_file"].
Proof.
  intros Hd He r1 r2. subst r2 r1. unfold event_of.
  rewrite !callback_events_handler_cons, !callback_event_RecognizeCompleted.
  cbn [recognize_completed].
  rewrite (recognized_dtmf_new_phone _ _ _ _ d) by exact Hd.
  rewrite choice_options_run.
  cbn [result_of globals_of trace_of fst snd response_of].
  rewrite (recognized_choices_confirm_new_phone _ _ _ e d)
    by (destruct g; cbn in *; first [exact He | reflexivity]).
  cbv zeta.
  destruct (email_address e == EmptyString); repeat split.
Qed.

Lemma keyed_phone_number_witness :
  keyed_digits [FIVE; FIVE; FIVE; ZERO; ONE; SEVEN; SEVEN] = Some "5550177" /\
  current_employee (globals_of call_1_says_id) = Some ada /\
  phone_number (current_ticket (globals_of
    (callback_events_handler example_dict example_service
       [event_of "call-1" (RecognizeCompleted "confirm_new_phone_number"
                             (choices_result "Confirm" None))]
       (globals_of
          (callback_events_handler example_dict example_service
             [event_of "call-1" (RecognizeCompleted "provide_new_phone_number"
                (dtmf_result [FIVE; FIVE; FIVE; ZERO; ONE; SEVEN; SEVEN]))]
             (globals_of call_1_says_id)))))) = Some "5550177".
Proof.
  assert (H1 : keyed_digits [FIVE; FIVE; FIVE; ZERO; ONE; SEVEN; SEVEN] = Some "5550177")
    by reflexivity.
  assert (H2 : current_employee (globals_of call_1_says_id) = Some ada)
    by (vm_compute; reflexivity).
  split; [exact H1 |]. split; [exact H2 |].
  exact (proj1 (proj2 (proj2
    (keyed_phone_number_is_stored example_dict example_service example_service
       "call-1" [FIVE; FIVE; FIVE; ZERO; ONE; SEVEN; SEVEN] "5550177" None [] [] ada
       (globals_of call_1_says_id) H1 H2)))).
Defined.

(** ** Invariants of the globals under every event *)

Section InvariantLogic.

Variable P : Globals -> Prop.
Hypothesis P_set_context : forall c g, P g -> P (globals_of (set_retry (set_context c) g)).
Hypothesis P_set_mode : forall m g, P g -> P (globals_of (set_retry (set_mode m) g)).
Hypothesis P_set_choices : forall cs g, P g -> P (globals_of (set_retry (set_choices cs) g)).
Hypothesis P_set_counter : forall n g, P g -> P (globals_of (set_retry (set_counter n) g)).
Hypothesis P_reset : forall g, P g -> P (globals_of (set_retry reset g)).
Hypothesis P_set_ticket : forall f g, P g -> P (globals_of (set_ticket f g)).
Hypothesis P_employee : forall e g, P g -> P (globals_of (modify_current_employee e g)).
Hypothesis P_phone : forall n g, P g -> P (globals_of (modify_new_phone_number n g)).

Lemma invariant_set_counter n : keeps P (fun _ => True) (set_retry (set_counter n)).
Proof. apply keeps_update; [apply P_set_counter | reflexivity]. Qed.

Lemma invariant_recognize_failed c tgt ctx ri :
  keeps P (fun _ => True) (recognize_failed c tgt ctx ri).
Proof.
  unfold recognize_failed. cbv zeta.
  repeat first [ apply invariant_set_counter | keeps_step ].
Qed.

Lemma invariant_callback_event dir svc c et :
  keeps P (fun _ => True) (callback_event dir svc (mkEvent c et)).
Proof.
  unfold callback_event. cbn [event_type callConnectionId]. cbv zeta.
  apply keeps_bind; [apply keeps_get_globals | intros g].
  destruct et.
  - apply keeps_bind; [apply keeps_set_ticket; keeps_side | intros _].
    apply keeps_choice_options; keeps_side.
  - apply keeps_bind; [apply invariant_set_counter | intros _].
    apply keeps_recognize_completed; keeps_side.
  - apply invariant_recognize_failed.
  - apply keeps_emit; exact I.
  - apply keeps_bind; [apply keeps_handle_play; keeps_side | intros _].
    apply keeps_emit; exact I.
  - apply keeps_ret.
Qed.

Lemma invariant_callback_events_handler dir svc request g :
  P g -> P (globals_of (callback_events_handler dir svc request g)).
Proof.
  intros Hg. destruct request as [| [c et] rest]; [exact Hg |].
  rewrite callback_events_handler_cons.
  apply (invariant_callback_event dir svc c et g Hg).
Qed.

End InvariantLogic.

(** X16. No event ever unsets an attribute of the retry object: whatever
    is posted, an attribute that exists before the view runs exists after
    it, also when the view raises. *)
Theorem retry_attributes_stay_set dir svc request g (a : RetryAttr) :
  attr_set a g ->
  attr_set a (globals_of (callback_events_handler dir svc request g)).
Proof.
  apply invariant_callback_events_handler;
    destruct a; cbn; intros; first [assumption | eexists; reflexivity].
Qed.

Lemma retry_attributes_witness :
  attr_set attr_context just_connected /\
  attr_set attr_context
    (globals_of (callback_events_handler example_dict example_service
                   yes_then_play_completed just_connected)).
Proof.
  assert (H : attr_set attr_context just_connected) by (eexists; vm_compute; reflexivity).
  split; [exact H |].
  exact (retry_attributes_stay_set example_dict example_service yes_then_play_completed
           just_connected attr_context H).
Defined.

(** X17. The callback view never changes [TARGET_PHONE_NUMBER], whatever
    is posted and whether it returns or raises. *)
Theorem callback_keeps_target dir svc request g :
  TARGET_PHONE_NUMBER (globals_of (callback_events_handler dir svc request g))
  = TARGET_PHONE_NUMBER g.
Proof.
  apply (invariant_callback_events_handler
           (fun g' => TARGET_PHONE_NUMBER g' = TARGET_PHONE_NUMBER g));
    try (intros; cbn; assumption).
  reflexivity.
Qed.

(** ** The shape of every directive *)

Section ShapeLogic.

Variable client tgt : string.
Variable may_hang_up : bool.

Local Abbreviation shaped := (keeps any_globals (effect_shape client tgt may_hang_up)).

Lemma shaped_choice_options txt cs ctx :
  shaped (get_media_recognize_choice_options client txt tgt cs ctx).
Proof.
  intros g _. rewrite choice_options_run. split; [exact I |].
  repeat constructor. cbn. eexists; reflexivity.
Qed.

Lemma shaped_speech_input txt ctx :
  shaped (get_media_recognize_speech_input client txt tgt ctx).
Proof. intros g _. split; [exact I |]. repeat constructor. Qed.

Lemma shaped_speech_or_dtmf_input txt ctx :
  shaped (get_media_recognize_speech_or_dtmf_input client txt tgt ctx).
Proof. intros g _. rewrite speech_or_dtmf_run. split; [exact I |]. repeat constructor. Qed.

Lemma shaped_handle_play txt ctx : shaped (handle_play client txt ctx).
Proof. intros g _. split; [exact I |]. repeat constructor. Qed.

Lemma shaped_invalid_tone_loop tones : shaped (invalid_tone_loop client tgt tones).
Proof.
  induction tones as [| tone rest IH]; cbn [invalid_tone_loop].
  - apply keeps_ret.
  - destruct (_ || _); [apply shaped_speech_or_dtmf_input | exact IH].
Qed.

Lemma shaped_set_counter n : shaped (set_retry (set_counter n)).
Proof. apply keeps_update; [intros; exact I | reflexivity]. Qed.

End ShapeLogic.

Ltac shaped_step :=
  lazymatch goal with
  | |- keeps _ _ (bind _ _) => apply keeps_bind; [| intros ?]
  | |- keeps _ _ (when _ _) => apply keeps_when
  | |- keeps _ _ (if ?b then _ else _) => destruct b
  | |- keeps _ _ (match ?x with _ => _ end) => destruct x
  | |- _ =>
      first [ apply shaped_choice_options | apply shaped_speech_input
            | apply shaped_speech_or_dtmf_input | apply shaped_handle_play
            | apply shaped_invalid_tone_loop | apply shaped_set_counter
            | keeps_leaf ]
  end.

Lemma shaped_callback_event dir svc c et g :
  Forall (effect_shape c (TARGET_PHONE_NUMBER g) (is_play_event et))
         (trace_of (callback_event dir svc (mkEvent c et) g)).
Proof.
  unfold callback_event. cbn [event_type callConnectionId]. cbv zeta.
  rewrite (bind_val _ _ g g g []) by reflexivity.
  cbn [trace_of snd app].
  set (tgt := TARGET_PHONE_NUMBER g).
  match goal with
  | |- Forall ?Q (trace_of (?m g)) =>
      enough (H : keeps any_globals Q m) by exact (proj2 (H g I))
  end.
  destruct et as [| ctx result | ctx ri | | |]; cbn [is_play_event].
  - repeat shaped_step.
  - apply keeps_bind; [apply shaped_set_counter | intros _].
    destruct result; cbn [recognize_completed].
    + unfold recognized_choices. cbv zeta. repeat shaped_step.
    + unfold recognized_speech. cbv zeta. repeat shaped_step.
    + unfold recognized_dtmf. cbv zeta. repeat shaped_step.
    + apply shaped_handle_play.
  - unfold recognize_failed. cbv zeta. repeat shaped_step.
  - apply keeps_emit. split; reflexivity.
  - apply keeps_bind; [apply shaped_handle_play | intros _].
    apply keeps_emit. split; reflexivity.
  - apply keeps_ret.
Qed.

Lemma shaped_callback_events_handler dir svc c et rest g :
  Forall (effect_shape c (TARGET_PHONE_NUMBER g) (is_play_event et))
         (trace_of (callback_events_handler dir svc (mkEvent c et :: rest) g)).
Proof. rewrite callback_events_handler_cons. apply shaped_callback_event. Qed.

(** X18. Every recognition request the callback view issues, for any
    event and any globals, goes through the connection of the event, listens
    to the number held in [TARGET_PHONE_NUMBER], and is well formed for its
    input type: a choice request carries a choice set and no tone limit, a
    speech request carries neither, and a speech-or-DTMF request collects at
    most 6 tones in the employee-id context and 10 in any other. *)
Theorem recognition_requests_well_formed dir svc c et rest g :
  Forall (requests_well_formed c (TARGET_PHONE_NUMBER g))
         (trace_of (callback_events_handler dir svc (mkEvent c et :: rest) g)).
Proof.
  eapply Forall_impl; [apply shaped_callback_events_handler |].
  intros [c' [r | txt ctx |] | m | k | l] H; cbn in *; try exact I.
  exact H.
Qed.

(** X19. The callback view hangs up exactly on the PlayCompleted and
    PlayFailed events, and then as its last directive; no other event ends
    the call, and a PlayFailed plays the fatal-error message first. *)
Theorem hang_up_exactly_on_play_events dir svc c et rest g :
  let r := callback_events_handler dir svc (mkEvent c et :: rest) g in
  (In hang_up (directives (trace_of r)) <-> is_play_event et = true) /\
  match et with
  | PlayCompleted => trace_of r = [Gateway c hang_up]
  | PlayFailed =>
      trace_of r = [ Gateway c (play_media FATAL_ERROR_MESSAGE (Some "fatal_error"));
                     Gateway c hang_up ]
  | _ => True
  end.
Proof.
  intros r. subst r. split.
  - split.
    + intros Hin. unfold directives in Hin.
      apply list_elem_of_In, list_elem_of_omap in Hin.
      destruct Hin as (e & He & Hd).
      pose proof (shaped_callback_events_handler dir svc c et rest g) as Hshape.
      rewrite Forall_forall in Hshape. specialize (Hshape e He).
      destruct e as [c' d | | |]; cbn in Hd; try discriminate.
      inversion Hd; subst d. exact (proj2 Hshape).
    + intros Hplay. destruct et; try discriminate.
      * rewrite callback_events_handler_cons. cbn. left; reflexivity.
      * rewrite callback_events_handler_cons. cbn. right; left; reflexivity.
  - destruct et; try exact I; rewrite callback_events_handler_cons; reflexivity.
Qed.

(** ** The inbound view *)

Lemma set_target_number_twice a b g :
  set_target_number b (set_target_number a g) = set_target_number b g.
Proof. reflexivity. Qed.

Lemma last_caller_cons call calls g :
  last_caller calls (set_target_number (snd call) g) = last_caller (call :: calls) g.
Proof.
  unfold last_caller. destruct calls as [| call' calls]; [reflexivity |].
  change (last (call :: call' :: calls)) with (last (call' :: calls)).
  destruct (last (call' :: calls)) eqn:E; [reflexivity |].
  apply last_None in E. discriminate.
Qed.

Lemma inbound_call_handler_incoming calls tail g :
  inbound_call_handler (map incoming_call calls ++ tail) g =
  match inbound_call_handler tail (last_caller calls g) with
  | (r, g', actions) => (r, g', (map answer_of calls ++ actions)%list)
  end.
Proof.
  revert g. induction calls as [| call calls IH]; intros g.
  - cbn [map app]. unfold last_caller. cbn.
    destruct (inbound_call_handler tail g) as [[r g'] actions]. reflexivity.
  - cbn [map app inbound_call_handler incoming_call caller_id_of phoneNumber value].
    fold (incoming_call). rewrite IH, last_caller_cons.
    destruct (inbound_call_handler tail (last_caller (call :: calls) g)) as [[r g'] actions].
    reflexivity.
Qed.

(** X20. The inbound view answers a subscription-validation event with
    the validation code of that event and returns at once: the events after
    it are not looked at, while the calls that came before it in the same
    post have been answered, in order. *)
Theorem inbound_validation_returns_code calls code post g :
  inbound_call_handler
    (map incoming_call calls ++ SubscriptionValidationEvent code :: post) g
  = (Val (validation_response code), last_caller calls g, map answer_of calls).
Proof.
  rewrite inbound_call_handler_incoming. cbn [inbound_call_handler].
  rewrite app_nil_r. reflexivity.
Qed.

(** X21. Unlike the callback view, the inbound view goes through all the
    events of a post: every incoming call is answered, in order, with the
    callback address of the service, the response is the redirect to the
    index page, and [TARGET_PHONE_NUMBER] ends up as the number of the last
    caller, which is the number the outbound view then dials. *)
Theorem inbound_answers_every_call calls g :
  let r := inbound_call_handler (map incoming_call calls) g in
  r = (Val (redirect "/"), last_caller calls g, map answer_of calls) /\
  (forall call, last calls = Some call ->
     TARGET_PHONE_NUMBER (snd (fst r)) = snd call /\
     snd (outbound_call_handler (snd (fst r)))
       = [create_call (snd call) CALLBACK_EVENTS_URI ACS_PHONE_NUMBER]).
Proof.
  intros r. subst r.
  pose proof (inbound_call_handler_incoming calls [] g) as H.
  rewrite app_nil_r in H. rewrite H. cbn [inbound_call_handler].
  rewrite app_nil_r. split; [reflexivity |].
  intros call Hlast. cbn [fst snd]. unfold last_caller. rewrite Hlast.
  split; reflexivity.
Qed.

Lemma inbound_answers_every_call_witness :
  last two_calls = Some (Some "context-2", "+15550177") /\
  TARGET_PHONE_NUMBER (snd (fst (inbound_call_handler (map incoming_call two_calls)
                                   example_globals))) = "+15550177".
Proof.
  assert (H : last two_calls = Some (Some "context-2", "+15550177")) by reflexivity.
  split; [exact H |].
  exact (proj1 (proj2 (inbound_answers_every_call two_calls example_globals) _ H)).
Defined.

(** X22. An incoming-call event without a caller number does not fall
    back on the default "Unknown": the lookup chain calls [get] on that
    default string, so the view raises AttributeError before it answers that
    call; the calls before it in the post have been answered, the events
    after it are not processed.  Only a phone number without a value gives
    the target "Unknown". *)
Theorem inbound_without_number_raises calls ctx from post g :
  from = None \/ from = Some (mkFromData None) ->
  inbound_call_handler (map incoming_call calls ++ IncomingCall ctx from :: post) g
    = (Exc AttributeError, last_caller calls g, map answer_of calls) /\
  inbound_call_handler
    [IncomingCall ctx (Some (mkFromData (Some (mkPhoneNumberData None))))] g
    = (Val (redirect "/"), set_target_number "Unknown" g,
       [answer_call ctx CALLBACK_EVENTS_URI]).
Proof.
  intros Hfrom. split; [| reflexivity].
  rewrite inbound_call_handler_incoming.
  destruct Hfrom as [-> | ->]; cbn [inbound_call_handler caller_id_of phoneNumber];
    rewrite app_nil_r; reflexivity.
Qed.

Lemma inbound_without_number_witness :
  (@None FromData = None \/ @None FromData = Some (mkFromData None)) /\
  inbound_call_handler
    (map incoming_call two_calls ++ [IncomingCall (Some "context-3") None]) example_globals
  = (Exc AttributeError, set_target_number "+15550177" example_globals,
     map answer_of two_calls).
Proof.
  assert (H : @None FromData = None \/ @None FromData = Some (mkFromData None))
    by (left; reflexivity).
  split; [exact H |].
  exact (proj1 (inbound_without_number_raises two_calls (Some "context-3") None []
                  example_globals H)).
Defined.

(** ** Calls and their callbacks together *)

Lemma requests_of_shape c tgt b (t : list Effect) :
  Forall (effect_shape c tgt b) t -> Forall (requests_well_formed c tgt) t.
Proof.
  intros Ht. eapply Forall_impl; [exact Ht |].
  intros [c' [r | txt ctx |] | m | k | l] H; cbn in *; try exact I.
  exact H.
Qed.

(** X23. The number a prompt listens to is global: once several calls
    have been answered, every recognition request of every callback event,
    whichever connection the event belongs to, listens to the caller of the
    call that was answered last. *)
Theorem prompts_listen_to_last_caller dir svc calls call c et rest g :
  last calls = Some call ->
  let answered := snd (fst (inbound_call_handler (map incoming_call calls) g)) in
  Forall (requests_well_formed c (snd call))
         (trace_of (callback_events_handler dir svc (mkEvent c et :: rest) answered)).
Proof.
  intros Hlast answered.
  assert (Htarget : TARGET_PHONE_NUMBER answered = snd call).
  { subst answered.
    pose proof (inbound_call_handler_incoming calls [] g) as H.
    rewrite app_nil_r in H. rewrite H. cbn [inbound_call_handler fst snd].
    unfold last_caller. rewrite Hlast. reflexivity. }
  rewrite <- Htarget.
  eapply requests_of_shape, shaped_callback_events_handler.
Qed.

Lemma prompts_listen_to_last_caller_witness :
  last two_calls = Some (Some "context-2", "+15550177") /\
  trace_of (callback_events_handler example_dict example_service
              [event_of "connection-1" CallConnected]
              (snd (fst (inbound_call_handler (map incoming_call two_calls)
                           example_globals))))
  = [Gateway "connection-1"
       (choices_request "+15550177" MAIN_MENU get_menu_choices "main_menu")] /\
  Forall (requests_well_formed "connection-1" "+15550177")
    (trace_of (callback_events_handler example_dict example_service
                 [event_of "connection-1" CallConnected]
                 (snd (fst (inbound_call_handler (map incoming_call two_calls)
                              example_globals))))).
Proof.
  assert (H : last two_calls = Some (Some "context-2", "+15550177")) by reflexivity.
  split; [exact H |]. split; [vm_compute; reflexivity |].
  exact (prompts_listen_to_last_caller example_dict example_service two_calls _
           "connection-1" CallConnected [] example_globals H).
Defined.

(** ** What an event leaves alone *)

Section FrameLogic.

Variable P : Globals -> Prop.
Hypothesis P_set_context : forall c g, P g -> P (globals_of (set_retry (set_context c) g)).
Hypothesis P_set_mode : forall m g, P g -> P (globals_of (set_retry (set_mode m) g)).
Hypothesis P_set_choices : forall cs g, P g -> P (globals_of (set_retry (set_choices cs) g)).
Hypothesis P_set_counter : forall n g, P g -> P (globals_of (set_retry (set_counter n) g)).

Lemma frame_failed_or_play dir svc c et :
  starts_or_completes et = false ->
  keeps P (fun _ => True) (callback_event dir svc (mkEvent c et)).
Proof.
  intros Het. unfold callback_event. cbn [event_type callConnectionId]. cbv zeta.
  apply keeps_bind; [apply keeps_get_globals | intros g].
  destruct et; try discriminate.
  - apply invariant_recognize_failed; assumption.
  - apply keeps_emit; exact I.
  - apply keeps_bind; [apply keeps_handle_play; keeps_side | intros _].
    apply keeps_emit; exact I.
  - apply keeps_ret.
Qed.

Hypothesis P_reset : forall g, P g -> P (globals_of (set_retry reset g)).
Hypothesis P_set_ticket : forall f g, P g -> P (globals_of (set_ticket f g)).

Lemma frame_not_capture dir svc c et :
  is_capture et = false ->
  keeps P (fun _ => True) (callback_event dir svc (mkEvent c et)).
Proof.
  intros Het.
  destruct (starts_or_completes et) eqn:E; [| apply frame_failed_or_play, E].
  unfold callback_event. cbn [event_type callConnectionId]. cbv zeta.
  apply keeps_bind; [apply keeps_get_globals | intros g].
  destruct et as [| ctx result | | | |]; try discriminate.
  - apply keeps_bind; [apply keeps_set_ticket; keeps_side | intros _].
    apply keeps_choice_options; keeps_side.
  - apply keeps_bind; [apply keeps_update; [apply P_set_counter | reflexivity] | intros _].
    destruct result; try discriminate; cbn [recognize_completed].
    + apply keeps_recognized_choices; keeps_side.
    + apply keeps_handle_play; keeps_side.
Qed.

End FrameLogic.

(** X24. Only what the caller says or keys in can change the employee
    bound to the dialog and the pending phone number: every other event (a
    connection, a choice, a failed recognition, a play event) leaves both as
    they were, whether the view returns or raises. *)
Theorem only_captures_bind_employee dir svc c et rest g :
  is_capture et = false ->
  let r := callback_events_handler dir svc (mkEvent c et :: rest) g in
  current_employee (globals_of r) = current_employee g /\
  new_phone_number (globals_of r) = new_phone_number g.
Proof.
  intros Het r. subst r. rewrite callback_events_handler_cons.
  cbn [globals_of fst snd].
  refine (proj1 (frame_not_capture
                   (fun g' => current_employee g' = current_employee g /\
                              new_phone_number g' = new_phone_number g)
                   _ _ _ _ _ _ dir svc c et Het g _));
    try (intros; cbn; assumption).
  split; reflexivity.
Qed.

Lemma only_captures_bind_employee_witness :
  is_capture (RecognizeCompleted "confirm_name" (choices_result "No" None)) = false /\
  current_employee (globals_of (callback_events_handler example_dict example_service
     [mkEvent "call-1" (RecognizeCompleted "confirm_name" (choices_result "No" None))]
     (globals_of call_1_says_id))) = current_employee (globals_of call_1_says_id).
Proof.
  assert (H : is_capture (RecognizeCompleted "confirm_name" (choices_result "No" None))
              = false) by reflexivity.
  split; [exact H |].
  exact (proj1 (only_captures_bind_employee example_dict example_service "call-1" _ []
                  (globals_of call_1_says_id) H)).
Defined.

(** X25. A failed recognition, a play event or an event of another type
    never touches the ticket, the bound employee or the pending phone
    number, however often it occurs and whether the view returns or
    raises. *)
Theorem failures_and_plays_keep_ticket dir svc c et rest g :
  starts_or_completes et = false ->
  let r := callback_events_handler dir svc (mkEvent c et :: rest) g in
  current_ticket (globals_of r) = current_ticket g /\
  current_employee (globals_of r) = current_employee g /\
  new_phone_number (globals_of r) = new_phone_number g.
Proof.
  intros Het r. subst r. rewrite callback_events_handler_cons.
  cbn [globals_of fst snd].
  refine (proj1 (frame_failed_or_play
                   (fun g' => current_ticket g' = current_ticket g /\
                              current_employee g' = current_employee g /\
                              new_phone_number g' = new_phone_number g)
                   _ _ _ _ dir svc c et Het g _));
    try (intros; cbn; assumption).
  repeat split.
Qed.

Lemma failures_and_plays_keep_ticket_witness :
  starts_or_completes (RecognizeFailed "ticket" timeout_information) = false /\
  current_ticket (globals_of (callback_events_handler example_dict example_service
     [mkEvent "call-1" (RecognizeFailed "ticket" timeout_information)] after_two_failures))
  = current_ticket after_two_failures.
Proof.
  assert (H : starts_or_completes (RecognizeFailed "ticket" timeout_information) = false)
    by reflexivity.
  split; [exact H |].
  exact (proj1 (failures_and_plays_keep_ticket example_dict example_service "call-1" _ []
                  after_two_failures H)).
Defined.

(** The log lines of [send_email] are no directive and no message. *)
Lemma send_email_logs_silent svc :
  let logs := ((if begin_send_raises svc then []
                else repeat (Log EmailPollerStatus) (Nat.min (waits_until_done svc) 19))
               ++ [Log (final_log svc)])%list in
  begin_sends logs = [] /\ directives logs = [].
Proof.
  cbv zeta. unfold begin_sends, directives. rewrite !omap_app.
  destruct (begin_send_raises svc); cbn [omap list_omap app];
    rewrite ?omap_repeat_log by reflexivity; split; reflexivity.
Qed.

(** X26. The ticket collects the answers.  Once an employee with a phone
    number on file is bound, the eight answers from the confirmation of
    the name to the description of the issue (phone number and e-mail
    address on file accepted) are each answered with 200, each asks the
    question the next answer belongs to, and hand exactly one message to
    the e-mail service: the ticket made of the employee's display name,
    id, phone number and e-mail address and of the labels and texts
    answered.  Every field is overwritten on the way, so nothing of what
    the ticket held before the dialog is sent. *)
Theorem ticket_collects_answers dir svc c e wm cm addr u issue g :
  current_employee g = Some e ->
  telephone_number e <> EmptyString ->
  let served := serve dir (one_by_one svc (ticket_dialog c wm cm addr u issue)) g in
  let ticket := mkTicket (display_name e) (employee_id e) cm (Some (telephone_number e))
                         (email_address e) wm addr u issue in
  fst (fst served) = repeat (Val (Response_status 200)) 8 /\
  current_ticket (snd (fst served)) = ticket /\
  begin_sends (snd served) = [ticket_message ticket] /\
  map next_context (directives (snd served))
    = [ "confirm_phone_number"; "confirm_email_on_file"; "confirm_work_location";
        "confirm_contact_method"; "provide_work_address"; "confirm_urgency";
        "capture_issue"; "confirm_additional_request" ].
Proof.
  intros He Htel served ticket. subst served ticket.
  destruct g as [ce np tk ro target]. cbn in He. subst ce.
  destruct e as [eid fn ln dn tel em]. cbn [telephone_number] in Htel.
  destruct tel as [| a tel']; [congruence |].
  unfold one_by_one, ticket_dialog.
  lazy - [send_email ticket_message begin_sends directives].
  rewrite send_email_trace.
  destruct (send_email_logs_silent svc) as [Hm Hd].
  set (logs := (_ ++ [Log (final_log svc)])%list) in *. clearbody logs.
  lazy - [ticket_message begin_sends directives].
  split; [reflexivity |]. split; [reflexivity |].
  unfold begin_sends, directives, omap in *.
  cbn [list_omap message_of directive_of].
  fold (@app Effect logs []). rewrite !(app_nil_r logs).
  fold (@app Effect logs []). rewrite !(app_nil_r logs).
  rewrite Hm, Hd. split; reflexivity.
Qed.

Lemma ticket_collects_answers_witness :
  current_employee (globals_of call_1_says_id) = Some ada /\
  telephone_number ada <> EmptyString /\
  begin_sends
    (snd (serve example_dict
            (one_by_one example_service
               (ticket_dialog "call-1" "Office" "Email" "12 Main Street" "High"
                              "Printer is broken"))
            (globals_of call_1_says_id)))
  = [ticket_message
       (mkTicket "Ada Byron" "e672834" "Email" (Some "5550100") "ada.byron@fire.example"
                 "Office" "12 Main Street" "High" "Printer is broken")].
Proof.
  assert (H1 : current_employee (globals_of call_1_says_id) = Some ada)
    by (vm_compute; reflexivity).
  assert (H2 : telephone_number ada <> EmptyString) by (intros H; discriminate H).
  split; [exact H1 |]. split; [exact H2 |].
  exact (proj1 (proj2 (proj2 (ticket_collects_answers example_dict example_service "call-1"
                                ada "Office" "Email" "12 Main Street" "High"
                                "Printer is broken" (globals_of call_1_says_id) H1 H2)))).
Defined.
